(** * Bilateral nearest-neighbour operator on 6-d point sets

    A shallow embedding of the CPU kernels of
    [vvn/ops/src/tf_nndistance_2.cpp]: the search function [nnsearch], the
    forward kernel [NnDistance2Op::Compute] and the backward kernel
    [NnDistance2GradOp::Compute], followed by the properties proved about
    them.  The GPU kernels hand over to launchers that the file only
    declares; they are not embedded.

    Conventions of the embedding.
    - [float] and [double] are IEEE 754 binary32 and binary64 values, given
      by the Standard Library's executable specification [SpecFloat].  An
      operation on two [float] operands is evaluated in binary32, as the
      C++ type rules say and as the SSE and AArch64 code generators do.
    - [int] is a 32-bit two's complement integer, held in [Z]; every
      arithmetic step of the index computations is wrapped, and an extent
      read into an [int] is reduced the same way.
    - A raw pointer into a tensor is the flat list of its elements; reading
      or writing outside of it is a fault, [None].
    - [allocate_output] succeeds and hands out memory of unknown content.
    - A kernel returns [Some] context, with its status and output slots,
      or faults. *)

From Stdlib Require Import ZArith Lia String SpecFloat.
From stdpp Require Import base option list.

Local Open Scope Z_scope.

(** ** Machine integers *)

Module Int.

Definition max_signed : Z := 2147483647.

(** Two's complement reduction of an integer to 32 bits. *)
Definition wrap (z : Z) : Z := (z + 2147483648) mod 4294967296 - 2147483648.

Definition add (a b : Z) : Z := wrap (a + b).
Definition mul (a b : Z) : Z := wrap (a * b).

End Int.

(** ** Floating-point numbers *)

Definition float : Type := spec_float.
Definition double : Type := spec_float.

Module F32.

Definition prec : Z := 24.
Definition emax : Z := 128.

Definition zero : float := S754_zero false.
Definition add : float -> float -> float := SFadd prec emax.
Definition sub : float -> float -> float := SFsub prec emax.
Definition mul : float -> float -> float := SFmul prec emax.

(** Conversion of an integer constant ([0] in [grad_xyz1[i]=0], [2] in
    [grad_dist1[..]*2]). *)
Definition of_int (z : Z) : float := binary_normalize prec emax z 0 false.

(** Narrowing conversion, [dist[i*n+j]=best]: round to nearest, ties to
    even. *)
Definition of_double (d : double) : float :=
  match d with
  | S754_finite s m e => binary_round prec emax s m e
  | _ => d
  end.

End F32.

Module F64.

Definition prec : Z := 53.
Definition emax : Z := 1024.

Definition zero : double := S754_zero false.
Definition add : double -> double -> double := SFadd prec emax.
Definition sub : double -> double -> double := SFsub prec emax.
Definition mul : double -> double -> double := SFmul prec emax.
Definition ltb : double -> double -> bool := SFltb.
Definition leb : double -> double -> bool := SFleb.
Definition eqb : double -> double -> bool := SFeqb.

(** Widening conversion, [double d = <float expression>]: the value is
    kept, the mantissa is realigned to 53 bits. *)
Definition of_float (x : float) : double :=
  match x with
  | S754_finite s m e => binary_round prec emax s m e
  | _ => x
  end.

End F64.

Definition is_nan (x : spec_float) : bool :=
  match x with S754_nan => true | _ => false end.

Definition is_zero (x : spec_float) : bool :=
  match x with S754_zero _ => true | _ => false end.

(** ** Flat buffers and loops *)

Section Memory.
Context {A : Type}.

(** [buf[p]] as an rvalue. *)
Definition rd (buf : list A) (p : Z) : option A :=
  if decide (0 <= p) then buf !! Z.to_nat p else None.

(** [buf[p] = v]. *)
Definition wr (buf : list A) (p : Z) (v : A) : option (list A) :=
  if decide (0 <= p < Z.of_nat (length buf))
  then Some (<[Z.to_nat p := v]> buf)
  else None.

End Memory.

(** [for (int k = lo; k < lo + fuel; k++) body], threading the state. *)
Fixpoint for_from {S : Type} (fuel : nat) (k : Z)
    (body : Z -> S -> option S) (s : S) : option S :=
  match fuel with
  | O => Some s
  | Datatypes.S fuel' =>
      match body k s with
      | Some s' => for_from fuel' (k + 1) body s'
      | None => None
      end
  end.

(** [for (int k = 0; k < n; k++) body]. *)
Definition for_loop {S : Type} (n : Z) (body : Z -> S -> option S) (s : S)
    : option S :=
  for_from (Z.to_nat n) 0 body s.

(** Row-major offsets, in [int] arithmetic: [i*n+j] and [(i*n+j)*6+c]. *)
Definition flat2 (i n j : Z) : Z := Int.add (Int.mul i n) j.
Definition flat6 (i n j c : Z) : Z := Int.add (Int.mul (flat2 i n j) 6) c.

(** ** [nnsearch] *)

(** One turn of the loop over [k] (lines 35 to 45). *)
Definition nnsearch_step (i m : Z) (xyz2 : list float)
    (x1 y1 z1 x1_1 y1_1 z1_1 : float) (k : Z) (st : double * Z)
    : option (double * Z) :=
  let '(best, besti) := st in
  v0 ← rd xyz2 (flat6 i m k 0); let x2 := F32.sub v0 x1 in
  v1 ← rd xyz2 (flat6 i m k 1); let y2 := F32.sub v1 y1 in
  v2 ← rd xyz2 (flat6 i m k 2); let z2 := F32.sub v2 z1 in
  v3 ← rd xyz2 (flat6 i m k 3); let x2_1 := F32.sub v3 x1_1 in
  v4 ← rd xyz2 (flat6 i m k 4); let y2_1 := F32.sub v4 y1_1 in
  v5 ← rd xyz2 (flat6 i m k 5); let z2_1 := F32.sub v5 z1_1 in
  let d : double :=
    F64.of_float
      (F32.add (F32.add (F32.add (F32.add (F32.add
         (F32.mul x2 x2) (F32.mul y2 y2)) (F32.mul z2 z2))
         (F32.mul x2_1 x2_1)) (F32.mul y2_1 y2_1)) (F32.mul z2_1 z2_1)) in
  if (k =? 0) || F64.ltb d best then Some (d, k) else Some (best, besti).

(** The body of the loop over [j] (lines 26 to 48). *)
Definition nnsearch_point (n m : Z) (xyz1 xyz2 : list float) (i j : Z)
    (out : list float * list Z) : option (list float * list Z) :=
  let '(dist, idx) := out in
  x1 ← rd xyz1 (flat6 i n j 0);
  y1 ← rd xyz1 (flat6 i n j 1);
  z1 ← rd xyz1 (flat6 i n j 2);
  x1_1 ← rd xyz1 (flat6 i n j 3);
  y1_1 ← rd xyz1 (flat6 i n j 4);
  z1_1 ← rd xyz1 (flat6 i n j 5);
  '(best, besti) ←
    for_loop m (nnsearch_step i m xyz2 x1 y1 z1 x1_1 y1_1 z1_1) (F64.zero, 0);
  dist ← wr dist (flat2 i n j) (F32.of_double best);
  idx ← wr idx (flat2 i n j) besti;
  Some (dist, idx).

Definition nnsearch (b n m : Z) (xyz1 xyz2 : list float)
    (dist : list float) (idx : list Z) : option (list float * list Z) :=
  for_loop b (fun i => for_loop n (nnsearch_point n m xyz1 xyz2 i)) (dist, idx).

(** ** Tensors and the kernel context *)

Record Tensor (A : Type) : Type := mkTensor { shape : list Z; flat : list A }.
Arguments mkTensor {A} shape flat.
Arguments shape {A} t.
Arguments flat {A} t.

(** [t.dims()] and [t.shape().dim_size(d)]. *)
Definition dims {A} (t : Tensor A) : Z := Z.of_nat (length (shape t)).
Definition dim_size {A} (t : Tensor A) (d : nat) : Z := default 0 (shape t !! d).

Definition num_elements (sh : list Z) : Z := foldr Z.mul 1 sh.

(** [TensorShape{...}] built from [int] extents; a negative extent aborts. *)
Definition TensorShape (extents : list Z) : option (list Z) :=
  if decide (Forall (fun d => 0 <= d) extents) then Some extents else None.

(** A freshly allocated tensor: its elements are not initialised, [junk]
    stands for whatever the allocator left there. *)
Definition fresh {A} (sh : list Z) (junk : A) : Tensor A :=
  mkTensor sh (replicate (Z.to_nat (num_elements sh)) junk).

Inductive Status : Type :=
  | OK
  | InvalidArgument (msg : string).

(** The part of [OpKernelContext] the forward kernel acts on: the status and
    the four output slots, [None] while a slot is not allocated. *)
Record FwdContext : Type := mkFwd {
  fwd_status : Status;
  dist1_tensor : option (Tensor float);
  idx1_tensor : option (Tensor Z);
  dist2_tensor : option (Tensor float);
  idx2_tensor : option (Tensor Z)
}.

Definition fwd_entry : FwdContext := mkFwd OK None None None None.

Definition fwd_set_status (c : FwdContext) (s : Status) : FwdContext :=
  mkFwd s (dist1_tensor c) (idx1_tensor c) (dist2_tensor c) (idx2_tensor c).

(** The same for the backward kernel, with its two output slots. *)
Record GradContext : Type := mkGrad {
  grad_status : Status;
  grad_xyz1_tensor : option (Tensor float);
  grad_xyz2_tensor : option (Tensor float)
}.

Definition grad_entry : GradContext := mkGrad OK None None.

Definition grad_set_status (c : GradContext) (s : Status) : GradContext :=
  mkGrad s (grad_xyz1_tensor c) (grad_xyz2_tensor c).

(** [OP_REQUIRES(context, cond, err)]: when [cond] fails, record [err] in
    the context and return from [Compute]. *)
Definition OP_REQUIRES {C : Type} (set : C -> Status -> C) (context : C)
    (cond : bool) (err : Status) (k : option C) : option C :=
  if cond then k else Some (set context err).

(** ** [NnDistance2Op::Compute] *)

Definition NnDistance2Op_Compute (junk_f : float) (junk_i : Z)
    (xyz1_tensor xyz2_tensor : Tensor float) : option FwdContext :=
  let context := fwd_entry in
  OP_REQUIRES fwd_set_status context (dims xyz1_tensor =? 3)
    (InvalidArgument "NnDistance requires xyz1 be of shape (batch,#points,6)"%string) (
  OP_REQUIRES fwd_set_status context (dim_size xyz1_tensor 2 =? 6)
    (InvalidArgument "NnDistance only accepts 6d point set xyz1"%string) (
  let b := Int.wrap (dim_size xyz1_tensor 0) in
  let n := Int.wrap (dim_size xyz1_tensor 1) in
  OP_REQUIRES fwd_set_status context (dims xyz2_tensor =? 3)
    (InvalidArgument "NnDistance requires xyz2 be of shape (batch,#points,6)"%string) (
  OP_REQUIRES fwd_set_status context (dim_size xyz2_tensor 2 =? 6)
    (InvalidArgument "NnDistance only accepts 6d point set xyz2"%string) (
  let m := Int.wrap (dim_size xyz2_tensor 1) in
  OP_REQUIRES fwd_set_status context (dim_size xyz2_tensor 0 =? b)
    (InvalidArgument "NnDistance expects xyz1 and xyz2 have same batch size"%string) (
  let xyz1 := flat xyz1_tensor in
  let xyz2 := flat xyz2_tensor in
  sh1 ← TensorShape [b; n];
  let dist1_t := fresh sh1 junk_f in
  let idx1_t := fresh sh1 junk_i in
  sh2 ← TensorShape [b; m];
  let dist2_t := fresh sh2 junk_f in
  let idx2_t := fresh sh2 junk_i in
  '(dist1, idx1) ← nnsearch b n m xyz1 xyz2 (flat dist1_t) (flat idx1_t);
  '(dist2, idx2) ← nnsearch b m n xyz2 xyz1 (flat dist2_t) (flat idx2_t);
  Some (mkFwd (fwd_status context)
          (Some (mkTensor sh1 dist1)) (Some (mkTensor sh1 idx1))
          (Some (mkTensor sh2 dist2)) (Some (mkTensor sh2 idx2)))))))).

(** ** [NnDistance2GradOp::Compute] *)

(** [buf[p] += v] and [buf[p] -= v] on [float]. *)
Definition add_at (buf : list float) (p : Z) (v : float) : option (list float) :=
  old ← rd buf p; wr buf p (F32.add old v).
Definition sub_at (buf : list float) (p : Z) (v : float) : option (list float) :=
  old ← rd buf p; wr buf p (F32.sub old v).

(** The body of the first loop over [j] (lines 140 to 165). *)
Definition grad_point1 (n m : Z) (xyz1 xyz2 grad_dist1 : list float)
    (idx1 : list Z) (i j : Z) (g : list float * list float)
    : option (list float * list float) :=
  let '(grad_xyz1, grad_xyz2) := g in
  x1 ← rd xyz1 (flat6 i n j 0);
  y1 ← rd xyz1 (flat6 i n j 1);
  z1 ← rd xyz1 (flat6 i n j 2);
  x1_1 ← rd xyz1 (flat6 i n j 3);
  y1_1 ← rd xyz1 (flat6 i n j 4);
  z1_1 ← rd xyz1 (flat6 i n j 5);
  j2 ← rd idx1 (flat2 i n j);
  x2 ← rd xyz2 (flat6 i m j2 0);
  y2 ← rd xyz2 (flat6 i m j2 1);
  z2 ← rd xyz2 (flat6 i m j2 2);
  x2_1 ← rd xyz2 (flat6 i m j2 3);
  y2_1 ← rd xyz2 (flat6 i m j2 4);
  z2_1 ← rd xyz2 (flat6 i m j2 5);
  gd ← rd grad_dist1 (flat2 i n j);
  let g := F32.mul gd (F32.of_int 2) in
  grad_xyz1 ← add_at grad_xyz1 (flat6 i n j 0) (F32.mul g (F32.sub x1 x2));
  grad_xyz1 ← add_at grad_xyz1 (flat6 i n j 1) (F32.mul g (F32.sub y1 y2));
  grad_xyz1 ← add_at grad_xyz1 (flat6 i n j 2) (F32.mul g (F32.sub z1 z2));
  grad_xyz1 ← add_at grad_xyz1 (flat6 i n j 3) (F32.mul g (F32.sub x1_1 x2_1));
  grad_xyz1 ← add_at grad_xyz1 (flat6 i n j 4) (F32.mul g (F32.sub y1_1 y2_1));
  grad_xyz1 ← add_at grad_xyz1 (flat6 i n j 5) (F32.mul g (F32.sub z1_1 z2_1));
  grad_xyz2 ← sub_at grad_xyz2 (flat6 i m j2 0) (F32.mul g (F32.sub x1 x2));
  grad_xyz2 ← sub_at grad_xyz2 (flat6 i m j2 1) (F32.mul g (F32.sub y1 y2));
  grad_xyz2 ← sub_at grad_xyz2 (flat6 i m j2 2) (F32.mul g (F32.sub z1 z2));
  grad_xyz2 ← sub_at grad_xyz2 (flat6 i m j2 3) (F32.mul g (F32.sub x1_1 x2_1));
  grad_xyz2 ← sub_at grad_xyz2 (flat6 i m j2 4) (F32.mul g (F32.sub y1_1 y2_1));
  grad_xyz2 ← sub_at grad_xyz2 (flat6 i m j2 5) (F32.mul g (F32.sub z1_1 z2_1));
  Some (grad_xyz1, grad_xyz2).

(** The body of the second loop over [j] (lines 168 to 193). *)
Definition grad_point2 (n m : Z) (xyz1 xyz2 grad_dist2 : list float)
    (idx2 : list Z) (i j : Z) (g : list float * list float)
    : option (list float * list float) :=
  let '(grad_xyz1, grad_xyz2) := g in
  x1 ← rd xyz2 (flat6 i m j 0);
  y1 ← rd xyz2 (flat6 i m j 1);
  z1 ← rd xyz2 (flat6 i m j 2);
  x1_1 ← rd xyz2 (flat6 i m j 3);
  y1_1 ← rd xyz2 (flat6 i m j 4);
  z1_1 ← rd xyz2 (flat6 i m j 5);
  j2 ← rd idx2 (flat2 i m j);
  x2 ← rd xyz1 (flat6 i n j2 0);
  y2 ← rd xyz1 (flat6 i n j2 1);
  z2 ← rd xyz1 (flat6 i n j2 2);
  x2_1 ← rd xyz1 (flat6 i n j2 3);
  y2_1 ← rd xyz1 (flat6 i n j2 4);
  z2_1 ← rd xyz1 (flat6 i n j2 5);
  gd ← rd grad_dist2 (flat2 i m j);
  let g := F32.mul gd (F32.of_int 2) in
  grad_xyz2 ← add_at grad_xyz2 (flat6 i m j 0) (F32.mul g (F32.sub x1 x2));
  grad_xyz2 ← add_at grad_xyz2 (flat6 i m j 1) (F32.mul g (F32.sub y1 y2));
  grad_xyz2 ← add_at grad_xyz2 (flat6 i m j 2) (F32.mul g (F32.sub z1 z2));
  grad_xyz2 ← add_at grad_xyz2 (flat6 i m j 3) (F32.mul g (F32.sub x1_1 x2_1));
  grad_xyz2 ← add_at grad_xyz2 (flat6 i m j 4) (F32.mul g (F32.sub y1_1 y2_1));
  grad_xyz2 ← add_at grad_xyz2 (flat6 i m j 5) (F32.mul g (F32.sub z1_1 z2_1));
  grad_xyz1 ← sub_at grad_xyz1 (flat6 i n j2 0) (F32.mul g (F32.sub x1 x2));
  grad_xyz1 ← sub_at grad_xyz1 (flat6 i n j2 1) (F32.mul g (F32.sub y1 y2));
  grad_xyz1 ← sub_at grad_xyz1 (flat6 i n j2 2) (F32.mul g (F32.sub z1 z2));
  grad_xyz1 ← sub_at grad_xyz1 (flat6 i n j2 3) (F32.mul g (F32.sub x1_1 x2_1));
  grad_xyz1 ← sub_at grad_xyz1 (flat6 i n j2 4) (F32.mul g (F32.sub y1_1 y2_1));
  grad_xyz1 ← sub_at grad_xyz1 (flat6 i n j2 5) (F32.mul g (F32.sub z1_1 z2_1));
  Some (grad_xyz1, grad_xyz2).

(** The body of the loop over the batches (lines 139 to 194). *)
Definition grad_batch (n m : Z) (xyz1 xyz2 grad_dist1 : list float)
    (idx1 : list Z) (grad_dist2 : list float) (idx2 : list Z) (i : Z)
    (g : list float * list float) : option (list float * list float) :=
  g ← for_loop n (grad_point1 n m xyz1 xyz2 grad_dist1 idx1 i) g;
  for_loop m (grad_point2 n m xyz1 xyz2 grad_dist2 idx2 i) g.

(** [for (int i=0;i<len;i++) buf[i]=0;] *)
Definition zero_fill (len : Z) (buf : list float) : option (list float) :=
  for_loop len (fun i buf => wr buf i (F32.of_int 0)) buf.

(** Lines 134 to 195: the two clearing loops, then the scatter. *)
Definition grad_loops (b n m : Z) (xyz1 xyz2 grad_dist1 : list float)
    (idx1 : list Z) (grad_dist2 : list float) (idx2 : list Z)
    (grad_xyz1 grad_xyz2 : list float) : option (list float * list float) :=
  grad_xyz1 ← zero_fill (Int.mul (Int.mul b n) 6) grad_xyz1;
  grad_xyz2 ← zero_fill (Int.mul (Int.mul b m) 6) grad_xyz2;
  for_loop b (grad_batch n m xyz1 xyz2 grad_dist1 idx1 grad_dist2 idx2)
    (grad_xyz1, grad_xyz2).

Definition shape_is {A} (t : Tensor A) (extents : list Z) : option bool :=
  sh ← TensorShape extents; Some (bool_decide (shape t = sh)).

Definition NnDistance2GradOp_Compute (junk_f : float)
    (xyz1_tensor xyz2_tensor grad_dist1_tensor : Tensor float)
    (idx1_tensor : Tensor Z) (grad_dist2_tensor : Tensor float)
    (idx2_tensor : Tensor Z) : option GradContext :=
  let context := grad_entry in
  OP_REQUIRES grad_set_status context (dims xyz1_tensor =? 3)
    (InvalidArgument "NnDistance requires xyz1 be of shape (batch,#points,6)"%string) (
  OP_REQUIRES grad_set_status context (dim_size xyz1_tensor 2 =? 6)
    (InvalidArgument "NnDistance only accepts 6d point set xyz1"%string) (
  let b := Int.wrap (dim_size xyz1_tensor 0) in
  let n := Int.wrap (dim_size xyz1_tensor 1) in
  OP_REQUIRES grad_set_status context (dims xyz2_tensor =? 3)
    (InvalidArgument "NnDistance requires xyz2 be of shape (batch,#points,6)"%string) (
  OP_REQUIRES grad_set_status context (dim_size xyz2_tensor 2 =? 6)
    (InvalidArgument "NnDistance only accepts 6d point set xyz2"%string) (
  let m := Int.wrap (dim_size xyz2_tensor 1) in
  OP_REQUIRES grad_set_status context (dim_size xyz2_tensor 0 =? b)
    (InvalidArgument "NnDistance expects xyz1 and xyz2 have same batch size"%string) (
  ok1 ← shape_is grad_dist1_tensor [b; n];
  OP_REQUIRES grad_set_status context ok1
    (InvalidArgument "NnDistanceGrad requires grad_dist1 be of shape(batch,#points)"%string) (
  ok2 ← shape_is idx1_tensor [b; n];
  OP_REQUIRES grad_set_status context ok2
    (InvalidArgument "NnDistanceGrad requires idx1 be of shape(batch,#points)"%string) (
  ok3 ← shape_is grad_dist2_tensor [b; m];
  OP_REQUIRES grad_set_status context ok3
    (InvalidArgument "NnDistanceGrad requires grad_dist2 be of shape(batch,#points)"%string) (
  ok4 ← shape_is idx2_tensor [b; m];
  OP_REQUIRES grad_set_status context ok4
    (InvalidArgument "NnDistanceGrad requires idx2 be of shape(batch,#points)"%string) (
  let xyz1 := flat xyz1_tensor in
  let xyz2 := flat xyz2_tensor in
  let idx1 := flat idx1_tensor in
  let idx2 := flat idx2_tensor in
  let grad_dist1 := flat grad_dist1_tensor in
  let grad_dist2 := flat grad_dist2_tensor in
  sh1 ← TensorShape [b; n; 6];
  let grad_xyz1_t := fresh sh1 junk_f in
  sh2 ← TensorShape [b; m; 6];
  let grad_xyz2_t := fresh sh2 junk_f in
  '(grad_xyz1, grad_xyz2) ←
    grad_loops b n m xyz1 xyz2 grad_dist1 idx1 grad_dist2 idx2
      (flat grad_xyz1_t) (flat grad_xyz2_t);
  Some (mkGrad (grad_status context)
          (Some (mkTensor sh1 grad_xyz1))
          (Some (mkTensor sh2 grad_xyz2)))))))))))).

(** ** The GPU kernels *)

Section Launchers.

(** [NmDistance2KernelLauncher] and [NmDistance2GradKernelLauncher] are
    declared in the file and defined elsewhere; they are parameters here.
    A launcher receives the extents and the buffers and leaves the output
    buffers filled, or faults. *)
Variable NmDistance2KernelLauncher :
  Z -> Z -> list float -> Z -> list float ->
  list float -> list Z -> list float -> list Z ->
  option ((list float * list Z) * (list float * list Z)).
Variable NmDistance2GradKernelLauncher :
  Z -> Z -> list float -> Z -> list float ->
  list float -> list Z -> list float -> list Z ->
  list float -> list float -> option (list float * list float).

(** [NnDistance2GpuOp::Compute] *)
Definition NnDistance2GpuOp_Compute (junk_f : float) (junk_i : Z)
    (xyz1_tensor xyz2_tensor : Tensor float) : option FwdContext :=
  let context := fwd_entry in
  OP_REQUIRES fwd_set_status context (dims xyz1_tensor =? 3)
    (InvalidArgument "NnDistance requires xyz1 be of shape (batch,#points,6)"%string) (
  OP_REQUIRES fwd_set_status context (dim_size xyz1_tensor 2 =? 6)
    (InvalidArgument "NnDistance only accepts 6d point set xyz1"%string) (
  let b := Int.wrap (dim_size xyz1_tensor 0) in
  let n := Int.wrap (dim_size xyz1_tensor 1) in
  OP_REQUIRES fwd_set_status context (dims xyz2_tensor =? 3)
    (InvalidArgument "NnDistance requires xyz2 be of shape (batch,#points,6)"%string) (
  OP_REQUIRES fwd_set_status context (dim_size xyz2_tensor 2 =? 6)
    (InvalidArgument "NnDistance only accepts 6d point set xyz2"%string) (
  let m := Int.wrap (dim_size xyz2_tensor 1) in
  OP_REQUIRES fwd_set_status context (dim_size xyz2_tensor 0 =? b)
    (InvalidArgument "NnDistance expects xyz1 and xyz2 have same batch size"%string) (
  let xyz1 := flat xyz1_tensor in
  let xyz2 := flat xyz2_tensor in
  sh1 ← TensorShape [b; n];
  let dist1_t := fresh sh1 junk_f in
  let idx1_t := fresh sh1 junk_i in
  sh2 ← TensorShape [b; m];
  let dist2_t := fresh sh2 junk_f in
  let idx2_t := fresh sh2 junk_i in
  '((dist1, idx1), (dist2, idx2)) ←
    NmDistance2KernelLauncher b n xyz1 m xyz2
      (flat dist1_t) (flat idx1_t) (flat dist2_t) (flat idx2_t);
  Some (mkFwd (fwd_status context)
          (Some (mkTensor sh1 dist1)) (Some (mkTensor sh1 idx1))
          (Some (mkTensor sh2 dist2)) (Some (mkTensor sh2 idx2)))))))).

(** [NnDistance2GradGpuOp::Compute] *)
Definition NnDistance2GradGpuOp_Compute (junk_f : float)
    (xyz1_tensor xyz2_tensor grad_dist1_tensor : Tensor float)
    (idx1_tensor : Tensor Z) (grad_dist2_tensor : Tensor float)
    (idx2_tensor : Tensor Z) : option GradContext :=
  let context := grad_entry in
  OP_REQUIRES grad_set_status context (dims xyz1_tensor =? 3)
    (InvalidArgument "NnDistance requires xyz1 be of shape (batch,#points,6)"%string) (
  OP_REQUIRES grad_set_status context (dim_size xyz1_tensor 2 =? 6)
    (InvalidArgument "NnDistance only accepts 6d point set xyz1"%string) (
  let b := Int.wrap (dim_size xyz1_tensor 0) in
  let n := Int.wrap (dim_size xyz1_tensor 1) in
  OP_REQUIRES grad_set_status context (dims xyz2_tensor =? 3)
    (InvalidArgument "NnDistance requires xyz2 be of shape (batch,#points,6)"%string) (
  OP_REQUIRES grad_set_status context (dim_size xyz2_tensor 2 =? 6)
    (InvalidArgument "NnDistance only accepts 6d point set xyz2"%string) (
  let m := Int.wrap (dim_size xyz2_tensor 1) in
  OP_REQUIRES grad_set_status context (dim_size xyz2_tensor 0 =? b)
    (InvalidArgument "NnDistance expects xyz1 and xyz2 have same batch size"%string) (
  ok1 ← shape_is grad_dist1_tensor [b; n];
  OP_REQUIRES grad_set_status context ok1
    (InvalidArgument "NnDistanceGrad requires grad_dist1 be of shape(batch,#points)"%string) (
  ok2 ← shape_is idx1_tensor [b; n];
  OP_REQUIRES grad_set_status context ok2
    (InvalidArgument "NnDistanceGrad requires idx1 be of shape(batch,#points)"%string) (
  ok3 ← shape_is grad_dist2_tensor [b; m];
  OP_REQUIRES grad_set_status context ok3
    (InvalidArgument "NnDistanceGrad requires grad_dist2 be of shape(batch,#points)"%string) (
  ok4 ← shape_is idx2_tensor [b; m];
  OP_REQUIRES grad_set_status context ok4
    (InvalidArgument "NnDistanceGrad requires idx2 be of shape(batch,#points)"%string) (
  let xyz1 := flat xyz1_tensor in
  let xyz2 := flat xyz2_tensor in
  let idx1 := flat idx1_tensor in
  let idx2 := flat idx2_tensor in
  let grad_dist1 := flat grad_dist1_tensor in
  let grad_dist2 := flat grad_dist2_tensor in
  sh1 ← TensorShape [b; n; 6];
  let grad_xyz1_t := fresh sh1 junk_f in
  sh2 ← TensorShape [b; m; 6];
  let grad_xyz2_t := fresh sh2 junk_f in
  '(grad_xyz1, grad_xyz2) ←
    NmDistance2GradKernelLauncher b n xyz1 m xyz2 grad_dist1 idx1
      grad_dist2 idx2 (flat grad_xyz1_t) (flat grad_xyz2_t);
  Some (mkGrad (grad_status context)
          (Some (mkTensor sh1 grad_xyz1))
          (Some (mkTensor sh2 grad_xyz2)))))))))))).

End Launchers.

(** * Specification vocabulary *)

(** ** Logical view of the buffers *)

(** [xyz[i,j,c]] and [a[i,j]] of a row-major buffer with [n] points per
    batch. *)
Definition at3 (buf : list float) (n i j c : Z) : float :=
  default F32.zero (rd buf ((i * n + j) * 6 + c)).
Definition at2 {A} (dflt : A) (buf : list A) (n i j : Z) : A :=
  default dflt (rd buf (i * n + j)).

(** The squared distance of a candidate [q] from a point [p], as line 41
    computes it: differences, products and sum in [float], the sum widened
    to [double]. *)
Definition sq_dist (p q : Z -> float) : double :=
  let df c := F32.sub (q c) (p c) in
  F64.of_float
    (F32.add (F32.add (F32.add (F32.add (F32.add
       (F32.mul (df 0) (df 0)) (F32.mul (df 1) (df 1)))
       (F32.mul (df 2) (df 2))) (F32.mul (df 3) (df 3)))
       (F32.mul (df 4) (df 4))) (F32.mul (df 5) (df 5))).

(** The incumbent after candidate [k] at distance [d k] has been seen. *)
Definition pick (d : Z -> double) (k : Z) (st : double * Z) : double * Z :=
  if (k =? 0) || F64.ltb (d k) st.1 then (d k, k) else st.

(** What the scan over [m] candidates leaves in [(best, besti)]: with no
    candidate, the initial values; otherwise a candidate that none beats
    and that no earlier one equals. *)
Definition scan_post (d : Z -> double) (m : Z) (st : double * Z) : Prop :=
  if decide (m <= 0) then st = (F64.zero, 0)
  else
    0 <= st.2 < m /\ st.1 = d st.2 /\
    (forall k, 0 <= k < m -> F64.ltb (d k) st.1 = false) /\
    (forall k, 0 <= k < st.2 -> F64.leb (d k) st.1 = false).

(** The distance of candidate [k] of batch [i] of [xyz2] from point [j] of
    batch [i] of [xyz1]. *)
Definition cand_dist (n m : Z) (xyz1 xyz2 : list float) (i j k : Z) : double :=
  sq_dist (at3 xyz1 n i j) (at3 xyz2 m i k).

(** What [nnsearch] leaves in cell [(i,j)] of its two outputs. *)
Definition cell_ok (n m : Z) (xyz1 xyz2 : list float)
    (dist : list float) (idx : list Z) (i j : Z) : Prop :=
  exists st, scan_post (cand_dist n m xyz1 xyz2 i j) m st /\
    rd dist (i * n + j) = Some (F32.of_double st.1) /\
    rd idx (i * n + j) = Some st.2.

(** ** Accepted inputs *)

(** A tensor holding [b] batches of [n] points, of a size the [int] offsets
    of the kernel can address. *)
Record point_set (t : Tensor float) (b n : Z) : Prop := {
  ps_shape : shape t = [b; n; 6];
  ps_flat : Z.of_nat (length (flat t)) = b * n * 6;
  ps_batch : 0 <= b <= Int.max_signed;
  ps_points : 0 <= n <= Int.max_signed;
  ps_size : b * n * 6 <= Int.max_signed
}.

(** ** The order of IEEE comparison *)

(** Every value but NaN has a place in a lexicographic order on triples:
    class, then exponent, then mantissa.  [SFcompare] is the comparison of
    the places. *)
Definition place (x : spec_float) : option (Z * Z * Z) :=
  match x with
  | S754_nan => None
  | S754_zero _ => Some (0, 0, 0)
  | S754_infinity false => Some (2, 0, 0)
  | S754_infinity true => Some (-2, 0, 0)
  | S754_finite false m e => Some (1, e, Z.pos m)
  | S754_finite true m e => Some (-1, - e, - Z.pos m)
  end.

Definition lex_lt (p q : Z * Z * Z) : Prop :=
  let '(p1, p2, p3) := p in
  let '(q1, q2, q3) := q in
  p1 < q1 \/ (p1 = q1 /\ (p2 < q2 \/ (p2 = q2 /\ p3 < q3))).

Definition lex_le (p q : Z * Z * Z) : Prop := lex_lt p q \/ p = q.

(** ** Nearest candidates *)

Definition nan_free (d : Z -> double) (m : Z) : Prop :=
  forall k, 0 <= k < m -> is_nan (d k) = false.

(** [k] is a candidate below [m] that no candidate is nearer than. *)
Definition is_argmin (d : Z -> double) (m k : Z) : Prop :=
  0 <= k < m /\ forall k', 0 <= k' < m -> F64.leb (d k) (d k') = true.

(** The forward outputs with the two directions exchanged. *)
Definition swap_outputs (c : FwdContext) : FwdContext :=
  mkFwd (fwd_status c) (dist2_tensor c) (idx2_tensor c)
        (dist1_tensor c) (idx1_tensor c).

(** ** Sample inputs *)

Definition pt (c0 c1 c2 c3 c4 c5 : Z) : list float :=
  map F32.of_int [c0; c1; c2; c3; c4; c5].

(** One batch holding the origin. *)
Definition ex_origin : Tensor float := mkTensor [1; 1; 6] (pt 0 0 0 0 0 0).

(** One batch of two points, the second one nearer to the origin. *)
Definition ex_pair : Tensor float :=
  mkTensor [1; 2; 6] (pt 3 0 0 0 0 0 ++ pt 1 0 0 0 0 0).


(** One batch of two points, the first with a NaN coordinate, the second
    the origin. *)
Definition ex_nan : Tensor float :=
  mkTensor [1; 2; 6]
    ([S754_nan; F32.zero; F32.zero; F32.zero; F32.zero; F32.zero]
     ++ pt 0 0 0 0 0 0).

(** One batch of no point. *)
Definition ex_empty : Tensor float := mkTensor [1; 0; 6] [].

(** ** Gradients *)

(** The term [g*(x1-x2)] that point [(i,j)] of the set [xyzA] exchanges
    with its match [idx[i,j]] of the set [xyzB], for coordinate [c]. *)
Definition contrib (n m : Z) (xyzA xyzB grad_dist : list float)
    (idx : list Z) (i j c : Z) : float :=
  let j2 := at2 0 idx n i j in
  let g := F32.mul (at2 F32.zero grad_dist n i j) (F32.of_int 2) in
  F32.mul g (F32.sub (at3 xyzA n i j c) (at3 xyzB m i j2 c)).

(** [acc], less the terms [t j] of the points [j < J] matched with [k],
    subtracted in the order of [j]. *)
Fixpoint take_from (match_of : Z -> Z) (t : Z -> float) (k : Z) (J : nat)
    (acc : float) : float :=
  match J with
  | O => acc
  | S J' =>
      let a := take_from match_of t k J' acc in
      if match_of (Z.of_nat J') =? k then F32.sub a (t (Z.of_nat J')) else a
  end.

(** The value the claim assigns to [gradXyz1[i,j,c]]: zero, plus the
    point's own term of the first pass, less the terms of the second pass
    that name [j]. *)
Definition grad1_expected (n m : Z) (xyz1 xyz2 grad_dist1 : list float)
    (idx1 : list Z) (grad_dist2 : list float) (idx2 : list Z)
    (i j c : Z) : float :=
  take_from (at2 0 idx2 m i)
    (fun k => contrib m n xyz2 xyz1 grad_dist2 idx2 i k c) j (Z.to_nat m)
    (F32.add (F32.of_int 0) (contrib n m xyz1 xyz2 grad_dist1 idx1 i j c)).

(** The value the claim assigns to [gradXyz2[i,k,c]]: zero, less the terms
    of the first pass that name [k], plus the point's own term of the
    second pass. *)
Definition grad2_expected (n m : Z) (xyz1 xyz2 grad_dist1 : list float)
    (idx1 : list Z) (grad_dist2 : list float) (idx2 : list Z)
    (i k c : Z) : float :=
  F32.add
    (take_from (at2 0 idx1 n i)
       (fun j => contrib n m xyz1 xyz2 grad_dist1 idx1 i j c) k (Z.to_nat n)
       (F32.of_int 0))
    (contrib m n xyz2 xyz1 grad_dist2 idx2 i k c).

(** A buffer of [b] batches of [n] points that holds the grid [V]. *)
Definition agrees (g : list float) (b n : Z) (V : Z -> Z -> Z -> float)
    : Prop :=
  Z.of_nat (length g) = b * n * 6 /\
  forall i j c, 0 <= i < b -> 0 <= j < n -> 0 <= c < 6 ->
    rd g ((i * n + j) * 6 + c) = Some (V i j c).

Definition upd3 (V : Z -> Z -> Z -> float) (i j c : Z) (x : float)
    : Z -> Z -> Z -> float :=
  fun i' j' c' => if decide (i' = i /\ j' = j /\ c' = c) then x else V i' j' c'.

(** The upstream gradient and the matches of one direction. *)
Record side_input (grad_dist : Tensor float) (idx : Tensor Z) (b n m : Z)
    : Prop := {
  si_grad_shape : shape grad_dist = [b; n];
  si_grad_flat : Z.of_nat (length (flat grad_dist)) = b * n;
  si_idx_shape : shape idx = [b; n];
  si_idx_flat : Z.of_nat (length (flat idx)) = b * n
}.

(** Every match refers to one of the [m] points of the other set. *)
Definition in_range (idx : Tensor Z) (m : Z) : Prop :=
  Forall (fun k => 0 <= k < m) (flat idx).

(** Equality of values, the sign of a zero left aside. *)
Definition same_value (x y : float) : Prop :=
  x = y \/ (is_zero x = true /\ is_zero y = true).

Definition is_finite (x : float) : bool :=
  match x with
  | S754_zero _ | S754_finite _ _ _ => true
  | _ => false
  end.

(** One batch of one point at distance 1 from [ex_origin], with upstream
    gradients and matches for both directions. *)
Definition ex_unit : Tensor float := mkTensor [1; 1; 6] (pt 1 0 0 0 0 0).
Definition ex_grad_one : Tensor float := mkTensor [1; 1] [F32.of_int 1].
Definition ex_grad_zero : Tensor float := mkTensor [1; 1] [F32.of_int 0].
Definition ex_idx_first : Tensor Z := mkTensor [1; 1] [0].


(** ** Shape preconditions *)

(** The extents of a tensor are values of [int]. *)
Definition int_extents {A} (t : Tensor A) : Prop :=
  Forall (fun d => 0 <= d <= Int.max_signed) (shape t).

(** One of the two point sets is not of rank 3, or its last extent is not
    6, or the batch sizes differ. *)
Definition shape_violation (xyz1_tensor xyz2_tensor : Tensor float) : Prop :=
  dims xyz1_tensor <> 3 \/ dim_size xyz1_tensor 2 <> 6 \/
  dims xyz2_tensor <> 3 \/ dim_size xyz2_tensor 2 <> 6 \/
  dim_size xyz2_tensor 0 <> dim_size xyz1_tensor 0.

(** One of [grad_dist1], [idx1] is not of shape [[B,N]], or one of
    [grad_dist2], [idx2] is not of shape [[B,M]]. *)
Definition side_violation (xyz1_tensor xyz2_tensor : Tensor float)
    (grad_dist1_tensor : Tensor float) (idx1_tensor : Tensor Z)
    (grad_dist2_tensor : Tensor float) (idx2_tensor : Tensor Z) : Prop :=
  let B := dim_size xyz1_tensor 0 in
  let N := dim_size xyz1_tensor 1 in
  let M := dim_size xyz2_tensor 1 in
  shape grad_dist1_tensor <> [B; N] \/ shape idx1_tensor <> [B; N] \/
  shape grad_dist2_tensor <> [B; M] \/ shape idx2_tensor <> [B; M].

(** Two batches of no point, and matches of rank 1. *)
Definition ex_two_batches : Tensor float := mkTensor [2; 0; 6] [].
Definition ex_idx_rank1 : Tensor Z := mkTensor [1] [0].

(** ** Antisymmetry *)

(** The upstream gradient is zero everywhere. *)
Definition all_zero (grad_dist : Tensor float) : Prop :=
  Forall (fun g => is_zero g = true) (flat grad_dist).

(** No two points of a batch have the same match. *)
Definition injective_matches (idx : Tensor Z) (b n : Z) : Prop :=
  forall i j j', 0 <= i < b -> 0 <= j < n -> 0 <= j' < n ->
    at2 0 (flat idx) n i j = at2 0 (flat idx) n i j' -> j = j'.

(** The differences [x1-x2] formed by the pass from [xyzA] to [xyzB] are
    neither infinite nor NaN. *)
Definition finite_differences (xyzA xyzB : Tensor float) (idx : Tensor Z)
    (b n m : Z) : Prop :=
  forall i j c, 0 <= i < b -> 0 <= j < n -> 0 <= c < 6 ->
    is_finite (F32.sub (at3 (flat xyzA) n i j c)
                 (at3 (flat xyzB) m i (at2 0 (flat idx) n i j) c)) = true.

(** Two points per batch on either side; the first coordinates of the
    second point of [ex_left] and of the first point of [ex_right] are
    finite and their difference overflows. *)
Definition ex_left : Tensor float :=
  mkTensor [1; 2; 6] (pt (2 ^ 126) 0 0 0 0 0 ++ pt (- 2 ^ 127) 0 0 0 0 0).
Definition ex_right : Tensor float :=
  mkTensor [1; 2; 6] (pt (2 ^ 127) 0 0 0 0 0 ++ pt 1 0 0 0 0 0).
Definition ex_grad_ones : Tensor float :=
  mkTensor [1; 2] [F32.of_int 1; F32.of_int 1].
Definition ex_grad_zeros : Tensor float :=
  mkTensor [1; 2] [F32.of_int 0; F32.of_int 0].
Definition ex_idx_straight : Tensor Z := mkTensor [1; 2] [0; 1].
Definition ex_idx_crossed : Tensor Z := mkTensor [1; 2] [1; 0].

(** ** Accumulation in double precision *)

(** The squared distance as the specification words it: the coordinates
    are widened first, and differences, products and sum are formed in
    [double]. *)
Definition sq_dist_wide (p q : Z -> float) : double :=
  let df c := F64.sub (F64.of_float (q c)) (F64.of_float (p c)) in
  F64.add (F64.add (F64.add (F64.add (F64.add
    (F64.mul (df 0) (df 0)) (F64.mul (df 1) (df 1)))
    (F64.mul (df 2) (df 2))) (F64.mul (df 3) (df 3)))
    (F64.mul (df 4) (df 4))) (F64.mul (df 5) (df 5)).

Definition cand_dist_wide (n m : Z) (xyz1 xyz2 : list float) (i j k : Z)
    : double :=
  sq_dist_wide (at3 xyz1 n i j) (at3 xyz2 m i k).

(** Two points far from the origin, the second one nearer: the squares of
    both first coordinates exceed the range of [float], not of [double]. *)
Definition ex_far : Tensor float :=
  mkTensor [1; 2; 6] (pt (2 ^ 65) 0 0 0 0 0 ++ pt (2 ^ 64) 0 0 0 0 0).

(** Two points near the origin, [(1, 2^-12, 0, 0, 0, 0)] and
    [(1, 0, 0, 0, 0, 0)], the second one nearer by [2^-24]. *)
Definition ex_close : Tensor float :=
  mkTensor [1; 2; 6]
    ([F32.of_int 1; S754_finite false 8388608 (-35);
      F32.zero; F32.zero; F32.zero; F32.zero]
     ++ pt 1 0 0 0 0 0).

(** ** Closed forms of the forward outputs *)

(** [f] applied in turn for [k], [k+1], ... as often as [fuel] says. *)
Fixpoint iter_from {S : Type} (fuel : nat) (k : Z) (f : Z -> S -> S) (s : S)
    : S :=
  match fuel with
  | O => s
  | Datatypes.S fuel' => iter_from fuel' (k + 1) f (f k s)
  end.

(** The incumbent after all [m] candidates of batch [i] have been seen
    from point [j]. *)
Definition nearest (n m : Z) (xyz1 xyz2 : list float) (i j : Z)
    : double * Z :=
  iter_from (Z.to_nat m) 0 (pick (cand_dist n m xyz1 xyz2 i j)) (F64.zero, 0).

(** NaN, or a value whose sign bit is clear. *)
Definition not_negative (x : spec_float) : bool :=
  match x with
  | S754_nan => true
  | S754_zero s | S754_infinity s | S754_finite s _ _ => negb s
  end.

(** Two pairs of point sets hold the same coordinates in batch [i]. *)
Definition same_batch (n m : Z) (xyz1 xyz2 xyz1' xyz2' : list float) (i : Z)
    : Prop :=
  (forall j c, 0 <= j < n -> 0 <= c < 6 ->
     at3 xyz1 n i j c = at3 xyz1' n i j c) /\
  (forall k c, 0 <= k < m -> 0 <= c < 6 ->
     at3 xyz2 m i k c = at3 xyz2' m i k c).

(** Two batches on either side; the two pairs differ in the second
    batch only. *)
Definition ex_two_left : Tensor float :=
  mkTensor [2; 1; 6] (pt 0 0 0 0 0 0 ++ pt 5 0 0 0 0 0).
Definition ex_two_left' : Tensor float :=
  mkTensor [2; 1; 6] (pt 0 0 0 0 0 0 ++ pt 9 9 0 0 0 0).
Definition ex_two_right : Tensor float :=
  mkTensor [2; 2; 6]
    (pt 3 0 0 0 0 0 ++ pt 1 0 0 0 0 0 ++ pt 4 0 0 0 0 0 ++ pt 2 0 0 0 0 0).
Definition ex_two_right' : Tensor float :=
  mkTensor [2; 2; 6]
    (pt 3 0 0 0 0 0 ++ pt 1 0 0 0 0 0 ++ pt 7 0 0 0 0 0 ++ pt 8 0 0 0 0 0).

(** The inputs of two backward calls hold the same values in batch
    [i]. *)
Definition same_side (n : Z) (grad_dist grad_dist' : list float)
    (idx idx' : list Z) (i : Z) : Prop :=
  forall j, 0 <= j < n ->
    at2 F32.zero grad_dist n i j = at2 F32.zero grad_dist' n i j /\
    at2 0 idx n i j = at2 0 idx' n i j.

(** Upstream gradients and matches for [ex_two_left] and [ex_two_right];
    the primed ones differ in the second batch only. *)
Definition ex_two_grad1 : Tensor float :=
  mkTensor [2; 1] [F32.of_int 1; F32.of_int 1].
Definition ex_two_grad1' : Tensor float :=
  mkTensor [2; 1] [F32.of_int 1; F32.of_int 3].
Definition ex_two_idx1 : Tensor Z := mkTensor [2; 1] [1; 0].
Definition ex_two_idx1' : Tensor Z := mkTensor [2; 1] [1; 1].
Definition ex_two_grad2 : Tensor float :=
  mkTensor [2; 2] [F32.of_int 1; F32.of_int 1; F32.of_int 1; F32.of_int 1].
Definition ex_two_grad2' : Tensor float :=
  mkTensor [2; 2] [F32.of_int 1; F32.of_int 1; F32.of_int 2; F32.of_int 2].
Definition ex_two_idx2 : Tensor Z := mkTensor [2; 2] [0; 0; 0; 0].

(** An empty point set whose batch size is not a value of [int]. *)
Definition ex_oversized : Tensor float := mkTensor [2147483648; 0; 6] [].

(** A tensor of rank 1. *)
Definition ex_rank1 : Tensor float := mkTensor [6] (pt 0 0 0 0 0 0).

(** A launcher that faults. *)
Definition ex_launcher_fault :
    Z -> Z -> list float -> Z -> list float ->
    list float -> list Z -> list float -> list Z ->
    option ((list float * list Z) * (list float * list Z)) :=
  fun _ _ _ _ _ _ _ _ _ => None.
Definition ex_grad_launcher_fault :
    Z -> Z -> list float -> Z -> list float ->
    list float -> list Z -> list float -> list Z ->
    list float -> list float -> option (list float * list float) :=
  fun _ _ _ _ _ _ _ _ _ _ _ => None.

(** The [double] that holds the integer [z]. *)
Definition whole (z : Z) : double :=
  binary_normalize F64.prec F64.emax z 0 false.

(** Two candidates at squared distances 16777217 and 16777216 from the
    origin. *)
Definition ex_grid : Tensor float :=
  mkTensor [1; 2; 6] (pt 4096 1 0 0 0 0 ++ pt 4096 0 0 0 0 0).

(** Empty point sets with an extent that is not a value of [int]:
    [4294967297] batches, which [int b] holds as 1, and [4294967301]
    points, which [int n] holds as 5; and the tensors that go with the
    second one. *)
Definition ex_batch_wrapped : Tensor float := mkTensor [4294967297; 0; 6] [].
Definition ex_points_wrapped : Tensor float := mkTensor [0; 4294967301; 6] [].
Definition ex_no_batch : Tensor float := mkTensor [0; 1; 6] [].
Definition ex_grad_five : Tensor float := mkTensor [0; 5] [].
Definition ex_idx_five : Tensor Z := mkTensor [0; 5] [].
Definition ex_grad_none : Tensor float := mkTensor [0; 1] [].
Definition ex_idx_none : Tensor Z := mkTensor [0; 1] [].


(** * Properties *)

(** ** Integer and buffer arithmetic *)

Lemma wrap_small (z : Z) :
  -2147483648 <= z <= Int.max_signed -> Int.wrap z = z.
Proof.
  unfold Int.wrap, Int.max_signed. intros H.
  rewrite Z.mod_small; lia.
Qed.

Lemma row_bound (b n i j : Z) :
  0 <= i < b -> 0 <= j < n -> 0 <= i * n + j < b * n.
Proof. nia. Qed.

Lemma flat2_exact (b n i j : Z) :
  b * n <= Int.max_signed -> 0 <= i < b -> 0 <= j < n ->
  flat2 i n j = i * n + j.
Proof.
  intros Hb Hi Hj. unfold flat2, Int.add, Int.mul.
  pose proof (row_bound b n i j Hi Hj).
  assert (0 <= i * n <= i * n + j) by nia.
  rewrite (wrap_small (i * n)) by (unfold Int.max_signed in *; lia).
  apply wrap_small. unfold Int.max_signed in *; lia.
Qed.

Lemma flat6_exact (b n i j c : Z) :
  b * n * 6 <= Int.max_signed -> 0 <= i < b -> 0 <= j < n -> 0 <= c < 6 ->
  flat6 i n j c = (i * n + j) * 6 + c.
Proof.
  intros Hb Hi Hj Hc. unfold flat6.
  pose proof (row_bound b n i j Hi Hj).
  rewrite (flat2_exact b) by (unfold Int.max_signed in *; nia || lia).
  unfold Int.add, Int.mul.
  rewrite (wrap_small ((i * n + j) * 6)) by (unfold Int.max_signed in *; lia).
  apply wrap_small. unfold Int.max_signed in *; lia.
Qed.

Section MemoryFacts.
Context {A : Type}.
Implicit Types (buf : list A) (p q : Z) (v : A).

Lemma rd_lookup buf p : 0 <= p -> rd buf p = buf !! Z.to_nat p.
Proof. intros. unfold rd. destruct (decide (0 <= p)); [done | lia]. Qed.

Lemma rd_is_Some buf p :
  0 <= p < Z.of_nat (length buf) -> is_Some (rd buf p).
Proof.
  intros. rewrite rd_lookup by lia. apply lookup_lt_is_Some. lia.
Qed.

Lemma rd_None buf p :
  ¬ (0 <= p < Z.of_nat (length buf)) -> rd buf p = None.
Proof.
  intros H. unfold rd. destruct (decide (0 <= p)); [|done].
  apply lookup_ge_None. lia.
Qed.

Lemma wr_Some buf p v :
  0 <= p < Z.of_nat (length buf) ->
  wr buf p v = Some (<[Z.to_nat p := v]> buf).
Proof. intros. unfold wr. rewrite decide_True; done. Qed.

Lemma wr_inv buf buf' p v :
  wr buf p v = Some buf' ->
  0 <= p < Z.of_nat (length buf) /\ buf' = <[Z.to_nat p := v]> buf.
Proof.
  unfold wr. destruct (decide _); [|done]. intros [= <-]. done.
Qed.

Lemma rd_wr_eq buf buf' p v : wr buf p v = Some buf' -> rd buf' p = Some v.
Proof.
  intros [H ->]%wr_inv. rewrite rd_lookup by lia.
  apply list_lookup_insert_eq. lia.
Qed.

Lemma rd_wr_ne buf buf' p q v :
  wr buf p v = Some buf' -> p <> q -> rd buf' q = rd buf q.
Proof.
  intros [H ->]%wr_inv Hpq. unfold rd. destruct (decide (0 <= q)); [|done].
  apply list_lookup_insert_ne. lia.
Qed.

End MemoryFacts.

(** ** Loops *)

Section LoopFacts.
Context {S : Type}.
Implicit Types (body : Z -> S -> option S) (s : S).

(** Hoare-style rule: an invariant kept by every turn holds at the exit,
    and the loop does not fault. *)
Lemma for_from_inv (Inv : Z -> S -> Prop) body fuel k s :
  Inv k s ->
  (forall k' s', k <= k' < k + Z.of_nat fuel -> Inv k' s' ->
     exists s'', body k' s' = Some s'' /\ Inv (k' + 1) s'') ->
  exists s', for_from fuel k body s = Some s' /\ Inv (k + Z.of_nat fuel) s'.
Proof.
  revert k s. induction fuel as [|fuel IH]; intros k s H0 Hstep.
  - exists s. rewrite Z.add_0_r. done.
  - destruct (Hstep k s) as (s1 & Hb & H1); [lia | done |].
    destruct (IH (k + 1) s1) as (s' & Hf & H'); [done | |].
    + intros k' s' Hk'. apply Hstep. lia.
    + exists s'. cbn. rewrite Hb. split; [done|].
      replace (k + Z.of_nat (Datatypes.S fuel)) with (k + 1 + Z.of_nat fuel) by lia.
      done.
Qed.

Lemma for_loop_inv (Inv : Z -> S -> Prop) body n s :
  0 <= n ->
  Inv 0 s ->
  (forall k s', 0 <= k < n -> Inv k s' ->
     exists s'', body k s' = Some s'' /\ Inv (k + 1) s'') ->
  exists s', for_loop n body s = Some s' /\ Inv n s'.
Proof.
  intros Hn H0 Hstep. unfold for_loop.
  destruct (for_from_inv Inv body (Z.to_nat n) 0 s) as (s' & Hf & H'); [done | |].
  - intros k' s' Hk'. apply Hstep. lia.
  - exists s'. split; [done|]. rewrite Z2Nat.id in H' by done. done.
Qed.

(** A turn that faults in every state makes the whole loop fault. *)
Lemma for_from_fault body fuel k k0 s :
  k <= k0 < k + Z.of_nat fuel ->
  (forall s', body k0 s' = None) ->
  for_from fuel k body s = None.
Proof.
  revert k s. induction fuel as [|fuel IH]; intros k s Hk Hf; [lia|].
  cbn. destruct (decide (k = k0)) as [->|Hne].
  - rewrite Hf. done.
  - destruct (body k s); [|done]. apply IH; [lia | done].
Qed.

Lemma for_loop_fault body n k0 s :
  0 <= k0 < n -> (forall s', body k0 s' = None) -> for_loop n body s = None.
Proof.
  intros Hk Hf. unfold for_loop. apply (for_from_fault body _ 0 k0); [lia | done].
Qed.

End LoopFacts.

(** ** Facts on the order of IEEE comparison *)

Lemma lex_lt_trans p q r : lex_lt p q -> lex_lt q r -> lex_lt p r.
Proof. destruct p as [[??]?], q as [[??]?], r as [[??]?]. cbn. lia. Qed.

Lemma lex_lt_irrefl p : ¬ lex_lt p p.
Proof. destruct p as [[??]?]. cbn. lia. Qed.

Lemma lex_total p q : lex_lt p q \/ p = q \/ lex_lt q p.
Proof.
  destruct p as [[p1 p2] p3], q as [[q1 q2] q3]. cbn.
  destruct (Z.lt_total p1 q1) as [?|[?|?]]; [lia| |lia].
  destruct (Z.lt_total p2 q2) as [?|[?|?]]; [lia| |lia].
  destruct (Z.lt_total p3 q3) as [?|[?|?]]; [lia| |lia].
  right; left. congruence.
Qed.

Lemma place_nan x : place x = None <-> is_nan x = true.
Proof. destruct x as [[]|[]| |[] ??]; cbn; split; congruence. Qed.

Lemma SFcompare_place x y p q :
  place x = Some p -> place y = Some q ->
  exists c, SFcompare x y = Some c /\
    match c with
    | Lt => lex_lt p q
    | Eq => p = q
    | Gt => lex_lt q p
    end.
Proof.
  destruct x as [[]|[]| |[] mx ex], y as [[]|[]| |[] my ey]; cbn;
    intros [= <-] [= <-]; try (eexists; split; [reflexivity|]; cbn; lia || done).
  - (* both negative *)
    eexists; split; [reflexivity|].
    destruct (Z.compare_spec ex ey) as [->|?|?]; cbn; [|lia|lia].
    change (Pos.compare_cont Eq mx my) with (Pos.compare mx my).
    destruct (Pos.compare_spec mx my) as [->|?|?]; cbn; [done|lia|lia].
  - (* both positive *)
    eexists; split; [reflexivity|].
    destruct (Z.compare_spec ex ey) as [->|?|?]; cbn; [|lia|lia].
    change (Pos.compare_cont Eq mx my) with (Pos.compare mx my).
    destruct (Pos.compare_spec mx my) as [->|?|?]; cbn; [done|lia|lia].
Qed.

Lemma SFcompare_nan x y :
  place x = None \/ place y = None -> SFcompare x y = None.
Proof.
  destruct x as [[]|[]| |[] mx ex], y as [[]|[]| |[] my ey]; cbn;
    intros [?|?]; congruence.
Qed.

Lemma ltb_place x y :
  F64.ltb x y = true <->
  exists p q, place x = Some p /\ place y = Some q /\ lex_lt p q.
Proof.
  unfold F64.ltb, SFltb. split.
  - destruct (place x) as [p|] eqn:Hx; [|by rewrite SFcompare_nan by auto].
    destruct (place y) as [q|] eqn:Hy; [|by rewrite SFcompare_nan by auto].
    destruct (SFcompare_place x y p q Hx Hy) as (c & -> & Hc).
    destruct c; try done. intros _. eauto.
  - intros (p & q & Hx & Hy & Hlt).
    destruct (SFcompare_place x y p q Hx Hy) as (c & -> & Hc).
    destruct c; [|done|].
    + subst. by apply lex_lt_irrefl in Hlt.
    + destruct (lex_lt_irrefl p). by eapply lex_lt_trans.
Qed.

Lemma leb_place x y :
  F64.leb x y = true <->
  exists p q, place x = Some p /\ place y = Some q /\ lex_le p q.
Proof.
  unfold F64.leb, SFleb, lex_le. split.
  - destruct (place x) as [p|] eqn:Hx; [|by rewrite SFcompare_nan by auto].
    destruct (place y) as [q|] eqn:Hy; [|by rewrite SFcompare_nan by auto].
    destruct (SFcompare_place x y p q Hx Hy) as (c & -> & Hc).
    destruct c; try done; intros _; eauto 6.
  - intros (p & q & Hx & Hy & Hle).
    destruct (SFcompare_place x y p q Hx Hy) as (c & -> & Hc).
    destruct c; [done|done|]. destruct Hle as [Hlt| ->].
    + destruct (lex_lt_irrefl p). by eapply lex_lt_trans.
    + by apply lex_lt_irrefl in Hc.
Qed.

Lemma eqb_place x y :
  F64.eqb x y = true <->
  exists p, place x = Some p /\ place y = Some p.
Proof.
  unfold F64.eqb, SFeqb. split.
  - destruct (place x) as [p|] eqn:Hx; [|by rewrite SFcompare_nan by auto].
    destruct (place y) as [q|] eqn:Hy; [|by rewrite SFcompare_nan by auto].
    destruct (SFcompare_place x y p q Hx Hy) as (c & -> & Hc).
    destruct c; try done. intros _. subst. eauto.
  - intros (p & Hx & Hy).
    destruct (SFcompare_place x y p p Hx Hy) as (c & -> & Hc).
    destruct c; [done| |]; by apply lex_lt_irrefl in Hc.
Qed.

Lemma ltb_irrefl x : F64.ltb x x = false.
Proof.
  apply not_true_is_false. intros (p & q & Hp & Hq & Hlt)%ltb_place.
  rewrite Hp in Hq. injection Hq as <-. by apply lex_lt_irrefl in Hlt.
Qed.

Lemma ltb_leb x y : F64.ltb x y = true -> F64.leb x y = true.
Proof.
  intros (p & q & Hp & Hq & Hlt)%ltb_place. apply leb_place.
  exists p, q. unfold lex_le. auto.
Qed.

Lemma eqb_leb x y : F64.eqb x y = true -> F64.leb x y = true.
Proof.
  intros (p & Hp & Hq)%eqb_place. apply leb_place.
  exists p, p. unfold lex_le. auto.
Qed.

Lemma leb_ltb_trans x y z :
  F64.leb x y = true -> F64.ltb y z = true -> F64.ltb x z = true.
Proof.
  intros (p & q & Hp & Hq & Hle)%leb_place (q' & r & Hq' & Hr & Hlt)%ltb_place.
  rewrite Hq in Hq'. injection Hq' as <-. apply ltb_place.
  exists p, r. split_and!; [done..|].
  destruct Hle as [?| ->]; [by eapply lex_lt_trans | done].
Qed.

(** Without NaN the order is total. *)
Lemma not_ltb_leb x y :
  is_nan x = false -> is_nan y = false ->
  F64.ltb x y = false -> F64.leb y x = true.
Proof.
  intros Hx Hy Hlt.
  destruct (place x) as [p|] eqn:Hp; [|apply place_nan in Hp; congruence].
  destruct (place y) as [q|] eqn:Hq; [|apply place_nan in Hq; congruence].
  apply leb_place. exists q, p. split_and!; [done..|].
  destruct (lex_total p q) as [H|[->|H]].
  - assert (F64.ltb x y = true) by (apply ltb_place; eauto). congruence.
  - by right.
  - by left.
Qed.

Lemma rd_at3 (buf : list float) (b n i j c : Z) :
  Z.of_nat (length buf) = b * n * 6 -> b * n * 6 <= Int.max_signed ->
  0 <= i < b -> 0 <= j < n -> 0 <= c < 6 ->
  rd buf (flat6 i n j c) = Some (at3 buf n i j c).
Proof.
  intros Hlen Hsz Hi Hj Hc. rewrite (flat6_exact b) by done.
  pose proof (row_bound b n i j Hi Hj).
  destruct (rd_is_Some buf ((i * n + j) * 6 + c)) as [v Hv]; [lia|].
  unfold at3. rewrite Hv. done.
Qed.

Lemma rd_at2 {A} (dflt : A) (buf : list A) (b n i j : Z) :
  Z.of_nat (length buf) = b * n -> b * n <= Int.max_signed ->
  0 <= i < b -> 0 <= j < n ->
  rd buf (flat2 i n j) = Some (at2 dflt buf n i j).
Proof.
  intros Hlen Hsz Hi Hj. rewrite (flat2_exact b) by done.
  pose proof (row_bound b n i j Hi Hj).
  destruct (rd_is_Some buf (i * n + j)) as [v Hv]; [lia|].
  unfold at2. rewrite Hv. done.
Qed.

Lemma pick_post (d : Z -> double) (k : Z) (st : double * Z) :
  0 <= k -> scan_post d k st -> scan_post d (k + 1) (pick d k st).
Proof.
  intros Hk Hpost. unfold scan_post in *. rewrite decide_False by lia.
  unfold pick. destruct (decide (k <= 0)) as [H0|Hpos].
  - assert (k = 0) as -> by lia. cbn. split_and!; [lia..|done| |].
    + intros k' Hk'. assert (k' = 0) as -> by lia. apply ltb_irrefl.
    + intros k' Hk'. lia.
  - destruct Hpost as (Hrange & Hbest & Hmin & Hfirst).
    replace (k =? 0) with false by lia. cbn.
    destruct (F64.ltb (d k) st.1) eqn:Hlt; cbn.
    + assert (forall k', 0 <= k' < k -> F64.leb (d k') (d k) = false) as Hnew.
      { intros k' Hk'. apply not_true_is_false. intros Hle.
        pose proof (leb_ltb_trans _ _ _ Hle Hlt) as Hbeat.
        rewrite Hmin in Hbeat by lia. done. }
      split_and!; [lia..|done| |done].
      intros k' Hk'. destruct (decide (k' = k)) as [->|Hne].
      * apply ltb_irrefl.
      * apply not_true_is_false. intros Hlt'%ltb_leb.
        rewrite Hnew in Hlt' by lia. done.
    + split_and!; [lia..|done| |done].
      intros k' Hk'. destruct (decide (k' = k)) as [->|Hne]; [done|].
      apply Hmin. lia.
Qed.

(** ** [nnsearch] on well-sized buffers *)

Section Search.
Variables (b n m : Z) (xyz1 xyz2 : list float).
Hypothesis Hb : 0 <= b.
Hypothesis Hn : 0 <= n.
Hypothesis Hm : 0 <= m.
Hypothesis Hsz1 : b * n * 6 <= Int.max_signed.
Hypothesis Hsz2 : b * m * 6 <= Int.max_signed.
Hypothesis Hlen1 : Z.of_nat (length xyz1) = b * n * 6.
Hypothesis Hlen2 : Z.of_nat (length xyz2) = b * m * 6.

Lemma nnsearch_step_pick (i j k : Z) (st : double * Z) :
  0 <= i < b -> 0 <= j < n -> 0 <= k < m ->
  nnsearch_step i m xyz2
    (at3 xyz1 n i j 0) (at3 xyz1 n i j 1) (at3 xyz1 n i j 2)
    (at3 xyz1 n i j 3) (at3 xyz1 n i j 4) (at3 xyz1 n i j 5) k st
  = Some (pick (cand_dist n m xyz1 xyz2 i j) k st).
Proof.
  intros Hi Hj Hk. unfold nnsearch_step. destruct st as [best besti].
  rewrite !(rd_at3 xyz2 b) by (done || lia). cbn [mbind option_bind].
  unfold pick, cand_dist, sq_dist. cbn [fst].
  by destruct (_ || _).
Qed.

Lemma scan_ok (i j : Z) :
  0 <= i < b -> 0 <= j < n ->
  exists st,
    for_loop m (nnsearch_step i m xyz2
      (at3 xyz1 n i j 0) (at3 xyz1 n i j 1) (at3 xyz1 n i j 2)
      (at3 xyz1 n i j 3) (at3 xyz1 n i j 4) (at3 xyz1 n i j 5))
      (F64.zero, 0) = Some st /\
    scan_post (cand_dist n m xyz1 xyz2 i j) m st.
Proof.
  intros Hi Hj.
  apply (for_loop_inv (scan_post (cand_dist n m xyz1 xyz2 i j))); [done| |].
  - unfold scan_post. by rewrite decide_True by lia.
  - intros k st Hk Hpost. rewrite nnsearch_step_pick by done.
    eexists. split; [done|]. apply pick_post; [lia | done].
Qed.

Lemma cell_index_ne (i j i' j' : Z) :
  0 <= i -> 0 <= i' -> 0 <= j < n -> 0 <= j' < n ->
  (i', j') <> (i, j) -> i * n + j <> i' * n + j'.
Proof.
  intros ? ? ? ? Hne Heq. apply Hne.
  assert (i = i') by nia. subst i'. f_equal. lia.
Qed.

Lemma nnsearch_point_ok (i j : Z) (dist : list float) (idx : list Z) :
  0 <= i < b -> 0 <= j < n ->
  Z.of_nat (length dist) = b * n -> Z.of_nat (length idx) = b * n ->
  exists dist' idx',
    nnsearch_point n m xyz1 xyz2 i j (dist, idx) = Some (dist', idx') /\
    length dist' = length dist /\ length idx' = length idx /\
    cell_ok n m xyz1 xyz2 dist' idx' i j /\
    (forall q, q <> i * n + j ->
       rd dist' q = rd dist q /\ rd idx' q = rd idx q).
Proof.
  intros Hi Hj Hld Hli. unfold nnsearch_point.
  rewrite !(rd_at3 xyz1 b) by (done || lia). cbn [mbind option_bind].
  destruct (scan_ok i j Hi Hj) as ([best besti] & -> & Hpost).
  cbn [mbind option_bind].
  pose proof (row_bound b n i j Hi Hj) as Hrow.
  assert (b * n <= Int.max_signed) as Hsz by (unfold Int.max_signed in *; lia).
  rewrite (flat2_exact b) by done.
  rewrite (wr_Some dist) by lia. cbn [mbind option_bind].
  rewrite (wr_Some idx) by lia. cbn [mbind option_bind].
  eexists _, _. split; [done|].
  rewrite !length_insert. split_and!; [done..| |].
  - exists (best, besti). split_and!; [done|..].
    + eapply rd_wr_eq, wr_Some. lia.
    + eapply rd_wr_eq, wr_Some. lia.
  - intros q Hq. split.
    + eapply rd_wr_ne; [apply wr_Some; lia | done].
    + eapply rd_wr_ne; [apply wr_Some; lia | done].
Qed.

Lemma cell_ok_frame (dist dist' : list float) (idx idx' : list Z) (i j : Z) :
  rd dist' (i * n + j) = rd dist (i * n + j) ->
  rd idx' (i * n + j) = rd idx (i * n + j) ->
  cell_ok n m xyz1 xyz2 dist idx i j -> cell_ok n m xyz1 xyz2 dist' idx' i j.
Proof.
  intros Hd Hi (st & ? & ? & ?). exists st. rewrite Hd, Hi. done.
Qed.

(** [nnsearch] returns, keeps the sizes, and fills every cell. *)
Lemma nnsearch_ok (dist : list float) (idx : list Z) :
  Z.of_nat (length dist) = b * n -> Z.of_nat (length idx) = b * n ->
  exists dist' idx',
    nnsearch b n m xyz1 xyz2 dist idx = Some (dist', idx') /\
    length dist' = length dist /\ length idx' = length idx /\
    forall i j, 0 <= i < b -> 0 <= j < n ->
      cell_ok n m xyz1 xyz2 dist' idx' i j.
Proof.
  intros Hld Hli. unfold nnsearch.
  pose (sized := fun out : list float * list Z =>
          length out.1 = length dist /\ length out.2 = length idx).
  destruct (for_loop_inv
    (fun I out => sized out /\
       forall i j, 0 <= i < I -> 0 <= j < n ->
         cell_ok n m xyz1 xyz2 out.1 out.2 i j)
    (fun i => for_loop n (nnsearch_point n m xyz1 xyz2 i)) b (dist, idx))
    as ([dist' idx'] & Hrun & [Hlen' Hcells]); [done| | |].
  - split; [done|]. intros; lia.
  - intros I out HI [Hsized Hdone].
    destruct (for_loop_inv
      (fun J out' => sized out' /\
         (forall i j, 0 <= i < I -> 0 <= j < n ->
            cell_ok n m xyz1 xyz2 out'.1 out'.2 i j) /\
         (forall j, 0 <= j < J -> cell_ok n m xyz1 xyz2 out'.1 out'.2 I j))
      (nnsearch_point n m xyz1 xyz2 I) n out)
      as (out' & Hrun & Hsized' & Hold & Hrow); [done| | |].
    + split_and!; [done..|]. intros; lia.
    + intros J [d0 i0] HJ ([Hl1 Hl2] & Hold & Hrow).
      destruct Hsized as [Hs1 Hs2]. cbn [fst snd] in *.
      destruct (nnsearch_point_ok I J d0 i0) as
        (d1 & i1 & -> & Hl1' & Hl2' & Hcell & Hframe); [lia..|].
      exists (d1, i1). split; [done|]. cbn [fst snd].
      split_and!; [unfold sized; cbn [fst snd]; split; congruence| |].
      * intros i j Hi Hj.
        destruct (Hframe (i * n + j)) as [Hfd Hfi];
          [apply cell_index_ne; [lia..|]; intros [= ]; lia|].
        by eapply cell_ok_frame, Hold.
      * intros j Hj. destruct (decide (j = J)) as [->|Hne]; [done|].
        destruct (Hframe (I * n + j)) as [Hfd Hfi];
          [apply cell_index_ne; [lia..|]; intros [= ]; lia|].
        eapply cell_ok_frame, Hrow; [done..|lia].
    + exists out'. split; [done|]. split; [done|].
      intros i j Hi Hj. destruct (decide (i = I)) as [->|Hne].
      * by apply Hrow.
      * apply Hold; lia.
  - exists dist', idx'. destruct Hlen' as [? ?]. done.
Qed.

End Search.

(** ** The forward kernel on accepted inputs *)

Lemma TensorShape_nonneg (extents : list Z) :
  Forall (fun d => 0 <= d) extents -> TensorShape extents = Some extents.
Proof. intros. unfold TensorShape. by rewrite decide_True. Qed.

Lemma fresh_length {A} (b n : Z) (junk : A) :
  0 <= b -> 0 <= n -> Z.of_nat (length (flat (fresh [b; n] junk))) = b * n.
Proof.
  intros. cbn. rewrite length_replicate. unfold num_elements. cbn. nia.
Qed.

(** On accepted inputs the checks pass and the kernel is the two calls of
    [nnsearch] on fresh outputs. *)
Lemma Compute_accepted (junk_f : float) (junk_i : Z)
    (xyz1_tensor xyz2_tensor : Tensor float) (b n m : Z) :
  point_set xyz1_tensor b n -> point_set xyz2_tensor b m ->
  NnDistance2Op_Compute junk_f junk_i xyz1_tensor xyz2_tensor =
    '(dist1, idx1) ← nnsearch b n m (flat xyz1_tensor) (flat xyz2_tensor)
       (flat (fresh [b; n] junk_f)) (flat (fresh [b; n] junk_i));
    '(dist2, idx2) ← nnsearch b m n (flat xyz2_tensor) (flat xyz1_tensor)
       (flat (fresh [b; m] junk_f)) (flat (fresh [b; m] junk_i));
    Some (mkFwd OK
            (Some (mkTensor [b; n] dist1)) (Some (mkTensor [b; n] idx1))
            (Some (mkTensor [b; m] dist2)) (Some (mkTensor [b; m] idx2))).
Proof.
  intros [Hs1 _ Hb Hn _] [Hs2 _ _ Hm _].
  unfold NnDistance2Op_Compute, OP_REQUIRES, dims, dim_size.
  rewrite Hs1, Hs2. cbn [length lookup list_lookup default from_option id].
  change (Z.of_nat 3 =? 3) with true. change (6 =? 6) with true. cbv iota.
  rewrite !wrap_small by (unfold Int.max_signed in *; lia).
  rewrite Z.eqb_refl.
  rewrite !TensorShape_nonneg by (repeat constructor; lia).
  done.
Qed.

Lemma Compute_ok (junk_f : float) (junk_i : Z)
    (xyz1_tensor xyz2_tensor : Tensor float) (b n m : Z) :
  point_set xyz1_tensor b n -> point_set xyz2_tensor b m ->
  exists dist1 idx1 dist2 idx2,
    NnDistance2Op_Compute junk_f junk_i xyz1_tensor xyz2_tensor =
      Some (mkFwd OK
              (Some (mkTensor [b; n] dist1)) (Some (mkTensor [b; n] idx1))
              (Some (mkTensor [b; m] dist2)) (Some (mkTensor [b; m] idx2))) /\
    (Z.of_nat (length dist1) = b * n /\ Z.of_nat (length idx1) = b * n /\
     Z.of_nat (length dist2) = b * m /\ Z.of_nat (length idx2) = b * m) /\
    (forall i j, 0 <= i < b -> 0 <= j < n ->
       cell_ok n m (flat xyz1_tensor) (flat xyz2_tensor) dist1 idx1 i j) /\
    (forall i j, 0 <= i < b -> 0 <= j < m ->
       cell_ok m n (flat xyz2_tensor) (flat xyz1_tensor) dist2 idx2 i j).
Proof.
  intros H1 H2. rewrite (Compute_accepted _ _ _ _ b n m) by done.
  destruct H1 as [_ Hf1 Hb Hn Hz1], H2 as [_ Hf2 _ Hm Hz2].
  destruct (nnsearch_ok b n m (flat xyz1_tensor) (flat xyz2_tensor))
    with (dist := flat (fresh [b; n] junk_f)) (idx := flat (fresh [b; n] junk_i))
    as (dist1 & idx1 & -> & Hd1 & Hi1 & Hc1);
    [lia..|done|done|done|done| | |]; [by apply fresh_length; lia..|].
  destruct (nnsearch_ok b m n (flat xyz2_tensor) (flat xyz1_tensor))
    with (dist := flat (fresh [b; m] junk_f)) (idx := flat (fresh [b; m] junk_i))
    as (dist2 & idx2 & -> & Hd2 & Hi2 & Hc2);
    [lia..|done|done|done|done| | |]; [by apply fresh_length; lia..|].
  exists dist1, idx1, dist2, idx2. cbn [mbind option_bind].
  split; [done|]. split; [|done].
  rewrite Hd1, Hi1, Hd2, Hi2. rewrite !fresh_length by lia. done.
Qed.

Lemma scan_post_argmin (d : Z -> double) (m : Z) (st : double * Z) :
  1 <= m -> nan_free d m -> scan_post d m st ->
  is_argmin d m st.2 /\ st.1 = d st.2.
Proof.
  intros Hm Hnan. unfold scan_post. rewrite decide_False by lia.
  intros (Hk & Hbest & Hmin & _). split; [|done]. split; [done|].
  intros k' Hk'. apply not_ltb_leb; [by apply Hnan..|].
  rewrite <- Hbest. by apply Hmin.
Qed.

Lemma scan_post_first (d : Z -> double) (m : Z) (st : double * Z) (k' : Z) :
  1 <= m -> scan_post d m st -> 0 <= k' < m ->
  F64.eqb (d k') (d st.2) = true -> st.2 <= k'.
Proof.
  intros Hm. unfold scan_post. rewrite decide_False by lia.
  intros (Hk & Hbest & _ & Hfirst) Hk' Heq%eqb_leb.
  destruct (decide (st.2 <= k')) as [|Hlt]; [done|].
  rewrite <- Hbest, Hfirst in Heq by lia. done.
Qed.

Ltac point_set_tac :=
  constructor; cbn; unfold Int.max_signed; (reflexivity || lia).

(** What the scan does achieve, on the distances as line 41 computes
    them: on accepted inputs the forward call returns; for every batch [i]
    and point [j] of [xyz1] whose computed candidate distances hold no
    NaN, with at least one candidate, [idx1[i,j]] is a candidate of least
    computed distance and [dist1[i,j]] is that distance narrowed to
    [float]; the same holds for [idx2], [dist2] with the two sets
    exchanged. *)
Lemma forward_least_computed (junk_f : float) (junk_i : Z)
    (xyz1_tensor xyz2_tensor : Tensor float) (b n m : Z) :
  point_set xyz1_tensor b n -> point_set xyz2_tensor b m ->
  exists dist1 idx1 dist2 idx2,
    NnDistance2Op_Compute junk_f junk_i xyz1_tensor xyz2_tensor =
      Some (mkFwd OK
              (Some (mkTensor [b; n] dist1)) (Some (mkTensor [b; n] idx1))
              (Some (mkTensor [b; m] dist2)) (Some (mkTensor [b; m] idx2))) /\
    (forall i j, 0 <= i < b -> 0 <= j < n -> 1 <= m ->
       let d := cand_dist n m (flat xyz1_tensor) (flat xyz2_tensor) i j in
       nan_free d m ->
       exists k, rd idx1 (i * n + j) = Some k /\ is_argmin d m k /\
                 rd dist1 (i * n + j) = Some (F32.of_double (d k))) /\
    (forall i j, 0 <= i < b -> 0 <= j < m -> 1 <= n ->
       let d := cand_dist m n (flat xyz2_tensor) (flat xyz1_tensor) i j in
       nan_free d n ->
       exists k, rd idx2 (i * m + j) = Some k /\ is_argmin d n k /\
                 rd dist2 (i * m + j) = Some (F32.of_double (d k))).
Proof.
  intros H1 H2.
  destruct (Compute_ok junk_f junk_i _ _ b n m H1 H2)
    as (dist1 & idx1 & dist2 & idx2 & Hrun & _ & Hc1 & Hc2).
  exists dist1, idx1, dist2, idx2. split; [done|]. split.
  - intros i j Hi Hj Hm d Hnan.
    destruct (Hc1 i j Hi Hj) as (st & Hpost & Hd & Hk).
    destruct (scan_post_argmin _ _ _ Hm Hnan Hpost) as [Hmin Hbest].
    exists st.2. rewrite Hd, Hbest. done.
  - intros i j Hi Hj Hn d Hnan.
    destruct (Hc2 i j Hi Hj) as (st & Hpost & Hd & Hk).
    destruct (scan_post_argmin _ _ _ Hn Hnan Hpost) as [Hmin Hbest].
    exists st.2. rewrite Hd, Hbest. done.
Qed.

Lemma nan_free_origin_pair :
  nan_free (cand_dist 1 2 (flat ex_origin) (flat ex_pair) 0 0) 2.
Proof.
  intros k Hk. assert (k = 0 \/ k = 1) as [-> | ->] by lia; reflexivity.
Qed.

Lemma nan_free_pair_origin (j : Z) :
  0 <= j < 2 -> nan_free (cand_dist 2 1 (flat ex_pair) (flat ex_origin) 0 j) 1.
Proof.
  intros Hj k Hk. assert (k = 0) as -> by lia.
  assert (j = 0 \/ j = 1) as [-> | ->] by lia; reflexivity.
Qed.

Lemma forward_least_computed_witness :
  point_set ex_origin 1 1 /\ point_set ex_pair 1 2 /\
  exists dist1 idx1 dist2 idx2,
    NnDistance2Op_Compute F32.zero 0 ex_origin ex_pair =
      Some (mkFwd OK
              (Some (mkTensor [1; 1] dist1)) (Some (mkTensor [1; 1] idx1))
              (Some (mkTensor [1; 2] dist2)) (Some (mkTensor [1; 2] idx2))) /\
    (exists k, rd idx1 0 = Some k /\
       is_argmin (cand_dist 1 2 (flat ex_origin) (flat ex_pair) 0 0) 2 k) /\
    (exists k, rd idx2 1 = Some k /\
       is_argmin (cand_dist 2 1 (flat ex_pair) (flat ex_origin) 0 1) 1 k).
Proof.
  assert (point_set ex_origin 1 1) as H1 by point_set_tac.
  assert (point_set ex_pair 1 2) as H2 by point_set_tac.
  split; [exact H1|]. split; [exact H2|].
  destruct (forward_least_computed F32.zero 0 ex_origin ex_pair 1 1 2 H1 H2)
    as (dist1 & idx1 & dist2 & idx2 & Hrun & Hd1 & Hd2).
  exists dist1, idx1, dist2, idx2. split; [exact Hrun|]. split.
  - destruct (Hd1 0 0) as (k & Hk & Hmin & _);
      [lia | lia | lia | exact nan_free_origin_pair |].
    exists k. split; [exact Hk | exact Hmin].
  - destruct (Hd2 0 1) as (k & Hk & Hmin & _);
      [lia | lia | lia | apply nan_free_pair_origin; lia |].
    exists k. split; [exact Hk | exact Hmin].
Defined.

(** With a NaN coordinate in the first candidate, the first candidate is
    kept although the second one lies on the point, at distance zero. *)
Lemma forward_first_nan_kept :
  NnDistance2Op_Compute F32.zero 7 ex_origin ex_nan =
    Some (mkFwd OK
            (Some (mkTensor [1; 1] [S754_nan])) (Some (mkTensor [1; 1] [0]))
            (Some (mkTensor [1; 2] [S754_nan; F32.zero]))
            (Some (mkTensor [1; 2] [0; 0]))) /\
  cand_dist 1 2 (flat ex_origin) (flat ex_nan) 0 0 1 = F64.zero /\
  ¬ is_argmin (cand_dist 1 2 (flat ex_origin) (flat ex_nan) 0 0) 2 0.
Proof.
  split; [reflexivity|]. split; [reflexivity|].
  intros [_ Hmin]. specialize (Hmin 1 ltac:(lia)). discriminate Hmin.
Qed.

(** Claim C1.  The index returned is not always that of a nearest point:
    line 41 forms the differences, the products and the sum in [float].
    From the origin, the candidates [(4096,1,0,0,0,0)] and
    [(4096,0,0,0,0,0)] are at squared distances 16777217 and 16777216;
    the first sum rounds to 16777216, the scan sees two equal distances
    and returns index 0.  The candidates [(2^65,0,0,0,0,0)] and
    [(2^64,0,0,0,0,0)] are at squared distances [2^130] and [2^128]; both
    sums overflow and index 0 is returned.  In both cases candidate 1 is
    the only nearest one, all coordinates are finite, and no computed
    distance is NaN. *)
Theorem forward_nearest_missed (junk_f : float) (junk_i : Z) :
  (let d := cand_dist_wide 1 2 (flat ex_origin) (flat ex_grid) 0 0 in
   NnDistance2Op_Compute junk_f junk_i ex_origin ex_grid =
     Some (mkFwd OK
             (Some (mkTensor [1; 1] [F32.of_int 16777216]))
             (Some (mkTensor [1; 1] [0]))
             (Some (mkTensor [1; 2] [F32.of_int 16777216; F32.of_int 16777216]))
             (Some (mkTensor [1; 2] [0; 0]))) /\
   d 0 = whole 16777217 /\ d 1 = whole 16777216 /\
   is_argmin d 2 1 /\ ~ is_argmin d 2 0 /\
   nan_free (cand_dist 1 2 (flat ex_origin) (flat ex_grid) 0 0) 2) /\
  (let d := cand_dist_wide 1 2 (flat ex_origin) (flat ex_far) 0 0 in
   NnDistance2Op_Compute junk_f junk_i ex_origin ex_far =
     Some (mkFwd OK
             (Some (mkTensor [1; 1] [S754_infinity false]))
             (Some (mkTensor [1; 1] [0]))
             (Some (mkTensor [1; 2] [S754_infinity false; S754_infinity false]))
             (Some (mkTensor [1; 2] [0; 0]))) /\
   d 0 = whole (2 ^ 130) /\ d 1 = whole (2 ^ 128) /\
   is_argmin d 2 1 /\ ~ is_argmin d 2 0 /\
   nan_free (cand_dist 1 2 (flat ex_origin) (flat ex_far) 0 0) 2).
Proof.
  split; intros d.
  - split; [vm_compute; reflexivity|].
    split; [reflexivity|]. split; [reflexivity|]. split_and!.
    + split; [lia|]. intros k' Hk'.
      assert (k' = 0 \/ k' = 1) as [-> | ->] by lia; reflexivity.
    + intros [_ Hmin]. specialize (Hmin 1 ltac:(lia)). discriminate Hmin.
    + intros k Hk. assert (k = 0 \/ k = 1) as [-> | ->] by lia; reflexivity.
  - split; [vm_compute; reflexivity|].
    split; [reflexivity|]. split; [reflexivity|]. split_and!.
    + split; [lia|]. intros k' Hk'.
      assert (k' = 0 \/ k' = 1) as [-> | ->] by lia; reflexivity.
    + intros [_ Hmin]. specialize (Hmin 1 ltac:(lia)). discriminate Hmin.
    + intros k Hk. assert (k = 0 \/ k = 1) as [-> | ->] by lia; reflexivity.
Qed.

(** Claim C7, amended.  On accepted inputs, when the opposite set holds at
    least one point, every index the forward call returns refers to a point
    of the opposite set: [idx1[i,j]] lies in [[0, M)] when [M >= 1], and
    [idx2[i,j]] lies in [[0, N)] when [N >= 1]. *)
Theorem forward_index_range (junk_f : float) (junk_i : Z)
    (xyz1_tensor xyz2_tensor : Tensor float) (b n m : Z) :
  point_set xyz1_tensor b n -> point_set xyz2_tensor b m ->
  exists dist1 idx1 dist2 idx2,
    NnDistance2Op_Compute junk_f junk_i xyz1_tensor xyz2_tensor =
      Some (mkFwd OK
              (Some (mkTensor [b; n] dist1)) (Some (mkTensor [b; n] idx1))
              (Some (mkTensor [b; m] dist2)) (Some (mkTensor [b; m] idx2))) /\
    (1 <= m -> forall i j, 0 <= i < b -> 0 <= j < n ->
       exists k, rd idx1 (i * n + j) = Some k /\ 0 <= k < m) /\
    (1 <= n -> forall i j, 0 <= i < b -> 0 <= j < m ->
       exists k, rd idx2 (i * m + j) = Some k /\ 0 <= k < n).
Proof.
  intros H1 H2.
  destruct (Compute_ok junk_f junk_i _ _ b n m H1 H2)
    as (dist1 & idx1 & dist2 & idx2 & Hrun & _ & Hc1 & Hc2).
  exists dist1, idx1, dist2, idx2. split; [done|]. split.
  - intros Hm i j Hi Hj. destruct (Hc1 i j Hi Hj) as (st & Hpost & _ & Hk).
    unfold scan_post in Hpost. rewrite decide_False in Hpost by lia.
    exists st.2. split; [done | apply Hpost].
  - intros Hn i j Hi Hj. destruct (Hc2 i j Hi Hj) as (st & Hpost & _ & Hk).
    unfold scan_post in Hpost. rewrite decide_False in Hpost by lia.
    exists st.2. split; [done | apply Hpost].
Qed.

Lemma forward_index_range_witness :
  point_set ex_origin 1 1 /\ point_set ex_pair 1 2 /\
  exists dist1 idx1 dist2 idx2,
    NnDistance2Op_Compute F32.zero 0 ex_origin ex_pair =
      Some (mkFwd OK
              (Some (mkTensor [1; 1] dist1)) (Some (mkTensor [1; 1] idx1))
              (Some (mkTensor [1; 2] dist2)) (Some (mkTensor [1; 2] idx2))) /\
    (exists k, rd idx1 0 = Some k /\ 0 <= k < 2) /\
    (exists k, rd idx2 1 = Some k /\ 0 <= k < 1).
Proof.
  assert (point_set ex_origin 1 1) as H1 by point_set_tac.
  assert (point_set ex_pair 1 2) as H2 by point_set_tac.
  split; [exact H1|]. split; [exact H2|].
  destruct (forward_index_range F32.zero 0 ex_origin ex_pair 1 1 2 H1 H2)
    as (dist1 & idx1 & dist2 & idx2 & Hrun & Hr1 & Hr2).
  exists dist1, idx1, dist2, idx2. split; [exact Hrun|]. split.
  - apply (Hr1 ltac:(lia) 0 0); lia.
  - apply (Hr2 ltac:(lia) 0 1); lia.
Defined.

(** Claim C7 as stated fails when the opposite set is empty: the inputs
    are accepted and the index 0 is returned, which refers to no point. *)
Lemma forward_index_range_counterexample :
  point_set ex_origin 1 1 /\ point_set ex_empty 1 0 /\
  exists dist1 dist2 idx2,
    NnDistance2Op_Compute F32.zero 7 ex_origin ex_empty =
      Some (mkFwd OK
              (Some (mkTensor [1; 1] dist1)) (Some (mkTensor [1; 1] [0]))
              (Some (mkTensor [1; 0] dist2)) (Some (mkTensor [1; 0] idx2))) /\
    ¬ (0 <= 0 < 0).
Proof.
  split; [point_set_tac|]. split; [point_set_tac|].
  eexists _, _, _. split; [reflexivity | lia].
Qed.

Lemma length_zero_nil {A} (l : list A) : Z.of_nat (length l) = 0 -> l = [].
Proof. destruct l; [done | cbn; lia]. Qed.

(** Claim C8, amended.  On accepted inputs the forward call returns
    [dist1], [idx1] of [B*N] elements and [dist2], [idx2] of [B*M]
    elements: all four are empty when [B = 0], the first pair is empty
    when [N = 0] and the second pair when [M = 0]. *)
Theorem forward_sizes (junk_f : float) (junk_i : Z)
    (xyz1_tensor xyz2_tensor : Tensor float) (b n m : Z) :
  point_set xyz1_tensor b n -> point_set xyz2_tensor b m ->
  exists dist1 idx1 dist2 idx2,
    NnDistance2Op_Compute junk_f junk_i xyz1_tensor xyz2_tensor =
      Some (mkFwd OK
              (Some (mkTensor [b; n] dist1)) (Some (mkTensor [b; n] idx1))
              (Some (mkTensor [b; m] dist2)) (Some (mkTensor [b; m] idx2))) /\
    (Z.of_nat (length dist1) = b * n /\ Z.of_nat (length idx1) = b * n /\
     Z.of_nat (length dist2) = b * m /\ Z.of_nat (length idx2) = b * m) /\
    (b = 0 -> dist1 = [] /\ idx1 = [] /\ dist2 = [] /\ idx2 = []) /\
    (n = 0 -> dist1 = [] /\ idx1 = []) /\
    (m = 0 -> dist2 = [] /\ idx2 = []).
Proof.
  intros H1 H2.
  destruct (Compute_ok junk_f junk_i _ _ b n m H1 H2)
    as (dist1 & idx1 & dist2 & idx2 & Hrun & (Hd1 & Hi1 & Hd2 & Hi2) & _).
  exists dist1, idx1, dist2, idx2. split; [done|]. split; [done|].
  split_and!; intros ->; split_and!; apply length_zero_nil; lia.
Qed.

Lemma forward_sizes_witness :
  point_set ex_origin 1 1 /\ point_set ex_empty 1 0 /\
  exists dist1 idx1,
    NnDistance2Op_Compute F32.zero 0 ex_origin ex_empty =
      Some (mkFwd OK
              (Some (mkTensor [1; 1] dist1)) (Some (mkTensor [1; 1] idx1))
              (Some (mkTensor [1; 0] [])) (Some (mkTensor [1; 0] []))).
Proof.
  assert (point_set ex_origin 1 1) as H1 by point_set_tac.
  assert (point_set ex_empty 1 0) as H2 by point_set_tac.
  split; [exact H1|]. split; [exact H2|].
  destruct (forward_sizes F32.zero 0 ex_origin ex_empty 1 1 0 H1 H2)
    as (dist1 & idx1 & dist2 & idx2 & Hrun & _ & _ & _ & Hm).
  destruct (Hm eq_refl) as [-> ->].
  exists dist1, idx1. exact Hrun.
Defined.

(** Claim C8 as stated fails when only the opposite set is empty: the
    call returns one distance and one index for the point of [xyz1],
    although no candidate exists. *)
Lemma forward_sizes_counterexample :
  point_set ex_origin 1 1 /\ point_set ex_empty 1 0 /\
  NnDistance2Op_Compute (F32.of_int 5) 7 ex_origin ex_empty =
    Some (mkFwd OK
            (Some (mkTensor [1; 1] [F32.zero])) (Some (mkTensor [1; 1] [0]))
            (Some (mkTensor [1; 0] [])) (Some (mkTensor [1; 0] []))) /\
  [F32.zero] <> [].
Proof.
  split; [point_set_tac|]. split; [point_set_tac|].
  split; [reflexivity | discriminate].
Qed.

(** With no candidate the scan leaves its initial values, so every cell of
    the outputs for the non-empty set holds distance 0 and index 0. *)
Lemma forward_no_candidate (junk_f : float) (junk_i : Z)
    (xyz1_tensor xyz2_tensor : Tensor float) (b n : Z) :
  point_set xyz1_tensor b n -> point_set xyz2_tensor b 0 ->
  exists dist1 idx1,
    NnDistance2Op_Compute junk_f junk_i xyz1_tensor xyz2_tensor =
      Some (mkFwd OK
              (Some (mkTensor [b; n] dist1)) (Some (mkTensor [b; n] idx1))
              (Some (mkTensor [b; 0] [])) (Some (mkTensor [b; 0] []))) /\
    forall i j, 0 <= i < b -> 0 <= j < n ->
      rd dist1 (i * n + j) = Some F32.zero /\ rd idx1 (i * n + j) = Some 0.
Proof.
  intros H1 H2.
  destruct (Compute_ok junk_f junk_i _ _ b n 0 H1 H2)
    as (dist1 & idx1 & dist2 & idx2 & Hrun & (_ & _ & Hd2 & Hi2) & Hc1 & _).
  rewrite (length_zero_nil dist2), (length_zero_nil idx2) in Hrun by lia.
  exists dist1, idx1. split; [done|]. intros i j Hi Hj.
  destruct (Hc1 i j Hi Hj) as (st & Hpost & Hd & Hk).
  unfold scan_post in Hpost. rewrite decide_True in Hpost by lia. subst st.
  done.
Qed.

(** ** One point of the scatter *)

Lemma cell3_inj (n i j c i' j' c' : Z) :
  0 <= i -> 0 <= i' -> 0 <= j < n -> 0 <= j' < n -> 0 <= c < 6 -> 0 <= c' < 6 ->
  (i * n + j) * 6 + c = (i' * n + j') * 6 + c' -> i' = i /\ j' = j /\ c' = c.
Proof.
  intros ? ? ? ? ? ? Heq.
  assert (i * n + j = i' * n + j' /\ c' = c) as [Hrow ->] by lia.
  assert (i = i') by nia. subst i'. split_and!; [done|lia|done].
Qed.

Lemma agrees_ext (g : list float) (b n : Z) (V V' : Z -> Z -> Z -> float) :
  (forall i j c, 0 <= i < b -> 0 <= j < n -> 0 <= c < 6 -> V i j c = V' i j c) ->
  agrees g b n V -> agrees g b n V'.
Proof.
  intros Hext [Hlen Hcells]. split; [done|].
  intros i j c Hi Hj Hc. rewrite <- Hext by done. by apply Hcells.
Qed.

(** [buf[(i*n+j)*6+c] = op(buf[(i*n+j)*6+c], v)] on a grid. *)
Lemma rmw_agrees (op : float -> float -> float) (g : list float)
    (b n : Z) (V : Z -> Z -> Z -> float) (i j c : Z) (v : float) :
  b * n * 6 <= Int.max_signed ->
  agrees g b n V -> 0 <= i < b -> 0 <= j < n -> 0 <= c < 6 ->
  exists g',
    (old ← rd g (flat6 i n j c); wr g (flat6 i n j c) (op old v)) = Some g' /\
    agrees g' b n (upd3 V i j c (op (V i j c) v)).
Proof.
  intros Hsz [Hlen Hcells] Hi Hj Hc.
  rewrite (flat6_exact b) by done. rewrite (Hcells i j c) by done.
  cbn [mbind option_bind].
  pose proof (row_bound b n i j Hi Hj) as Hrow.
  rewrite wr_Some by lia. eexists. split; [done|]. split.
  - by rewrite length_insert.
  - intros i' j' c' Hi' Hj' Hc'. unfold upd3.
    destruct (decide _) as [(-> & -> & ->)|Hne].
    + eapply rd_wr_eq, wr_Some. lia.
    + erewrite rd_wr_ne; [by apply Hcells | apply wr_Some; lia |].
      intros Heq. apply Hne. eapply cell3_inj; [..|done]; lia.
Qed.

Lemma add_at_agrees (g : list float) (b n : Z) (V : Z -> Z -> Z -> float)
    (i j c : Z) (v : float) :
  b * n * 6 <= Int.max_signed ->
  agrees g b n V -> 0 <= i < b -> 0 <= j < n -> 0 <= c < 6 ->
  exists g', add_at g (flat6 i n j c) v = Some g' /\
    agrees g' b n (upd3 V i j c (F32.add (V i j c) v)).
Proof. apply (rmw_agrees F32.add). Qed.

Lemma sub_at_agrees (g : list float) (b n : Z) (V : Z -> Z -> Z -> float)
    (i j c : Z) (v : float) :
  b * n * 6 <= Int.max_signed ->
  agrees g b n V -> 0 <= i < b -> 0 <= j < n -> 0 <= c < 6 ->
  exists g', sub_at g (flat6 i n j c) v = Some g' /\
    agrees g' b n (upd3 V i j c (F32.sub (V i j c) v)).
Proof. apply (rmw_agrees F32.sub). Qed.

Lemma upd3_hit (V : Z -> Z -> Z -> float) (i j c : Z) (x : float) :
  upd3 V i j c x i j c = x.
Proof. unfold upd3. by rewrite decide_True. Qed.

Lemma upd3_miss (V : Z -> Z -> Z -> float) (i j c : Z) (x : float)
    (i' j' c' : Z) :
  ¬ (i' = i /\ j' = j /\ c' = c) -> upd3 V i j c x i' j' c' = V i' j' c'.
Proof. intros. unfold upd3. by rewrite decide_False. Qed.

(** Six updates of one point amount to one update of its row. *)
Lemma upd3_row (V : Z -> Z -> Z -> float) (op : float -> float -> float)
    (t : Z -> float) (i j i' j' c' : Z) :
  0 <= c' < 6 ->
  upd3 (upd3 (upd3 (upd3 (upd3 (upd3 V
    i j 0 (op (V i j 0) (t 0))) i j 1 (op (V i j 1) (t 1)))
    i j 2 (op (V i j 2) (t 2))) i j 3 (op (V i j 3) (t 3)))
    i j 4 (op (V i j 4) (t 4))) i j 5 (op (V i j 5) (t 5)) i' j' c'
  = if decide (i' = i /\ j' = j) then op (V i' j' c') (t c') else V i' j' c'.
Proof.
  intros Hc. destruct (decide _) as [[-> ->]|Hne].
  - assert (c' = 0 \/ c' = 1 \/ c' = 2 \/ c' = 3 \/ c' = 4 \/ c' = 5)
      as [->|[->|[->|[->|[->| ->]]]]] by lia;
      rewrite ?upd3_miss by lia; by rewrite upd3_hit.
  - by rewrite !upd3_miss by lia.
Qed.

Section ScatterPoint.
Variables (b n m : Z) (xyzA xyzB grad_dist : list float) (idx : list Z).
Hypothesis HszA : b * n * 6 <= Int.max_signed.
Hypothesis HszB : b * m * 6 <= Int.max_signed.
Hypothesis HlenA : Z.of_nat (length xyzA) = b * n * 6.
Hypothesis HlenB : Z.of_nat (length xyzB) = b * m * 6.
Hypothesis Hleng : Z.of_nat (length grad_dist) = b * n.
Hypothesis Hleni : Z.of_nat (length idx) = b * n.
Hypothesis Hrange :
  forall i j, 0 <= i < b -> 0 <= j < n -> 0 <= at2 0 idx n i j < m.

Lemma grad_point1_step (i j : Z) (gA gB : list float)
    (VA VB : Z -> Z -> Z -> float) :
  0 <= i < b -> 0 <= j < n -> agrees gA b n VA -> agrees gB b m VB ->
  exists gA' gB',
    grad_point1 n m xyzA xyzB grad_dist idx i j (gA, gB) = Some (gA', gB') /\
    agrees gA' b n (fun i' j' c' =>
      if decide (i' = i /\ j' = j)
      then F32.add (VA i' j' c') (contrib n m xyzA xyzB grad_dist idx i j c')
      else VA i' j' c') /\
    agrees gB' b m (fun i' k c' =>
      if decide (i' = i /\ k = at2 0 idx n i j)
      then F32.sub (VB i' k c') (contrib n m xyzA xyzB grad_dist idx i j c')
      else VB i' k c').
Proof.
  intros Hi Hj HA HB. unfold grad_point1.
  pose proof (row_bound b n i j Hi Hj) as Hrow.
  pose proof (Hrange i j Hi Hj) as Hj2.
  assert (b * n <= Int.max_signed) as Hsz by (unfold Int.max_signed in *; lia).
  rewrite !(rd_at3 xyzA b) by (done || lia). cbn [mbind option_bind].
  rewrite (rd_at2 0 idx b) by done. cbn [mbind option_bind].
  rewrite !(rd_at3 xyzB b) by (done || lia). cbn [mbind option_bind].
  rewrite (rd_at2 F32.zero grad_dist b) by done. cbn [mbind option_bind].
  set (t := contrib n m xyzA xyzB grad_dist idx i j).
  repeat match goal with
  | |- context [F32.mul (F32.mul (at2 F32.zero grad_dist n i j) (F32.of_int 2))
                  (F32.sub (at3 xyzA n i j ?c) _)] =>
      change (F32.mul (F32.mul (at2 F32.zero grad_dist n i j) (F32.of_int 2))
                (F32.sub (at3 xyzA n i j c) (at3 xyzB m i (at2 0 idx n i j) c)))
        with (t c)
  end.
  destruct (add_at_agrees gA b n VA i j 0 (t 0)) as (gA0 & -> & HA0);
    [done..|lia|]. cbn [mbind option_bind].
  rewrite ?upd3_miss in HA0 by lia.
  destruct (add_at_agrees gA0 b n _ i j 1 (t 1) HszA HA0) as (gA1 & -> & HA1);
    [done..|lia|]. cbn [mbind option_bind].
  rewrite ?upd3_miss in HA1 by lia.
  destruct (add_at_agrees gA1 b n _ i j 2 (t 2) HszA HA1) as (gA2 & -> & HA2);
    [done..|lia|]. cbn [mbind option_bind].
  rewrite ?upd3_miss in HA2 by lia.
  destruct (add_at_agrees gA2 b n _ i j 3 (t 3) HszA HA2) as (gA3 & -> & HA3);
    [done..|lia|]. cbn [mbind option_bind].
  rewrite ?upd3_miss in HA3 by lia.
  destruct (add_at_agrees gA3 b n _ i j 4 (t 4) HszA HA3) as (gA4 & -> & HA4);
    [done..|lia|]. cbn [mbind option_bind].
  rewrite ?upd3_miss in HA4 by lia.
  destruct (add_at_agrees gA4 b n _ i j 5 (t 5) HszA HA4) as (gA5 & -> & HA5);
    [done..|lia|]. cbn [mbind option_bind].
  rewrite ?upd3_miss in HA5 by lia.
  set (k := at2 0 idx n i j) in *.
  destruct (sub_at_agrees gB b m VB i k 0 (t 0)) as (gB0 & -> & HB0);
    [done..|lia|]. cbn [mbind option_bind].
  rewrite ?upd3_miss in HB0 by lia.
  destruct (sub_at_agrees gB0 b m _ i k 1 (t 1) HszB HB0) as (gB1 & -> & HB1);
    [done..|lia|]. cbn [mbind option_bind].
  rewrite ?upd3_miss in HB1 by lia.
  destruct (sub_at_agrees gB1 b m _ i k 2 (t 2) HszB HB1) as (gB2 & -> & HB2);
    [done..|lia|]. cbn [mbind option_bind].
  rewrite ?upd3_miss in HB2 by lia.
  destruct (sub_at_agrees gB2 b m _ i k 3 (t 3) HszB HB2) as (gB3 & -> & HB3);
    [done..|lia|]. cbn [mbind option_bind].
  rewrite ?upd3_miss in HB3 by lia.
  destruct (sub_at_agrees gB3 b m _ i k 4 (t 4) HszB HB3) as (gB4 & -> & HB4);
    [done..|lia|]. cbn [mbind option_bind].
  rewrite ?upd3_miss in HB4 by lia.
  destruct (sub_at_agrees gB4 b m _ i k 5 (t 5) HszB HB4) as (gB5 & -> & HB5);
    [done..|lia|]. cbn [mbind option_bind].
  rewrite ?upd3_miss in HB5 by lia.
  exists gA5, gB5. split; [done|]. split.
  - eapply agrees_ext, HA5. intros i' j' c' _ _ Hc'.
    by rewrite (upd3_row VA F32.add t).
  - eapply agrees_ext, HB5. intros i' j' c' _ _ Hc'.
    by rewrite (upd3_row VB F32.sub t).
Qed.

End ScatterPoint.

(** The second loop body is the first one with the two sets exchanged. *)
Lemma grad_point2_swap (n m : Z) (xyz1 xyz2 grad_dist2 : list float)
    (idx2 : list Z) (i j : Z) (g1 g2 : list float) :
  grad_point2 n m xyz1 xyz2 grad_dist2 idx2 i j (g1, g2) =
    (fun g => (g.2, g.1)) <$>
      grad_point1 m n xyz2 xyz1 grad_dist2 idx2 i j (g2, g1).
Proof.
  unfold grad_point2, grad_point1.
  repeat match goal with
  | |- context [rd ?buf ?p ≫= _] =>
      destruct (rd buf p); cbn [mbind option_bind fmap option_fmap option_map];
      [|done]
  end.
  repeat match goal with
  | |- context [add_at ?buf ?p ?v ≫= _] =>
      destruct (add_at buf p v);
      cbn [mbind option_bind fmap option_fmap option_map]; [|done]
  | |- context [sub_at ?buf ?p ?v ≫= _] =>
      destruct (sub_at buf p v);
      cbn [mbind option_bind fmap option_fmap option_map]; [|done]
  end.
  done.
Qed.

Lemma take_from_succ (match_of : Z -> Z) (t : Z -> float) (k J : Z)
    (acc : float) :
  0 <= J ->
  take_from match_of t k (Z.to_nat (J + 1)) acc =
    if match_of J =? k
    then F32.sub (take_from match_of t k (Z.to_nat J) acc) (t J)
    else take_from match_of t k (Z.to_nat J) acc.
Proof.
  intros HJ. replace (Z.to_nat (J + 1)) with (S (Z.to_nat J)) by lia.
  cbn [take_from]. rewrite Z2Nat.id by done. done.
Qed.

Lemma zero_fill_agrees (b n : Z) (g : list float) :
  0 <= b -> 0 <= n -> b * n * 6 <= Int.max_signed ->
  Z.of_nat (length g) = b * n * 6 ->
  exists g', zero_fill (Int.mul (Int.mul b n) 6) g = Some g' /\
    agrees g' b n (fun _ _ _ => F32.of_int 0).
Proof.
  intros Hb Hn Hsz Hlen. unfold Int.mul.
  assert (0 <= b * n) by nia.
  rewrite (wrap_small (b * n)) by (unfold Int.max_signed in *; lia).
  rewrite wrap_small by (unfold Int.max_signed in *; lia).
  unfold zero_fill.
  destruct (for_loop_inv
    (fun I g' => length g' = length g /\
       forall p, 0 <= p < I -> rd g' p = Some (F32.of_int 0))
    (fun i buf => wr buf i (F32.of_int 0)) (b * n * 6) g)
    as (g' & Hrun & Hlen' & Hcells); [lia| | |].
  - split; [done|]. intros; lia.
  - intros I g0 HI [Hl0 Hc0]. rewrite wr_Some by lia.
    eexists. split; [done|]. split; [by rewrite length_insert|].
    intros p Hp. destruct (decide (p = I)) as [->|Hne].
    + eapply rd_wr_eq, wr_Some. lia.
    + erewrite rd_wr_ne; [apply Hc0; lia | apply wr_Some; lia | done].
  - exists g'. split; [done|]. split; [lia|].
    intros i j c Hi Hj Hc. apply Hcells.
    pose proof (row_bound b n i j Hi Hj). lia.
Qed.

Ltac grid_cases :=
  repeat (first
    [ case_decide
    | match goal with
      | |- context [?x =? ?y] => destruct (Z.eqb_spec x y)
      end ];
    destruct_and?; simplify_eq; try lia);
  try done.

(** ** The scatter over all batches *)

Section Scatter.
Variables (b n m : Z) (xyz1 xyz2 grad_dist1 : list float) (idx1 : list Z)
  (grad_dist2 : list float) (idx2 : list Z).
Hypothesis Hb : 0 <= b.
Hypothesis Hn : 0 <= n.
Hypothesis Hm : 0 <= m.
Hypothesis Hsz1 : b * n * 6 <= Int.max_signed.
Hypothesis Hsz2 : b * m * 6 <= Int.max_signed.
Hypothesis Hlen1 : Z.of_nat (length xyz1) = b * n * 6.
Hypothesis Hlen2 : Z.of_nat (length xyz2) = b * m * 6.
Hypothesis Hleng1 : Z.of_nat (length grad_dist1) = b * n.
Hypothesis Hleni1 : Z.of_nat (length idx1) = b * n.
Hypothesis Hleng2 : Z.of_nat (length grad_dist2) = b * m.
Hypothesis Hleni2 : Z.of_nat (length idx2) = b * m.
Hypothesis Hrange1 :
  forall i j, 0 <= i < b -> 0 <= j < n -> 0 <= at2 0 idx1 n i j < m.
Hypothesis Hrange2 :
  forall i k, 0 <= i < b -> 0 <= k < m -> 0 <= at2 0 idx2 m i k < n.

Let T1 := contrib n m xyz1 xyz2 grad_dist1 idx1.
Let T2 := contrib m n xyz2 xyz1 grad_dist2 idx2.
Let E1 := grad1_expected n m xyz1 xyz2 grad_dist1 idx1 grad_dist2 idx2.
Let E2 := grad2_expected n m xyz1 xyz2 grad_dist1 idx1 grad_dist2 idx2.
Let own1 (i j c : Z) : float := F32.add (F32.of_int 0) (T1 i j c).
Let mid2 (i k c : Z) : float :=
  take_from (at2 0 idx1 n i) (fun j => T1 i j c) k (Z.to_nat n) (F32.of_int 0).

(** The grids held after [I] whole batches. *)
Let F1 (I i j c : Z) : float :=
  if decide (i < I) then E1 i j c else F32.of_int 0.
Let F2 (I i k c : Z) : float :=
  if decide (i < I) then E2 i k c else F32.of_int 0.

(** The grids held after [J] points of the first loop of batch [I]. *)
Let P1a (I J i j c : Z) : float :=
  if decide (i = I)
  then (if decide (j < J) then own1 I j c else F32.of_int 0)
  else F1 I i j c.
Let P2a (I J i k c : Z) : float :=
  if decide (i = I)
  then take_from (at2 0 idx1 n I) (fun j => T1 I j c) k (Z.to_nat J)
         (F32.of_int 0)
  else F2 I i k c.

(** The grids held after [J] points of the second loop of batch [I]. *)
Let P1b (I J i j c : Z) : float :=
  if decide (i = I)
  then take_from (at2 0 idx2 m I) (fun k => T2 I k c) j (Z.to_nat J)
         (own1 I j c)
  else F1 I i j c.
Let P2b (I J i k c : Z) : float :=
  if decide (i = I)
  then (if decide (k < J) then F32.add (mid2 I k c) (T2 I k c)
        else mid2 I k c)
  else F2 I i k c.

Lemma first_loop_ok (I : Z) (g1 g2 : list float) :
  0 <= I < b -> agrees g1 b n (F1 I) -> agrees g2 b m (F2 I) ->
  exists g1' g2',
    for_loop n (grad_point1 n m xyz1 xyz2 grad_dist1 idx1 I) (g1, g2)
      = Some (g1', g2') /\
    agrees g1' b n (P1a I n) /\ agrees g2' b m (P2a I n).
Proof.
  intros HI H1 H2.
  destruct (for_loop_inv
    (fun J g => agrees g.1 b n (P1a I J) /\ agrees g.2 b m (P2a I J))
    (grad_point1 n m xyz1 xyz2 grad_dist1 idx1 I) n (g1, g2))
    as ([g1' g2'] & Hrun & HA & HB); [done| | |by exists g1', g2'].
  - cbn [fst snd]. split.
    + eapply agrees_ext, H1. intros i j c _ Hj _. unfold P1a, F1. grid_cases.
    + eapply agrees_ext, H2. intros i k c _ _ _. unfold P2a, F2. grid_cases.
  - intros J [a0 b0] HJ [HA HB]. cbn [fst snd] in *.
    destruct (grad_point1_step b n m xyz1 xyz2 grad_dist1 idx1
                Hsz1 Hsz2 Hlen1 Hlen2 Hleng1 Hleni1 Hrange1
                I J a0 b0 _ _ HI HJ HA HB) as (a1 & b1 & -> & HA' & HB').
    exists (a1, b1). split; [done|]. cbn [fst snd]. split.
    + eapply agrees_ext, HA'. intros i j c _ Hj _. unfold P1a. grid_cases.
    + eapply agrees_ext, HB'. intros i k c _ _ _. unfold P2a.
      rewrite take_from_succ by lia. grid_cases.
Qed.

Lemma second_loop_ok (I : Z) (g1 g2 : list float) :
  0 <= I < b -> agrees g1 b n (P1a I n) -> agrees g2 b m (P2a I n) ->
  exists g1' g2',
    for_loop m (grad_point2 n m xyz1 xyz2 grad_dist2 idx2 I) (g1, g2)
      = Some (g1', g2') /\
    agrees g1' b n (P1b I m) /\ agrees g2' b m (P2b I m).
Proof.
  intros HI H1 H2.
  destruct (for_loop_inv
    (fun J g => agrees g.1 b n (P1b I J) /\ agrees g.2 b m (P2b I J))
    (grad_point2 n m xyz1 xyz2 grad_dist2 idx2 I) m (g1, g2))
    as ([g1' g2'] & Hrun & HA & HB); [done| | |by exists g1', g2'].
  - cbn [fst snd]. split.
    + eapply agrees_ext, H1. intros i j c _ Hj _. unfold P1b, P1a. grid_cases.
    + eapply agrees_ext, H2. intros i k c _ Hk _. unfold P2b, P2a, mid2.
      grid_cases.
  - intros J [a0 b0] HJ [HA HB]. cbn [fst snd] in *.
    rewrite grad_point2_swap.
    destruct (grad_point1_step b m n xyz2 xyz1 grad_dist2 idx2
                Hsz2 Hsz1 Hlen2 Hlen1 Hleng2 Hleni2 Hrange2
                I J b0 a0 _ _ HI HJ HB HA) as (b1 & a1 & -> & HB' & HA').
    exists (a1, b1). split; [done|]. cbn [fst snd]. split.
    + eapply agrees_ext, HA'. intros i j c _ _ _. unfold P1b.
      rewrite take_from_succ by lia. grid_cases.
    + eapply agrees_ext, HB'. intros i k c _ Hk _. unfold P2b. grid_cases.
Qed.

Lemma grad_batch_ok (I : Z) (g1 g2 : list float) :
  0 <= I < b -> agrees g1 b n (F1 I) -> agrees g2 b m (F2 I) ->
  exists g1' g2',
    grad_batch n m xyz1 xyz2 grad_dist1 idx1 grad_dist2 idx2 I (g1, g2)
      = Some (g1', g2') /\
    agrees g1' b n (F1 (I + 1)) /\ agrees g2' b m (F2 (I + 1)).
Proof.
  intros HI H1 H2. unfold grad_batch.
  destruct (first_loop_ok I g1 g2 HI H1 H2) as (a1 & b1 & -> & HA & HB).
  cbn [mbind option_bind].
  destruct (second_loop_ok I a1 b1 HI HA HB) as (a2 & b2 & -> & HA' & HB').
  exists a2, b2. split; [done|]. split.
  - eapply agrees_ext, HA'. intros i j c _ _ _. unfold P1b, F1. grid_cases.
  - eapply agrees_ext, HB'. intros i k c _ Hk _. unfold P2b, F2. grid_cases.
Qed.

(** The loops of the backward kernel return and leave the two grids of
    expected values, whatever the buffers held before. *)
Lemma grad_loops_ok (g1 g2 : list float) :
  Z.of_nat (length g1) = b * n * 6 -> Z.of_nat (length g2) = b * m * 6 ->
  exists g1' g2',
    grad_loops b n m xyz1 xyz2 grad_dist1 idx1 grad_dist2 idx2 g1 g2
      = Some (g1', g2') /\
    agrees g1' b n E1 /\ agrees g2' b m E2.
Proof.
  intros Hl1 Hl2. unfold grad_loops.
  destruct (zero_fill_agrees b n g1) as (z1 & -> & Hz1); [done..|].
  cbn [mbind option_bind].
  destruct (zero_fill_agrees b m g2) as (z2 & -> & Hz2); [done..|].
  cbn [mbind option_bind].
  destruct (for_loop_inv
    (fun I g => agrees g.1 b n (F1 I) /\ agrees g.2 b m (F2 I))
    (grad_batch n m xyz1 xyz2 grad_dist1 idx1 grad_dist2 idx2) b (z1, z2))
    as ([g1' g2'] & Hrun & HA & HB); [done| | |].
  - cbn [fst snd]. split.
    + eapply agrees_ext, Hz1. intros i j c Hi _ _. unfold F1. grid_cases.
    + eapply agrees_ext, Hz2. intros i j c Hi _ _. unfold F2. grid_cases.
  - intros I [a0 b0] HI [HA HB]. cbn [fst snd] in *.
    destruct (grad_batch_ok I a0 b0 HI HA HB) as (a1 & b1 & -> & HA' & HB').
    by exists (a1, b1).
  - exists g1', g2'. split; [done|]. cbn [fst snd] in *. split.
    + eapply agrees_ext, HA. intros i j c Hi _ _. unfold F1. grid_cases.
    + eapply agrees_ext, HB. intros i j c Hi _ _. unfold F2. grid_cases.
Qed.

End Scatter.

(** ** The backward kernel on accepted inputs *)

Lemma in_range_at2 (idx : Tensor Z) (b n m i j : Z) :
  in_range idx m -> Z.of_nat (length (flat idx)) = b * n ->
  0 <= i < b -> 0 <= j < n -> 0 <= at2 0 (flat idx) n i j < m.
Proof.
  intros Hall Hlen Hi Hj. pose proof (row_bound b n i j Hi Hj) as Hrow.
  destruct (rd_is_Some (flat idx) (i * n + j)) as [k Hk]; [lia|].
  unfold at2. rewrite Hk. cbn. rewrite rd_lookup in Hk by lia.
  by eapply (Forall_lookup_1 _ _ _ _ Hall) in Hk.
Qed.

Lemma fresh_length3 {A} (b n : Z) (junk : A) :
  0 <= b -> 0 <= n ->
  Z.of_nat (length (flat (fresh [b; n; 6] junk))) = b * n * 6.
Proof.
  intros. cbn. rewrite length_replicate. unfold num_elements. cbn. nia.
Qed.

(** On inputs of the right shapes the checks pass and the kernel is its
    loops on fresh outputs: the values of the matches are not looked at. *)
Lemma GradCompute_accepted (junk_f : float)
    (xyz1_tensor xyz2_tensor grad_dist1_tensor : Tensor float)
    (idx1_tensor : Tensor Z) (grad_dist2_tensor : Tensor float)
    (idx2_tensor : Tensor Z) (b n m : Z) :
  point_set xyz1_tensor b n -> point_set xyz2_tensor b m ->
  side_input grad_dist1_tensor idx1_tensor b n m ->
  side_input grad_dist2_tensor idx2_tensor b m n ->
  NnDistance2GradOp_Compute junk_f xyz1_tensor xyz2_tensor
    grad_dist1_tensor idx1_tensor grad_dist2_tensor idx2_tensor =
    '(grad_xyz1, grad_xyz2) ←
      grad_loops b n m (flat xyz1_tensor) (flat xyz2_tensor)
        (flat grad_dist1_tensor) (flat idx1_tensor)
        (flat grad_dist2_tensor) (flat idx2_tensor)
        (flat (fresh [b; n; 6] junk_f)) (flat (fresh [b; m; 6] junk_f));
    Some (mkGrad OK (Some (mkTensor [b; n; 6] grad_xyz1))
                    (Some (mkTensor [b; m; 6] grad_xyz2))).
Proof.
  intros [Hs1 _ Hb Hn _] [Hs2 _ _ Hm _] [Hg1 _ Hi1 _] [Hg2 _ Hi2 _].
  unfold NnDistance2GradOp_Compute, OP_REQUIRES, dims, dim_size, shape_is.
  rewrite Hs1, Hs2, Hg1, Hi1, Hg2, Hi2.
  cbn [length lookup list_lookup default from_option id].
  change (Z.of_nat 3 =? 3) with true. change (6 =? 6) with true. cbv iota.
  rewrite !wrap_small by (unfold Int.max_signed in *; lia).
  rewrite Z.eqb_refl.
  rewrite !TensorShape_nonneg by (repeat constructor; lia).
  cbn [mbind option_bind]. rewrite !bool_decide_eq_true_2 by done.
  done.
Qed.

Lemma GradCompute_ok (junk_f : float)
    (xyz1_tensor xyz2_tensor grad_dist1_tensor : Tensor float)
    (idx1_tensor : Tensor Z) (grad_dist2_tensor : Tensor float)
    (idx2_tensor : Tensor Z) (b n m : Z) :
  point_set xyz1_tensor b n -> point_set xyz2_tensor b m ->
  side_input grad_dist1_tensor idx1_tensor b n m ->
  side_input grad_dist2_tensor idx2_tensor b m n ->
  in_range idx1_tensor m -> in_range idx2_tensor n ->
  exists grad_xyz1 grad_xyz2,
    NnDistance2GradOp_Compute junk_f xyz1_tensor xyz2_tensor
      grad_dist1_tensor idx1_tensor grad_dist2_tensor idx2_tensor =
      Some (mkGrad OK (Some (mkTensor [b; n; 6] grad_xyz1))
                      (Some (mkTensor [b; m; 6] grad_xyz2))) /\
    agrees grad_xyz1 b n
      (grad1_expected n m (flat xyz1_tensor) (flat xyz2_tensor)
         (flat grad_dist1_tensor) (flat idx1_tensor)
         (flat grad_dist2_tensor) (flat idx2_tensor)) /\
    agrees grad_xyz2 b m
      (grad2_expected n m (flat xyz1_tensor) (flat xyz2_tensor)
         (flat grad_dist1_tensor) (flat idx1_tensor)
         (flat grad_dist2_tensor) (flat idx2_tensor)).
Proof.
  intros H1 H2 S1 S2 R1 R2.
  rewrite (GradCompute_accepted _ _ _ _ _ _ _ b n m) by done.
  destruct H1 as [_ Hf1 Hb Hn Hz1], H2 as [_ Hf2 _ Hm Hz2].
  destruct S1 as [_ Hg1 _ Hi1], S2 as [_ Hg2 _ Hi2].
  destruct (grad_loops_ok b n m (flat xyz1_tensor) (flat xyz2_tensor)
              (flat grad_dist1_tensor) (flat idx1_tensor)
              (flat grad_dist2_tensor) (flat idx2_tensor))
    with (g1 := flat (fresh [b; n; 6] junk_f))
         (g2 := flat (fresh [b; m; 6] junk_f))
    as (g1 & g2 & -> & HA & HB); try done; try lia.
  - intros i j Hi Hj. by eapply in_range_at2.
  - intros i j Hi Hj. by eapply in_range_at2.
  - apply fresh_length3; lia.
  - apply fresh_length3; lia.
  - by exists g1, g2.
Qed.

Ltac side_input_tac := constructor; reflexivity.
Ltac in_range_tac := unfold in_range; cbn; repeat first [lia | constructor].

(** Claim C2.  On inputs of the right shapes whose matches are in range,
    the backward call returns two buffers that do not depend on what the
    fresh outputs held: [gradXyz1[i,j,c]] is zero, plus the term
    [g*(xyz1[i,j,c]-xyz2[i,k,c])] of point [j] in the first pass, less, in
    turn, the term of every point of [xyz2] that the second pass matches
    with [j]; [gradXyz2[i,k,c]] is zero, less, in turn, the term of every
    point of [xyz1] that the first pass matches with [k], plus the term of
    point [k] in the second pass. *)
Theorem backward_accumulates (junk_f : float)
    (xyz1_tensor xyz2_tensor grad_dist1_tensor : Tensor float)
    (idx1_tensor : Tensor Z) (grad_dist2_tensor : Tensor float)
    (idx2_tensor : Tensor Z) (b n m : Z) :
  point_set xyz1_tensor b n -> point_set xyz2_tensor b m ->
  side_input grad_dist1_tensor idx1_tensor b n m ->
  side_input grad_dist2_tensor idx2_tensor b m n ->
  in_range idx1_tensor m -> in_range idx2_tensor n ->
  exists grad_xyz1 grad_xyz2,
    NnDistance2GradOp_Compute junk_f xyz1_tensor xyz2_tensor
      grad_dist1_tensor idx1_tensor grad_dist2_tensor idx2_tensor =
      Some (mkGrad OK (Some (mkTensor [b; n; 6] grad_xyz1))
                      (Some (mkTensor [b; m; 6] grad_xyz2))) /\
    (forall i j c, 0 <= i < b -> 0 <= j < n -> 0 <= c < 6 ->
       rd grad_xyz1 ((i * n + j) * 6 + c) =
         Some (grad1_expected n m (flat xyz1_tensor) (flat xyz2_tensor)
                 (flat grad_dist1_tensor) (flat idx1_tensor)
                 (flat grad_dist2_tensor) (flat idx2_tensor) i j c)) /\
    (forall i k c, 0 <= i < b -> 0 <= k < m -> 0 <= c < 6 ->
       rd grad_xyz2 ((i * m + k) * 6 + c) =
         Some (grad2_expected n m (flat xyz1_tensor) (flat xyz2_tensor)
                 (flat grad_dist1_tensor) (flat idx1_tensor)
                 (flat grad_dist2_tensor) (flat idx2_tensor) i k c)).
Proof.
  intros H1 H2 S1 S2 R1 R2.
  destruct (GradCompute_ok junk_f _ _ _ _ _ _ b n m H1 H2 S1 S2 R1 R2)
    as (g1 & g2 & Hrun & [_ HA] & [_ HB]).
  by exists g1, g2.
Qed.

Lemma backward_accumulates_witness :
  exists grad_xyz1 grad_xyz2,
    NnDistance2GradOp_Compute (F32.of_int 9) ex_origin ex_unit
      ex_grad_one ex_idx_first ex_grad_zero ex_idx_first =
      Some (mkGrad OK (Some (mkTensor [1; 1; 6] grad_xyz1))
                      (Some (mkTensor [1; 1; 6] grad_xyz2))) /\
    rd grad_xyz1 0 = Some (F32.of_int (-2)) /\
    rd grad_xyz2 0 = Some (F32.of_int 2).
Proof.
  destruct (backward_accumulates (F32.of_int 9) ex_origin ex_unit
              ex_grad_one ex_idx_first ex_grad_zero ex_idx_first 1 1 1)
    as (g1 & g2 & Hrun & Hg1 & Hg2);
    [point_set_tac | point_set_tac | side_input_tac | side_input_tac
    | in_range_tac | in_range_tac |].
  exists g1, g2. split; [exact Hrun|]. split.
  - exact (Hg1 0 0 0 ltac:(lia) ltac:(lia) ltac:(lia)).
  - exact (Hg2 0 0 0 ltac:(lia) ltac:(lia) ltac:(lia)).
Defined.

(** ** Matches that leave the buffer *)

Lemma grad_point1_fault (n m : Z) (xyzA xyzB grad_dist : list float)
    (idx : list Z) (i j k : Z) (g : list float * list float) :
  rd idx (flat2 i n j) = Some k -> rd xyzB (flat6 i m k 0) = None ->
  grad_point1 n m xyzA xyzB grad_dist idx i j g = None.
Proof.
  intros Hk Hout. unfold grad_point1. destruct g as [gA gB].
  repeat match goal with
  | |- context [rd xyzA ?p ≫= _] =>
      destruct (rd xyzA p); cbn [mbind option_bind]; [|done]
  end.
  rewrite Hk. cbn [mbind option_bind]. rewrite Hout. done.
Qed.

Lemma row_outside (buf : list float) (b m i k : Z) :
  0 <= b -> 0 <= m -> b * m * 6 <= Int.max_signed ->
  Z.of_nat (length buf) = b * m * 6 -> 0 <= i < b ->
  i * m + k < 0 \/ b * m <= i * m + k ->
  -357913941 <= i * m + k <= 357913940 ->
  rd buf (flat6 i m k 0) = None.
Proof.
  intros Hb Hm Hsz Hlen Hi Hout Hsmall.
  assert (0 <= i * m <= b * m) by nia.
  unfold flat6, flat2, Int.add, Int.mul.
  rewrite (wrap_small (i * m)) by (unfold Int.max_signed in *; lia).
  rewrite (wrap_small (i * m + k)) by (unfold Int.max_signed; lia).
  rewrite (wrap_small ((i * m + k) * 6)) by (unfold Int.max_signed; lia).
  rewrite wrap_small by (unfold Int.max_signed; lia).
  apply rd_None. lia.
Qed.

Section Faults.
Variables (b n m : Z) (xyz1 xyz2 grad_dist1 : list float) (idx1 : list Z)
  (grad_dist2 : list float) (idx2 : list Z).

Lemma grad_loops_fault1 (i j k : Z) (g1 g2 : list float) :
  0 <= i < b -> 0 <= j < n ->
  rd idx1 (flat2 i n j) = Some k -> rd xyz2 (flat6 i m k 0) = None ->
  grad_loops b n m xyz1 xyz2 grad_dist1 idx1 grad_dist2 idx2 g1 g2 = None.
Proof.
  intros Hi Hj Hk Hout. unfold grad_loops.
  destruct (zero_fill _ g1); cbn [mbind option_bind]; [|done].
  destruct (zero_fill _ g2); cbn [mbind option_bind]; [|done].
  apply (for_loop_fault _ b i); [done|]. intros g. unfold grad_batch.
  rewrite (for_loop_fault _ n j); [done..|].
  intros g'. by eapply grad_point1_fault.
Qed.


End Faults.




(** ** Rejected inputs *)

Lemma dim_size_fits {A} (t : Tensor A) (d : nat) :
  int_extents t -> 0 <= dim_size t d <= Int.max_signed.
Proof.
  intros Hall. unfold dim_size.
  destruct (shape t !! d) as [x|] eqn:Hx; cbn.
  - by eapply (Forall_lookup_1 _ _ _ _ Hall) in Hx.
  - unfold Int.max_signed. lia.
Qed.

Lemma wrap_dim_size {A} (t : Tensor A) (d : nat) :
  int_extents t -> Int.wrap (dim_size t d) = dim_size t d.
Proof.
  intros Hall. pose proof (dim_size_fits t d Hall).
  apply wrap_small. unfold Int.max_signed in *. lia.
Qed.

(** Claim C4, amended.  When the extents are values of [int] and a shape
    precondition is violated, the forward call and the backward call end
    with an invalid-argument status and with every output slot still not
    allocated. *)
Theorem shape_violation_rejected (junk_f : float) (junk_i : Z)
    (xyz1_tensor xyz2_tensor grad_dist1_tensor : Tensor float)
    (idx1_tensor : Tensor Z) (grad_dist2_tensor : Tensor float)
    (idx2_tensor : Tensor Z) :
  int_extents xyz1_tensor -> int_extents xyz2_tensor ->
  (shape_violation xyz1_tensor xyz2_tensor ->
   exists msg,
     NnDistance2Op_Compute junk_f junk_i xyz1_tensor xyz2_tensor =
       Some (mkFwd (InvalidArgument msg) None None None None)) /\
  (shape_violation xyz1_tensor xyz2_tensor \/
   side_violation xyz1_tensor xyz2_tensor grad_dist1_tensor idx1_tensor
     grad_dist2_tensor idx2_tensor ->
   exists msg,
     NnDistance2GradOp_Compute junk_f xyz1_tensor xyz2_tensor
       grad_dist1_tensor idx1_tensor grad_dist2_tensor idx2_tensor =
       Some (mkGrad (InvalidArgument msg) None None)).
Proof.
  intros HX1 HX2. split.
  - intros Hviol. unfold NnDistance2Op_Compute, OP_REQUIRES.
    rewrite !wrap_dim_size by done.
    destruct (Z.eqb_spec (dims xyz1_tensor) 3); [|by eexists].
    destruct (Z.eqb_spec (dim_size xyz1_tensor 2) 6); [|by eexists].
    destruct (Z.eqb_spec (dims xyz2_tensor) 3); [|by eexists].
    destruct (Z.eqb_spec (dim_size xyz2_tensor 2) 6); [|by eexists].
    destruct (Z.eqb_spec (dim_size xyz2_tensor 0) (dim_size xyz1_tensor 0));
      [|by eexists].
    unfold shape_violation in Hviol. tauto.
  - intros Hviol. unfold NnDistance2GradOp_Compute, OP_REQUIRES, shape_is.
    rewrite !wrap_dim_size by done.
    destruct (Z.eqb_spec (dims xyz1_tensor) 3); [|by eexists].
    destruct (Z.eqb_spec (dim_size xyz1_tensor 2) 6); [|by eexists].
    destruct (Z.eqb_spec (dims xyz2_tensor) 3); [|by eexists].
    destruct (Z.eqb_spec (dim_size xyz2_tensor 2) 6); [|by eexists].
    destruct (Z.eqb_spec (dim_size xyz2_tensor 0) (dim_size xyz1_tensor 0));
      [|by eexists].
    pose proof (dim_size_fits xyz1_tensor 0 HX1).
    pose proof (dim_size_fits xyz1_tensor 1 HX1).
    pose proof (dim_size_fits xyz2_tensor 1 HX2).
    rewrite !TensorShape_nonneg by (repeat constructor; lia).
    cbn [mbind option_bind].
    case_bool_decide; [|by eexists].
    case_bool_decide; [|by eexists].
    case_bool_decide; [|by eexists].
    case_bool_decide; [|by eexists].
    unfold shape_violation, side_violation in Hviol. tauto.
Qed.

Lemma shape_violation_rejected_witness :
  (exists msg,
     NnDistance2Op_Compute F32.zero 0 ex_origin ex_two_batches =
       Some (mkFwd (InvalidArgument msg) None None None None)) /\
  (exists msg,
     NnDistance2GradOp_Compute F32.zero ex_origin ex_unit
       ex_grad_one ex_idx_rank1 ex_grad_zero ex_idx_first =
       Some (mkGrad (InvalidArgument msg) None None)).
Proof.
  split.
  - apply (shape_violation_rejected F32.zero 0 ex_origin ex_two_batches
             ex_grad_one ex_idx_first ex_grad_zero ex_idx_first).
    + unfold int_extents, Int.max_signed; cbn; repeat first [lia | constructor].
    + unfold int_extents, Int.max_signed; cbn; repeat first [lia | constructor].
    + unfold shape_violation. cbn. lia.
  - apply (shape_violation_rejected F32.zero 0 ex_origin ex_unit
             ex_grad_one ex_idx_rank1 ex_grad_zero ex_idx_first).
    + unfold int_extents, Int.max_signed; cbn; repeat first [lia | constructor].
    + unfold int_extents, Int.max_signed; cbn; repeat first [lia | constructor].
    + right. unfold side_violation. cbn. right. left. discriminate.
Defined.

(** Claim C4 as stated fails on extents that are not values of [int]:
    [int b] and [int n] hold them reduced, and the checks compare with the
    reduced values.  The forward call accepts 4294967297 batches against
    one batch and returns outputs; the backward call accepts [grad_dist1]
    and [idx1] of shape [[0,5]] for 4294967301 points per batch. *)
Lemma shape_violation_rejected_counterexample :
  (shape_violation ex_batch_wrapped ex_unit /\
   NnDistance2Op_Compute F32.zero 7 ex_batch_wrapped ex_unit =
     Some (mkFwd OK
             (Some (mkTensor [1; 0] [])) (Some (mkTensor [1; 0] []))
             (Some (mkTensor [1; 1] [F32.zero])) (Some (mkTensor [1; 1] [0])))) /\
  (side_violation ex_points_wrapped ex_no_batch
     ex_grad_five ex_idx_five ex_grad_none ex_idx_none /\
   NnDistance2GradOp_Compute F32.zero ex_points_wrapped ex_no_batch
     ex_grad_five ex_idx_five ex_grad_none ex_idx_none =
     Some (mkGrad OK (Some (mkTensor [0; 5; 6] []))
                     (Some (mkTensor [0; 1; 6] [])))).
Proof.
  split; (split; [|reflexivity]).
  - unfold shape_violation. cbn. lia.
  - unfold side_violation. cbn. left. discriminate.
Qed.

(** ** Zero terms and single matches *)

Lemma same_value_refl (x : float) : same_value x x.
Proof. by left. Qed.

Lemma same_value_trans (x y z : float) :
  same_value x y -> same_value y z -> same_value x z.
Proof.
  intros [->|[Hx Hy]] [->|[Hy' Hz]]; unfold same_value; auto.
Qed.

Lemma same_value_opp (x y : float) :
  same_value x y -> same_value (SFopp x) (SFopp y).
Proof.
  intros [->|[Hx Hy]]; [by left|]. right.
  destruct x, y; try done.
Qed.

Lemma sub_zero_same (x y z : float) :
  is_zero z = true -> same_value x y -> same_value (F32.sub x z) y.
Proof.
  intros Hz Hxy. destruct z as [sz| | |]; try done.
  destruct Hxy as [->|[Hx Hy]].
  - destruct y as [[]|[]| |[] ? ?], sz; cbn; unfold same_value; auto.
  - destruct x as [[]| | |], sz; try done; right; done.
Qed.

Lemma add_zero_same (x y z : float) :
  is_zero z = true -> same_value x y -> same_value (F32.add x z) y.
Proof.
  intros Hz Hxy. destruct z as [sz| | |]; try done.
  destruct Hxy as [->|[Hx Hy]].
  - destruct y as [[]|[]| |[] ? ?], sz; cbn; unfold same_value; auto.
  - destruct x as [[]| | |], sz; try done; right; done.
Qed.

(** What a point receives for itself is the negation of what its match
    loses. *)
Lemma own_opp_taken (t : float) :
  same_value (F32.add (F32.of_int 0) t) (SFopp (F32.sub (F32.of_int 0) t)).
Proof.
  destruct t as [[]|[]| |[] ? ?]; cbn; unfold same_value; auto.
Qed.

Lemma mul_zero_finite (g d : float) :
  is_zero g = true -> is_finite d = true -> is_zero (F32.mul g d) = true.
Proof. destruct g, d; done. Qed.

Lemma mul_zero_two (g : float) :
  is_zero g = true -> is_zero (F32.mul g (F32.of_int 2)) = true.
Proof. destruct g; done. Qed.

Lemma take_from_zeros (match_of : Z -> Z) (t : Z -> float) (k : Z) (J : nat)
    (acc : float) :
  (forall j, 0 <= j < Z.of_nat J -> is_zero (t j) = true) ->
  same_value (take_from match_of t k J acc) acc.
Proof.
  induction J as [|J IH]; intros Hz; [apply same_value_refl|].
  cbn [take_from]. destruct (_ =? _).
  - apply sub_zero_same; [apply Hz; lia|]. apply IH. intros; apply Hz; lia.
  - apply IH. intros; apply Hz; lia.
Qed.

Lemma take_from_single (match_of : Z -> Z) (t : Z -> float) (j : Z) (J : nat)
    (acc : float) :
  0 <= j ->
  (forall j', 0 <= j' < Z.of_nat J -> match_of j' = match_of j -> j' = j) ->
  take_from match_of t (match_of j) J acc =
    if decide (j < Z.of_nat J) then F32.sub acc (t j) else acc.
Proof.
  intros Hj. induction J as [|J IH]; intros Hinj.
  - cbn. by rewrite decide_False by lia.
  - cbn [take_from]. rewrite IH by (intros; apply Hinj; [lia|done]).
    destruct (Z.eqb_spec (match_of (Z.of_nat J)) (match_of j)) as [Heq|Hne].
    + apply Hinj in Heq; [|lia]. subst j.
      rewrite decide_False by lia. by rewrite decide_True by lia.
    + assert (Z.of_nat J <> j) by (intros <-; done).
      destruct (decide (j < Z.of_nat J)).
      * by rewrite decide_True by lia.
      * by rewrite decide_False by lia.
Qed.

Lemma all_zero_at2 (grad_dist : Tensor float) (n i j : Z) :
  all_zero grad_dist -> is_zero (at2 F32.zero (flat grad_dist) n i j) = true.
Proof.
  intros Hall. unfold at2, rd. destruct (decide _); [|done].
  destruct (flat grad_dist !! _) as [g|] eqn:Hg; [|done].
  by eapply (Forall_lookup_1 _ _ _ _ Hall) in Hg.
Qed.

(** Claim C6, amended.  On inputs of the right shapes whose matches are in
    range, when [gradDist2] is zero everywhere, no two points of [xyz1] in
    a batch share their match, and the coordinate differences formed by
    the pass from [xyz2] to [xyz1] are finite, [gradXyz1[i,j,c]] is the
    negation of [gradXyz2[i,k,c]] for [k = idx1[i,j]], the sign of a zero
    left aside. *)
Theorem backward_antisymmetric (junk_f : float)
    (xyz1_tensor xyz2_tensor grad_dist1_tensor : Tensor float)
    (idx1_tensor : Tensor Z) (grad_dist2_tensor : Tensor float)
    (idx2_tensor : Tensor Z) (b n m : Z) :
  point_set xyz1_tensor b n -> point_set xyz2_tensor b m ->
  side_input grad_dist1_tensor idx1_tensor b n m ->
  side_input grad_dist2_tensor idx2_tensor b m n ->
  in_range idx1_tensor m -> in_range idx2_tensor n ->
  all_zero grad_dist2_tensor ->
  injective_matches idx1_tensor b n ->
  finite_differences xyz2_tensor xyz1_tensor idx2_tensor b m n ->
  exists grad_xyz1 grad_xyz2,
    NnDistance2GradOp_Compute junk_f xyz1_tensor xyz2_tensor
      grad_dist1_tensor idx1_tensor grad_dist2_tensor idx2_tensor =
      Some (mkGrad OK (Some (mkTensor [b; n; 6] grad_xyz1))
                      (Some (mkTensor [b; m; 6] grad_xyz2))) /\
    forall i j c, 0 <= i < b -> 0 <= j < n -> 0 <= c < 6 ->
      let k := at2 0 (flat idx1_tensor) n i j in
      exists v1 v2,
        rd grad_xyz1 ((i * n + j) * 6 + c) = Some v1 /\
        rd grad_xyz2 ((i * m + k) * 6 + c) = Some v2 /\
        same_value v1 (SFopp v2).
Proof.
  intros H1 H2 S1 S2 R1 R2 Hzero Hinj Hfin.
  destruct (GradCompute_ok junk_f _ _ _ _ _ _ b n m H1 H2 S1 S2 R1 R2)
    as (g1 & g2 & Hrun & [_ HA] & [_ HB]).
  exists g1, g2. split; [done|]. intros i j c Hi Hj Hc k.
  assert (0 <= k < m) as Hk.
  { destruct S1 as [_ _ _ Hl]. by eapply in_range_at2. }
  assert (forall k' c', 0 <= k' < m -> 0 <= c' < 6 ->
            is_zero (contrib m n (flat xyz2_tensor) (flat xyz1_tensor)
                       (flat grad_dist2_tensor) (flat idx2_tensor) i k' c')
            = true) as Hnull.
  { intros k' c' Hk' Hc'. unfold contrib. apply mul_zero_finite.
    - by apply mul_zero_two, all_zero_at2.
    - by apply Hfin. }
  eexists _, _. split; [by apply HA|]. split; [by apply HB|].
  unfold grad1_expected, grad2_expected.
  eapply same_value_trans.
  { apply take_from_zeros. intros k' Hk'. apply Hnull; lia. }
  eapply same_value_trans; [apply own_opp_taken|].
  apply same_value_opp.
  assert (forall x y, same_value x y -> same_value y x) as Hsym.
  { intros x y [->|[? ?]]; unfold same_value; auto. }
  apply Hsym, add_zero_same; [by apply Hnull|].
  fold k. unfold k at 1.
  rewrite (take_from_single (at2 0 (flat idx1_tensor) n i)
             (fun j0 => contrib n m (flat xyz1_tensor) (flat xyz2_tensor)
                          (flat grad_dist1_tensor) (flat idx1_tensor) i j0 c)
             j (Z.to_nat n)); [|lia|].
  - rewrite decide_True by lia. apply same_value_refl.
  - intros j' Hj' Heq. apply (Hinj i j' j); [done|lia|done|done].
Qed.

Lemma backward_antisymmetric_witness :
  exists grad_xyz1 grad_xyz2,
    NnDistance2GradOp_Compute (F32.of_int 9) ex_origin ex_unit
      ex_grad_one ex_idx_first ex_grad_zero ex_idx_first =
      Some (mkGrad OK (Some (mkTensor [1; 1; 6] grad_xyz1))
                      (Some (mkTensor [1; 1; 6] grad_xyz2))) /\
    exists v1 v2,
      rd grad_xyz1 0 = Some v1 /\ rd grad_xyz2 0 = Some v2 /\
      same_value v1 (SFopp v2).
Proof.
  destruct (backward_antisymmetric (F32.of_int 9) ex_origin ex_unit
              ex_grad_one ex_idx_first ex_grad_zero ex_idx_first 1 1 1)
    as (g1 & g2 & Hrun & Hanti);
    [point_set_tac | point_set_tac | side_input_tac | side_input_tac
    | in_range_tac | in_range_tac | | | |].
  - repeat constructor.
  - intros i j j' Hi Hj Hj' _. lia.
  - intros i j c Hi Hj Hc. assert (i = 0) as -> by lia.
    assert (j = 0) as -> by lia.
    assert (c = 0 \/ c = 1 \/ c = 2 \/ c = 3 \/ c = 4 \/ c = 5)
      as [->|[->|[->|[->|[->| ->]]]]] by lia; reflexivity.
  - exists g1, g2. split; [exact Hrun|].
    exact (Hanti 0 0 0 ltac:(lia) ltac:(lia) ltac:(lia)).
Defined.

(** Claim C6 as stated fails on finite coordinates whose difference
    overflows: with [gradDist2] zero and distinct matches, the second pass
    multiplies zero by an infinite difference, and [gradXyz2[0,0,0]] is
    NaN while [gradXyz1[0,0,0]] is [-2^127]. *)
Lemma backward_antisymmetric_counterexample :
  point_set ex_left 1 2 /\ point_set ex_right 1 2 /\
  side_input ex_grad_ones ex_idx_straight 1 2 2 /\
  side_input ex_grad_zeros ex_idx_crossed 1 2 2 /\
  in_range ex_idx_straight 2 /\ in_range ex_idx_crossed 2 /\
  all_zero ex_grad_zeros /\ injective_matches ex_idx_straight 1 2 /\
  Forall (fun x => is_finite x = true) (flat ex_left ++ flat ex_right) /\
  exists grad_xyz1 grad_xyz2,
    NnDistance2GradOp_Compute (F32.of_int 9) ex_left ex_right
      ex_grad_ones ex_idx_straight ex_grad_zeros ex_idx_crossed =
      Some (mkGrad OK (Some (mkTensor [1; 2; 6] grad_xyz1))
                      (Some (mkTensor [1; 2; 6] grad_xyz2))) /\
    at2 0 (flat ex_idx_straight) 2 0 0 = 0 /\
    rd grad_xyz1 0 = Some (F32.of_int (- 2 ^ 127)) /\
    rd grad_xyz2 0 = Some S754_nan /\
    ¬ same_value (F32.of_int (- 2 ^ 127)) (SFopp S754_nan).
Proof.
  split_and!.
  - point_set_tac.
  - point_set_tac.
  - side_input_tac.
  - side_input_tac.
  - in_range_tac.
  - in_range_tac.
  - repeat constructor.
  - intros i j j' Hi Hj Hj'. assert (i = 0) as -> by lia.
    assert (j = 0 \/ j = 1) as [-> | ->] by lia;
      assert (j' = 0 \/ j' = 1) as [-> | ->] by lia;
      intros Heq; first [reflexivity | vm_compute in Heq; discriminate Heq].
  - repeat constructor.
  - eexists _, _. split; [reflexivity|]. split_and!; try reflexivity.
    intros [Heq|[Hz _]]; discriminate.
Qed.

(** Claim C9.  The code does not accumulate in double precision: the
    differences, the products and the sum of line 41 are formed in
    [float], and only the sum is widened.  On two far candidates both
    distances overflow to infinity and the first candidate is kept,
    although the second is nearer when accumulated in [double]; on two
    close candidates the distances round to the same [float] and the first
    is kept, although the second is nearer when accumulated in [double]. *)
Theorem accumulation_in_float :
  (NnDistance2Op_Compute F32.zero 7 ex_origin ex_far =
     Some (mkFwd OK
             (Some (mkTensor [1; 1] [S754_infinity false]))
             (Some (mkTensor [1; 1] [0]))
             (Some (mkTensor [1; 2] [S754_infinity false; S754_infinity false]))
             (Some (mkTensor [1; 2] [0; 0]))) /\
   cand_dist 1 2 (flat ex_origin) (flat ex_far) 0 0 0 = S754_infinity false /\
   cand_dist 1 2 (flat ex_origin) (flat ex_far) 0 0 1 = S754_infinity false /\
   is_finite (cand_dist_wide 1 2 (flat ex_origin) (flat ex_far) 0 0 0) = true /\
   F64.ltb (cand_dist_wide 1 2 (flat ex_origin) (flat ex_far) 0 0 1)
           (cand_dist_wide 1 2 (flat ex_origin) (flat ex_far) 0 0 0) = true) /\
  (NnDistance2Op_Compute F32.zero 7 ex_origin ex_close =
     Some (mkFwd OK
             (Some (mkTensor [1; 1] [F32.of_int 1]))
             (Some (mkTensor [1; 1] [0]))
             (Some (mkTensor [1; 2] [F32.of_int 1; F32.of_int 1]))
             (Some (mkTensor [1; 2] [0; 0]))) /\
   cand_dist 1 2 (flat ex_origin) (flat ex_close) 0 0 0 =
     cand_dist 1 2 (flat ex_origin) (flat ex_close) 0 0 1 /\
   F64.ltb (cand_dist_wide 1 2 (flat ex_origin) (flat ex_close) 0 0 1)
           (cand_dist_wide 1 2 (flat ex_origin) (flat ex_close) 0 0 0) = true).
Proof. repeat split. Qed.

(** ** The documented scenario *)

(** One point at the origin and one at [(1,0,0,0,0,0)]: both distances
    are 1 and both indices 0; with upstream gradients 1 and 0 the
    gradients are [(-2,0,0,0,0,0)] and [(2,0,0,0,0,0)]. *)
Example unit_scenario :
  NnDistance2Op_Compute (F32.of_int 9) 9 ex_origin ex_unit =
    Some (mkFwd OK
            (Some (mkTensor [1; 1] [F32.of_int 1])) (Some (mkTensor [1; 1] [0]))
            (Some (mkTensor [1; 1] [F32.of_int 1])) (Some (mkTensor [1; 1] [0]))) /\
  NnDistance2GradOp_Compute (F32.of_int 9) ex_origin ex_unit
    ex_grad_one ex_idx_first ex_grad_zero ex_idx_first =
    Some (mkGrad OK
            (Some (mkTensor [1; 1; 6]
                     (F32.of_int (-2) :: replicate 5 F32.zero)))
            (Some (mkTensor [1; 1; 6]
                     (F32.of_int 2 :: replicate 5 F32.zero)))).
Proof. split; reflexivity. Qed.

(** * Further properties *)

(** ** Loops that fill a grid *)

Lemma for_from_pure {S : Type} (body : Z -> S -> option S) (f : Z -> S -> S)
    (fuel : nat) (k : Z) (s : S) :
  (forall k' s', k <= k' < k + Z.of_nat fuel -> body k' s' = Some (f k' s')) ->
  for_from fuel k body s = Some (iter_from fuel k f s).
Proof.
  revert k s. induction fuel as [|fuel IH]; intros k s Hstep; [done|].
  cbn. rewrite Hstep by lia. apply IH. intros k' s' Hk'. apply Hstep. lia.
Qed.

Lemma iter_from_ext {S : Type} (f g : Z -> S -> S) (fuel : nat) (k : Z) (s : S) :
  (forall k' s', k <= k' < k + Z.of_nat fuel -> f k' s' = g k' s') ->
  iter_from fuel k f s = iter_from fuel k g s.
Proof.
  revert k s. induction fuel as [|fuel IH]; intros k s Hext; [done|].
  cbn. rewrite Hext by lia. apply IH. intros k' s' Hk'. apply Hext. lia.
Qed.

Lemma grid_cover (b n p : Z) :
  0 <= n -> 0 <= p < b * n ->
  exists i j, 0 <= i < b /\ 0 <= j < n /\ p = i * n + j.
Proof.
  intros Hn Hp.
  assert (0 < n) as Hpos.
  { destruct (decide (n = 0)) as [->|]; [rewrite Z.mul_0_r in Hp|]; lia. }
  exists (p / n), (p mod n).
  pose proof (Z.mod_pos_bound p n ltac:(lia)).
  pose proof (Z.div_mod p n ltac:(lia)).
  split_and!; [apply Z.div_pos; lia | | lia | lia | lia].
  apply Z.div_lt_upper_bound; lia.
Qed.

Lemma grid_list_eq {A} (l l' : list A) (b n : Z) (v : Z -> Z -> A) :
  0 <= n ->
  Z.of_nat (length l) = b * n -> Z.of_nat (length l') = b * n ->
  (forall i j, 0 <= i < b -> 0 <= j < n -> rd l (i * n + j) = Some (v i j)) ->
  (forall i j, 0 <= i < b -> 0 <= j < n -> rd l' (i * n + j) = Some (v i j)) ->
  l = l'.
Proof.
  intros Hn Hl Hl' Hc Hc'. apply list_eq. intros p.
  destruct (decide (Z.of_nat p < b * n)) as [Hp|Hp].
  - destruct (grid_cover b n (Z.of_nat p)) as (i & j & Hi & Hj & Heq); [lia..|].
    specialize (Hc i j Hi Hj). specialize (Hc' i j Hi Hj).
    rewrite <- Heq in Hc, Hc'. rewrite rd_lookup, Nat2Z.id in Hc, Hc' by lia.
    congruence.
  - rewrite !(proj2 (lookup_ge_None _ _)) by lia. done.
Qed.

Lemma grid_Forall {A} (P : A -> Prop) (l : list A) (b n : Z) :
  0 <= n -> Z.of_nat (length l) = b * n ->
  (forall i j, 0 <= i < b -> 0 <= j < n ->
     exists v, rd l (i * n + j) = Some v /\ P v) ->
  Forall P l.
Proof.
  intros Hn Hl Hc. apply Forall_lookup. intros p x Hx.
  pose proof (lookup_lt_Some _ _ _ Hx) as Hp.
  destruct (grid_cover b n (Z.of_nat p)) as (i & j & Hi & Hj & Heq); [lia..|].
  destruct (Hc i j Hi Hj) as (v & Hv & HP).
  rewrite <- Heq, rd_lookup, Nat2Z.id in Hv by lia. congruence.
Qed.

(** ** [nnsearch] in closed form *)

Section SearchExact.
Variables (b n m : Z) (xyz1 xyz2 : list float).
Hypothesis Hb : 0 <= b.
Hypothesis Hn : 0 <= n.
Hypothesis Hm : 0 <= m.
Hypothesis Hsz1 : b * n * 6 <= Int.max_signed.
Hypothesis Hsz2 : b * m * 6 <= Int.max_signed.
Hypothesis Hlen1 : Z.of_nat (length xyz1) = b * n * 6.
Hypothesis Hlen2 : Z.of_nat (length xyz2) = b * m * 6.

Lemma scan_exact (i j : Z) :
  0 <= i < b -> 0 <= j < n ->
  for_loop m (nnsearch_step i m xyz2
    (at3 xyz1 n i j 0) (at3 xyz1 n i j 1) (at3 xyz1 n i j 2)
    (at3 xyz1 n i j 3) (at3 xyz1 n i j 4) (at3 xyz1 n i j 5))
    (F64.zero, 0) = Some (nearest n m xyz1 xyz2 i j).
Proof.
  intros Hi Hj. unfold for_loop, nearest. apply for_from_pure.
  intros k st Hk. apply (nnsearch_step_pick b); [done..|lia].
Qed.


Lemma nnsearch_point_exact (i j : Z) (dist : list float) (idx : list Z) :
  0 <= i < b -> 0 <= j < n ->
  Z.of_nat (length dist) = b * n -> Z.of_nat (length idx) = b * n ->
  nnsearch_point n m xyz1 xyz2 i j (dist, idx) =
    Some (<[Z.to_nat (i * n + j) :=
              F32.of_double (nearest n m xyz1 xyz2 i j).1]> dist,
          <[Z.to_nat (i * n + j) := (nearest n m xyz1 xyz2 i j).2]> idx).
Proof.
  intros Hi Hj Hld Hli. unfold nnsearch_point.
  rewrite !(rd_at3 xyz1 b) by (done || lia). cbn [mbind option_bind].
  rewrite scan_exact by done. cbn [mbind option_bind].
  destruct (nearest n m xyz1 xyz2 i j) as [best besti]. cbn [fst snd].
  pose proof (row_bound b n i j Hi Hj) as Hrow.
  assert (b * n <= Int.max_signed) as Hsz by (unfold Int.max_signed in *; lia).
  rewrite (flat2_exact b) by done.
  rewrite (wr_Some dist) by lia. cbn [mbind option_bind].
  rewrite (wr_Some idx) by lia. done.
Qed.

(** [nnsearch] returns, and cell [(i,j)] of its outputs holds the
    incumbent of the scan from point [j] of batch [i]. *)
Lemma nnsearch_exact (dist : list float) (idx : list Z) :
  Z.of_nat (length dist) = b * n -> Z.of_nat (length idx) = b * n ->
  exists dist' idx',
    nnsearch b n m xyz1 xyz2 dist idx = Some (dist', idx') /\
    Z.of_nat (length dist') = b * n /\ Z.of_nat (length idx') = b * n /\
    forall i j, 0 <= i < b -> 0 <= j < n ->
      rd dist' (i * n + j) = Some (F32.of_double (nearest n m xyz1 xyz2 i j).1) /\
      rd idx' (i * n + j) = Some (nearest n m xyz1 xyz2 i j).2.
Proof.
  intros Hld Hli. unfold nnsearch.
  set (done_cell := fun (out : list float * list Z) (i j : Z) =>
    rd out.1 (i * n + j) = Some (F32.of_double (nearest n m xyz1 xyz2 i j).1) /\
    rd out.2 (i * n + j) = Some (nearest n m xyz1 xyz2 i j).2).
  set (sized := fun out : list float * list Z =>
    Z.of_nat (length out.1) = b * n /\ Z.of_nat (length out.2) = b * n).
  destruct (for_loop_inv
    (fun I out => sized out /\
       forall i j, 0 <= i < I -> 0 <= j < n -> done_cell out i j)
    (fun i => for_loop n (nnsearch_point n m xyz1 xyz2 i)) b (dist, idx))
    as ([dist' idx'] & Hrun & [Hl1 Hl2] & Hcells); [done| | |].
  - split; [done|]. intros; lia.
  - intros I out HI [Hsized Hdone].
    destruct (for_loop_inv
      (fun J out' => sized out' /\
         (forall i j, 0 <= i < I -> 0 <= j < n -> done_cell out' i j) /\
         (forall j, 0 <= j < J -> done_cell out' I j))
      (nnsearch_point n m xyz1 xyz2 I) n out)
      as (out' & Hrun & Hsized' & Hold & Hrow); [done| | |].
    + split_and!; [done..|]. intros; lia.
    + intros J [d0 i0] HJ ([Hl1 Hl2] & Hold & Hrow). cbn [fst snd] in *.
      rewrite nnsearch_point_exact by done.
      pose proof (row_bound b n I J HI HJ) as HIJ.
      eexists. split; [done|]. unfold sized, done_cell. cbn [fst snd].
      rewrite !length_insert.
      assert (forall i j, 0 <= i < b -> 0 <= j < n -> (i, j) <> (I, J) ->
                Z.to_nat (I * n + J) <> Z.to_nat (i * n + j)) as Hne.
      { intros i j Hi Hj Hneq.
        pose proof (row_bound b n i j Hi Hj).
        assert (I * n + J <> i * n + j); [|lia].
        intros Heq. apply Hneq. assert (i = I) by nia. subst i.
        f_equal. lia. }
      split_and!; [done..| |].
      * intros i j Hi Hj. destruct (Hold i j Hi Hj) as [Hd Hx].
        pose proof (row_bound b n i j ltac:(lia) Hj).
        rewrite !rd_lookup in * by lia.
        rewrite !list_lookup_insert_ne by (apply Hne; [lia|done|intros [= ]; lia]).
        done.
      * intros j Hj. pose proof (row_bound b n I j HI ltac:(lia)).
        destruct (decide (j = J)) as [->|Hneq].
        -- rewrite !rd_lookup by lia.
           rewrite !list_lookup_insert_eq by lia. done.
        -- destruct (Hrow j ltac:(lia)) as [Hd Hx].
           rewrite !rd_lookup in * by lia.
           rewrite !list_lookup_insert_ne by (apply Hne; [lia|lia|intros [= ]; lia]).
           done.
    + exists out'. split; [done|]. split; [done|].
      intros i j Hi Hj. destruct (decide (i = I)) as [->|Hneq].
      * by apply Hrow.
      * apply Hold; lia.
  - exists dist', idx'. cbn [fst snd] in *. done.
Qed.

(** The outputs of [nnsearch] do not depend on what its output buffers
    held. *)
Lemma nnsearch_overwrites (dist dist0 : list float) (idx idx0 : list Z) :
  Z.of_nat (length dist) = b * n -> Z.of_nat (length idx) = b * n ->
  Z.of_nat (length dist0) = b * n -> Z.of_nat (length idx0) = b * n ->
  nnsearch b n m xyz1 xyz2 dist idx = nnsearch b n m xyz1 xyz2 dist0 idx0.
Proof.
  intros Hd Hi Hd0 Hi0.
  destruct (nnsearch_exact dist idx Hd Hi) as (d1 & i1 & -> & Hl1 & Hl1' & Hc1).
  destruct (nnsearch_exact dist0 idx0 Hd0 Hi0) as (d2 & i2 & -> & Hl2 & Hl2' & Hc2).
  f_equal. f_equal.
  - eapply (grid_list_eq _ _ b n); [done..| |]; intros i j Hi' Hj'.
    + by apply Hc1.
    + by apply Hc2.
  - eapply (grid_list_eq _ _ b n); [done..| |]; intros i j Hi' Hj'.
    + by apply Hc1.
    + by apply Hc2.
Qed.

End SearchExact.

(** ** The forward outputs in closed form *)

Lemma Compute_exact (junk_f : float) (junk_i : Z)
    (xyz1_tensor xyz2_tensor : Tensor float) (b n m : Z) :
  point_set xyz1_tensor b n -> point_set xyz2_tensor b m ->
  exists dist1 idx1 dist2 idx2,
    NnDistance2Op_Compute junk_f junk_i xyz1_tensor xyz2_tensor =
      Some (mkFwd OK
              (Some (mkTensor [b; n] dist1)) (Some (mkTensor [b; n] idx1))
              (Some (mkTensor [b; m] dist2)) (Some (mkTensor [b; m] idx2))) /\
    (Z.of_nat (length dist1) = b * n /\ Z.of_nat (length idx1) = b * n /\
     Z.of_nat (length dist2) = b * m /\ Z.of_nat (length idx2) = b * m) /\
    (forall i j, 0 <= i < b -> 0 <= j < n ->
       let st := nearest n m (flat xyz1_tensor) (flat xyz2_tensor) i j in
       rd dist1 (i * n + j) = Some (F32.of_double st.1) /\
       rd idx1 (i * n + j) = Some st.2) /\
    (forall i j, 0 <= i < b -> 0 <= j < m ->
       let st := nearest m n (flat xyz2_tensor) (flat xyz1_tensor) i j in
       rd dist2 (i * m + j) = Some (F32.of_double st.1) /\
       rd idx2 (i * m + j) = Some st.2).
Proof.
  intros H1 H2. rewrite (Compute_accepted _ _ _ _ b n m) by done.
  destruct H1 as [_ Hf1 Hb Hn Hz1], H2 as [_ Hf2 _ Hm Hz2].
  destruct (nnsearch_exact b n m (flat xyz1_tensor) (flat xyz2_tensor)
              ltac:(lia) ltac:(lia) Hz1 Hz2 Hf1 Hf2
              (flat (fresh [b; n] junk_f)) (flat (fresh [b; n] junk_i)))
    as (dist1 & idx1 & -> & Hd1 & Hi1 & Hc1);
    [by apply fresh_length; lia..|].
  destruct (nnsearch_exact b m n (flat xyz2_tensor) (flat xyz1_tensor)
              ltac:(lia) ltac:(lia) Hz2 Hz1 Hf2 Hf1
              (flat (fresh [b; m] junk_f)) (flat (fresh [b; m] junk_i)))
    as (dist2 & idx2 & -> & Hd2 & Hi2 & Hc2);
    [by apply fresh_length; lia..|].
  exists dist1, idx1, dist2, idx2. cbn [mbind option_bind]. done.
Qed.

(** ** The tie-break of the scan *)








(** ** Exchanged point sets *)

(** Claim C5.  On accepted inputs the forward call returns, and the call
    on the exchanged point sets returns the same outputs with the pairs
    [(dist1,idx1)] and [(dist2,idx2)] exchanged, whatever the fresh output
    buffers of either call held. *)
Theorem forward_swap (junk_f junk_f' : float) (junk_i junk_i' : Z)
    (xyz1_tensor xyz2_tensor : Tensor float) (b n m : Z) :
  point_set xyz1_tensor b n -> point_set xyz2_tensor b m ->
  NnDistance2Op_Compute junk_f' junk_i' xyz2_tensor xyz1_tensor =
    swap_outputs <$>
      NnDistance2Op_Compute junk_f junk_i xyz1_tensor xyz2_tensor /\
  is_Some (NnDistance2Op_Compute junk_f junk_i xyz1_tensor xyz2_tensor).
Proof.
  intros H1 H2. split.
  - rewrite (Compute_accepted junk_f' junk_i' _ _ b m n) by done.
    rewrite (Compute_accepted junk_f junk_i _ _ b n m) by done.
    destruct H1 as [_ Hf1 Hb Hn Hz1], H2 as [_ Hf2 _ Hm Hz2].
    rewrite (nnsearch_overwrites b m n (flat xyz2_tensor) (flat xyz1_tensor)
               ltac:(lia) ltac:(lia) Hz2 Hz1 Hf2 Hf1
               (flat (fresh [b; m] junk_f')) (flat (fresh [b; m] junk_f))
               (flat (fresh [b; m] junk_i')) (flat (fresh [b; m] junk_i)))
      by (apply fresh_length; lia).
    rewrite (nnsearch_overwrites b n m (flat xyz1_tensor) (flat xyz2_tensor)
               ltac:(lia) ltac:(lia) Hz1 Hz2 Hf1 Hf2
               (flat (fresh [b; n] junk_f')) (flat (fresh [b; n] junk_f))
               (flat (fresh [b; n] junk_i')) (flat (fresh [b; n] junk_i)))
      by (apply fresh_length; lia).
    destruct (nnsearch b n m _ _ _ _) as [[d1 i1]|];
      destruct (nnsearch b m n _ _ _ _) as [[d2 i2]|]; done.
  - destruct (Compute_exact junk_f junk_i _ _ b n m H1 H2)
      as (? & ? & ? & ? & -> & _). done.
Qed.

Lemma forward_swap_witness :
  NnDistance2Op_Compute (F32.of_int 5) 7 ex_pair ex_origin =
    swap_outputs <$> NnDistance2Op_Compute S754_nan (-1) ex_origin ex_pair.
Proof.
  apply (forward_swap S754_nan (F32.of_int 5) (-1) 7 ex_origin ex_pair 1 1 2);
    point_set_tac.
Defined.

(** The forward call does not let the content of the fresh output buffers
    through: on accepted inputs its result is the same whatever they
    held. *)
Theorem forward_ignores_fresh_memory (junk_f junk_f' : float)
    (junk_i junk_i' : Z) (xyz1_tensor xyz2_tensor : Tensor float) (b n m : Z) :
  point_set xyz1_tensor b n -> point_set xyz2_tensor b m ->
  NnDistance2Op_Compute junk_f junk_i xyz1_tensor xyz2_tensor =
    NnDistance2Op_Compute junk_f' junk_i' xyz1_tensor xyz2_tensor /\
  is_Some (NnDistance2Op_Compute junk_f junk_i xyz1_tensor xyz2_tensor).
Proof.
  intros H1 H2. split.
  - rewrite !(Compute_accepted _ _ _ _ b n m) by done.
    destruct H1 as [_ Hf1 Hb Hn Hz1], H2 as [_ Hf2 _ Hm Hz2].
    rewrite (nnsearch_overwrites b n m (flat xyz1_tensor) (flat xyz2_tensor)
               ltac:(lia) ltac:(lia) Hz1 Hz2 Hf1 Hf2
               _ (flat (fresh [b; n] junk_f')) _ (flat (fresh [b; n] junk_i')))
      by (apply fresh_length; lia).
    rewrite (nnsearch_overwrites b m n (flat xyz2_tensor) (flat xyz1_tensor)
               ltac:(lia) ltac:(lia) Hz2 Hz1 Hf2 Hf1
               _ (flat (fresh [b; m] junk_f')) _ (flat (fresh [b; m] junk_i')))
      by (apply fresh_length; lia).
    done.
  - destruct (Compute_exact junk_f junk_i _ _ b n m H1 H2)
      as (? & ? & ? & ? & -> & _). done.
Qed.

Lemma forward_ignores_fresh_memory_witness :
  NnDistance2Op_Compute (F32.of_int 5) 7 ex_origin ex_pair =
    NnDistance2Op_Compute S754_nan (-1) ex_origin ex_pair.
Proof.
  apply (forward_ignores_fresh_memory (F32.of_int 5) S754_nan 7 (-1)
           ex_origin ex_pair 1 1 2); point_set_tac.
Defined.

Lemma cand_dist_same_batch (n m : Z) (xyz1 xyz2 xyz1' xyz2' : list float)
    (i j k : Z) :
  same_batch n m xyz1 xyz2 xyz1' xyz2' i -> 0 <= j < n -> 0 <= k < m ->
  cand_dist n m xyz1 xyz2 i j k = cand_dist n m xyz1' xyz2' i j k.
Proof.
  intros [HA HB] Hj Hk. unfold cand_dist, sq_dist.
  rewrite !(HA j) by lia. rewrite !(HB k) by lia. done.
Qed.

Lemma nearest_same_batch (n m : Z) (xyz1 xyz2 xyz1' xyz2' : list float)
    (i j : Z) :
  same_batch n m xyz1 xyz2 xyz1' xyz2' i -> 0 <= j < n ->
  nearest n m xyz1 xyz2 i j = nearest n m xyz1' xyz2' i j.
Proof.
  intros Hsame Hj. unfold nearest. apply iter_from_ext.
  intros k st Hk. unfold pick.
  rewrite (cand_dist_same_batch n m xyz1 xyz2 xyz1' xyz2') by (done || lia).
  done.
Qed.

(** Batches do not interact in the forward call: two accepted pairs of
    point sets with the same coordinates in batch [i] get the same
    distances and indices for batch [i], whatever the other batches
    hold. *)
Theorem forward_batch_local (junk_f : float) (junk_i : Z)
    (xyz1_tensor xyz2_tensor xyz1_tensor' xyz2_tensor' : Tensor float)
    (b n m i : Z) :
  point_set xyz1_tensor b n -> point_set xyz2_tensor b m ->
  point_set xyz1_tensor' b n -> point_set xyz2_tensor' b m ->
  0 <= i < b ->
  same_batch n m (flat xyz1_tensor) (flat xyz2_tensor)
    (flat xyz1_tensor') (flat xyz2_tensor') i ->
  exists dist1 idx1 dist2 idx2 dist1' idx1' dist2' idx2',
    NnDistance2Op_Compute junk_f junk_i xyz1_tensor xyz2_tensor =
      Some (mkFwd OK
              (Some (mkTensor [b; n] dist1)) (Some (mkTensor [b; n] idx1))
              (Some (mkTensor [b; m] dist2)) (Some (mkTensor [b; m] idx2))) /\
    NnDistance2Op_Compute junk_f junk_i xyz1_tensor' xyz2_tensor' =
      Some (mkFwd OK
              (Some (mkTensor [b; n] dist1')) (Some (mkTensor [b; n] idx1'))
              (Some (mkTensor [b; m] dist2')) (Some (mkTensor [b; m] idx2'))) /\
    (forall j, 0 <= j < n ->
       rd dist1 (i * n + j) = rd dist1' (i * n + j) /\
       rd idx1 (i * n + j) = rd idx1' (i * n + j)) /\
    (forall k, 0 <= k < m ->
       rd dist2 (i * m + k) = rd dist2' (i * m + k) /\
       rd idx2 (i * m + k) = rd idx2' (i * m + k)).
Proof.
  intros H1 H2 H1' H2' Hi Hsame.
  destruct (Compute_exact junk_f junk_i _ _ b n m H1 H2)
    as (d1 & i1 & d2 & i2 & Hrun & _ & Hc1 & Hc2).
  destruct (Compute_exact junk_f junk_i _ _ b n m H1' H2')
    as (d1' & i1' & d2' & i2' & Hrun' & _ & Hc1' & Hc2').
  exists d1, i1, d2, i2, d1', i1', d2', i2'.
  split; [done|]. split; [done|]. split.
  - intros j Hj. destruct (Hc1 i j Hi Hj) as [-> ->].
    destruct (Hc1' i j Hi Hj) as [-> ->].
    by rewrite (nearest_same_batch n m _ _ (flat xyz1_tensor') (flat xyz2_tensor')).
  - intros k Hk. destruct (Hc2 i k Hi Hk) as [-> ->].
    destruct (Hc2' i k Hi Hk) as [-> ->].
    rewrite (nearest_same_batch m n _ _ (flat xyz2_tensor') (flat xyz1_tensor'));
      [done| |done].
    destruct Hsame as [HA HB]. by split.
Qed.

Ltac six_cases c :=
  let H := fresh in
  assert (c = 0 \/ c = 1 \/ c = 2 \/ c = 3 \/ c = 4 \/ c = 5)
    as [H|[H|[H|[H|[H|H]]]]] by lia; rewrite H.

Lemma same_batch_two :
  same_batch 1 2 (flat ex_two_left) (flat ex_two_right)
    (flat ex_two_left') (flat ex_two_right') 0.
Proof.
  split.
  - intros j c Hj Hc. assert (j = 0) as -> by lia. six_cases c; reflexivity.
  - intros k c Hk Hc. assert (k = 0 \/ k = 1) as [-> | ->] by lia;
      six_cases c; reflexivity.
Qed.

Lemma forward_batch_local_witness :
  exists dist1 idx1 dist2 idx2 dist1' idx1' dist2' idx2',
    NnDistance2Op_Compute F32.zero 0 ex_two_left ex_two_right =
      Some (mkFwd OK
              (Some (mkTensor [2; 1] dist1)) (Some (mkTensor [2; 1] idx1))
              (Some (mkTensor [2; 2] dist2)) (Some (mkTensor [2; 2] idx2))) /\
    NnDistance2Op_Compute F32.zero 0 ex_two_left' ex_two_right' =
      Some (mkFwd OK
              (Some (mkTensor [2; 1] dist1')) (Some (mkTensor [2; 1] idx1'))
              (Some (mkTensor [2; 2] dist2')) (Some (mkTensor [2; 2] idx2'))) /\
    rd dist1 0 = rd dist1' 0 /\ rd idx1 0 = rd idx1' 0 /\
    rd dist2 1 = rd dist2' 1 /\ rd idx2 1 = rd idx2' 1.
Proof.
  destruct (forward_batch_local F32.zero 0 ex_two_left ex_two_right
              ex_two_left' ex_two_right' 2 1 2 0)
    as (d1 & i1 & d2 & i2 & d1' & i1' & d2' & i2' & Hrun & Hrun' & Hc1 & Hc2);
    [point_set_tac | point_set_tac | point_set_tac | point_set_tac | lia
    | exact same_batch_two |].
  exists d1, i1, d2, i2, d1', i1', d2', i2'.
  split; [exact Hrun|]. split; [exact Hrun'|].
  destruct (Hc1 0 ltac:(lia)) as [Ha Hb].
  destruct (Hc2 1 ltac:(lia)) as [Hc Hd].
  split; [exact Ha|]. split; [exact Hb|]. split; [exact Hc | exact Hd].
Defined.

(** ** Signs *)

Lemma binary_round_aux_sign (prec emax : Z) (s : bool) (m e : Z)
    (l : location) :
  match binary_round_aux prec emax s m e l with
  | S754_nan => True
  | S754_zero s' | S754_infinity s' | S754_finite s' _ _ => s' = s
  end.
Proof.
  unfold binary_round_aux.
  destruct (shr_fexp prec emax m e l) as [mrs' e'].
  destruct (shr_fexp prec emax _ e' loc_Exact) as [mrs'' e''].
  destruct (shr_m mrs''); [done| |done].
  by destruct (_ <=? _).
Qed.

Lemma binary_round_sign (prec emax : Z) (s : bool) (m : positive) (e : Z) :
  match binary_round prec emax s m e with
  | S754_nan => True
  | S754_zero s' | S754_infinity s' | S754_finite s' _ _ => s' = s
  end.
Proof.
  unfold binary_round. destruct (shl_align _ _ _) as [mz ez].
  apply binary_round_aux_sign.
Qed.

Lemma binary_round_not_negative (prec emax : Z) (m : positive) (e : Z) :
  not_negative (binary_round prec emax false m e) = true.
Proof.
  pose proof (binary_round_sign prec emax false m e) as H.
  by destruct (binary_round _ _ _ _ _) as [?|?| |? ? ?]; cbn; subst.
Qed.

Lemma mul_self_not_negative (x : float) : not_negative (F32.mul x x) = true.
Proof.
  destruct x as [[]|[]| |s m e]; try done.
  unfold F32.mul, SFmul.
  pose proof (binary_round_aux_sign F32.prec F32.emax (xorb s s)
                (Z.pos (m * m)) (e + e) loc_Exact) as H.
  destruct (binary_round_aux _ _ _ _ _ _) as [?|?| |? ? ?]; cbn; subst;
    by destruct s.
Qed.

Lemma add_not_negative (x y : float) :
  not_negative x = true -> not_negative y = true ->
  not_negative (F32.add x y) = true.
Proof.
  destruct x as [[]|[]| |[] mx ex], y as [[]|[]| |[] my ey]; try done.
  intros _ _. unfold F32.add, SFadd, cond_Zopp, binary_normalize.
  cbn [Z.add]. apply binary_round_not_negative.
Qed.

Lemma of_float_not_negative (x : float) :
  not_negative x = true -> not_negative (F64.of_float x) = true.
Proof.
  destruct x as [[]|[]| |[] m e]; try done. intros _.
  apply binary_round_not_negative.
Qed.

Lemma of_double_not_negative (x : double) :
  not_negative x = true -> not_negative (F32.of_double x) = true.
Proof.
  destruct x as [[]|[]| |[] m e]; try done. intros _.
  apply binary_round_not_negative.
Qed.

Lemma sq_dist_not_negative (p q : Z -> float) :
  not_negative (sq_dist p q) = true.
Proof.
  unfold sq_dist. apply of_float_not_negative.
  repeat apply add_not_negative; apply mul_self_not_negative.
Qed.

Lemma scan_post_not_negative (d : Z -> double) (m : Z) (st : double * Z) :
  (forall k, not_negative (d k) = true) -> scan_post d m st ->
  not_negative st.1 = true.
Proof.
  intros Hd. unfold scan_post. destruct (decide (m <= 0)).
  - by intros ->.
  - intros (_ & -> & _). apply Hd.
Qed.

(** The forward call never returns a negative distance: every element of
    [dist1] and of [dist2] is NaN or has its sign bit clear. *)
Theorem forward_distance_not_negative (junk_f : float) (junk_i : Z)
    (xyz1_tensor xyz2_tensor : Tensor float) (b n m : Z) :
  point_set xyz1_tensor b n -> point_set xyz2_tensor b m ->
  exists dist1 idx1 dist2 idx2,
    NnDistance2Op_Compute junk_f junk_i xyz1_tensor xyz2_tensor =
      Some (mkFwd OK
              (Some (mkTensor [b; n] dist1)) (Some (mkTensor [b; n] idx1))
              (Some (mkTensor [b; m] dist2)) (Some (mkTensor [b; m] idx2))) /\
    Forall (fun v => not_negative v = true) dist1 /\
    Forall (fun v => not_negative v = true) dist2.
Proof.
  intros H1 H2.
  destruct (Compute_ok junk_f junk_i _ _ b n m H1 H2)
    as (dist1 & idx1 & dist2 & idx2 & Hrun & (Hd1 & _ & Hd2 & _) & Hc1 & Hc2).
  destruct H1 as [_ _ _ Hn _], H2 as [_ _ _ Hm _].
  exists dist1, idx1, dist2, idx2. split; [done|]. split.
  - apply (grid_Forall _ _ b n); [lia|done|]. intros i j Hi Hj.
    destruct (Hc1 i j Hi Hj) as (st & Hpost & Hd & _).
    eexists. split; [done|]. apply of_double_not_negative.
    eapply scan_post_not_negative, Hpost.
    intros k. apply sq_dist_not_negative.
  - apply (grid_Forall _ _ b m); [lia|done|]. intros i j Hi Hj.
    destruct (Hc2 i j Hi Hj) as (st & Hpost & Hd & _).
    eexists. split; [done|]. apply of_double_not_negative.
    eapply scan_post_not_negative, Hpost.
    intros k. apply sq_dist_not_negative.
Qed.

Lemma forward_distance_not_negative_witness :
  exists dist1 idx1 dist2 idx2,
    NnDistance2Op_Compute F32.zero 0 ex_origin ex_nan =
      Some (mkFwd OK
              (Some (mkTensor [1; 1] dist1)) (Some (mkTensor [1; 1] idx1))
              (Some (mkTensor [1; 2] dist2)) (Some (mkTensor [1; 2] idx2))) /\
    Forall (fun v => not_negative v = true) dist1 /\
    Forall (fun v => not_negative v = true) dist2.
Proof.
  apply (forward_distance_not_negative F32.zero 0 ex_origin ex_nan 1 1 2);
    point_set_tac.
Defined.

(** ** A point that lies on a candidate *)

Lemma sub_self_zero (x : float) :
  is_finite x = true -> F32.sub x x = S754_zero false.
Proof.
  destruct x as [[]|[]| |s m e]; try done. intros _.
  unfold F32.sub, SFsub. by rewrite Z.sub_diag.
Qed.

Lemma least_of_zero (x : double) :
  not_negative x = true -> is_nan x = false ->
  F64.leb x F64.zero = true -> x = S754_zero false.
Proof. destruct x as [[]|[]| |[] m e]; done. Qed.

(** When the coordinates of point [j] of batch [i] of [xyz1] are finite
    and equal to those of a candidate [k], and no candidate distance is
    NaN, [dist1[i,j]] is [+0] and [idx1[i,j]] names a candidate at computed
    distance [+0]. *)
Theorem forward_coincident_point (junk_f : float) (junk_i : Z)
    (xyz1_tensor xyz2_tensor : Tensor float) (b n m i j k : Z) :
  point_set xyz1_tensor b n -> point_set xyz2_tensor b m ->
  0 <= i < b -> 0 <= j < n -> 0 <= k < m ->
  (forall c, 0 <= c < 6 ->
     at3 (flat xyz2_tensor) m i k c = at3 (flat xyz1_tensor) n i j c /\
     is_finite (at3 (flat xyz1_tensor) n i j c) = true) ->
  nan_free (cand_dist n m (flat xyz1_tensor) (flat xyz2_tensor) i j) m ->
  exists dist1 idx1 dist2 idx2 k',
    NnDistance2Op_Compute junk_f junk_i xyz1_tensor xyz2_tensor =
      Some (mkFwd OK
              (Some (mkTensor [b; n] dist1)) (Some (mkTensor [b; n] idx1))
              (Some (mkTensor [b; m] dist2)) (Some (mkTensor [b; m] idx2))) /\
    rd dist1 (i * n + j) = Some F32.zero /\
    rd idx1 (i * n + j) = Some k' /\ 0 <= k' < m /\
    cand_dist n m (flat xyz1_tensor) (flat xyz2_tensor) i j k' = F64.zero.
Proof.
  intros H1 H2 Hi Hj Hk Hsame Hnan.
  destruct (Compute_ok junk_f junk_i _ _ b n m H1 H2)
    as (dist1 & idx1 & dist2 & idx2 & Hrun & _ & Hc1 & _).
  destruct (Hc1 i j Hi Hj) as (st & Hpost & Hd & Hx).
  assert (1 <= m) as Hm by lia.
  destruct (scan_post_argmin _ _ _ Hm Hnan Hpost) as [[Hrange Hmin] Hbest].
  assert (cand_dist n m (flat xyz1_tensor) (flat xyz2_tensor) i j k = F64.zero)
    as Hzero.
  { assert (forall c, 0 <= c < 6 ->
              at3 (flat xyz2_tensor) m i k c = at3 (flat xyz1_tensor) n i j c)
      as Heq by (intros; by apply Hsame).
    unfold cand_dist, sq_dist. rewrite !Heq by lia.
    rewrite !sub_self_zero by (apply Hsame; lia). reflexivity. }
  assert (cand_dist n m (flat xyz1_tensor) (flat xyz2_tensor) i j st.2
            = S754_zero false) as Hst.
  { apply least_of_zero.
    - apply sq_dist_not_negative.
    - by apply Hnan.
    - rewrite <- Hzero. by apply Hmin. }
  exists dist1, idx1, dist2, idx2, st.2. split; [done|].
  rewrite Hd, Hbest, Hst. done.
Qed.

Lemma forward_coincident_point_witness :
  exists dist1 idx1 dist2 idx2 k',
    NnDistance2Op_Compute F32.zero 7 ex_unit ex_pair =
      Some (mkFwd OK
              (Some (mkTensor [1; 1] dist1)) (Some (mkTensor [1; 1] idx1))
              (Some (mkTensor [1; 2] dist2)) (Some (mkTensor [1; 2] idx2))) /\
    rd dist1 0 = Some F32.zero /\ rd idx1 0 = Some k' /\ 0 <= k' < 2 /\
    cand_dist 1 2 (flat ex_unit) (flat ex_pair) 0 0 k' = F64.zero.
Proof.
  apply (forward_coincident_point F32.zero 7 ex_unit ex_pair 1 1 2 0 0 1).
  - point_set_tac.
  - point_set_tac.
  - lia.
  - lia.
  - lia.
  - intros c Hc. six_cases c; split; reflexivity.
  - intros k Hk. assert (k = 0 \/ k = 1) as [-> | ->] by lia; reflexivity.
Defined.

Lemma forward_no_candidate_witness :
  exists dist1 idx1,
    NnDistance2Op_Compute (F32.of_int 5) 7 ex_origin ex_empty =
      Some (mkFwd OK
              (Some (mkTensor [1; 1] dist1)) (Some (mkTensor [1; 1] idx1))
              (Some (mkTensor [1; 0] [])) (Some (mkTensor [1; 0] []))) /\
    rd dist1 0 = Some F32.zero /\ rd idx1 0 = Some 0.
Proof.
  destruct (forward_no_candidate (F32.of_int 5) 7 ex_origin ex_empty 1 1)
    as (dist1 & idx1 & Hrun & Hcells); [point_set_tac | point_set_tac |].
  exists dist1, idx1. split; [exact Hrun|].
  exact (Hcells 0 0 ltac:(lia) ltac:(lia)).
Defined.

(** ** From the forward call to the backward call *)

Lemma cells_in_range (idx : list Z) (b n m : Z) :
  0 <= n -> Z.of_nat (length idx) = b * n ->
  (forall i j, 0 <= i < b -> 0 <= j < n ->
     exists k, rd idx (i * n + j) = Some k /\ 0 <= k < m) ->
  in_range (mkTensor [b; n] idx) m.
Proof. intros Hn Hl Hc. unfold in_range. cbn. by apply (grid_Forall _ _ b n). Qed.

(** The indices of the forward call suit the backward call: when both
    sets hold at least one point per batch, the backward call on the
    same point sets and on [idx1], [idx2] as the forward call returned
    them ends with status OK, whatever the upstream gradients are. *)
Theorem forward_then_backward (junk_f : float) (junk_i : Z)
    (xyz1_tensor xyz2_tensor grad_dist1_tensor grad_dist2_tensor : Tensor float)
    (b n m : Z) :
  point_set xyz1_tensor b n -> point_set xyz2_tensor b m ->
  1 <= n -> 1 <= m ->
  shape grad_dist1_tensor = [b; n] ->
  Z.of_nat (length (flat grad_dist1_tensor)) = b * n ->
  shape grad_dist2_tensor = [b; m] ->
  Z.of_nat (length (flat grad_dist2_tensor)) = b * m ->
  exists dist1 idx1 dist2 idx2 grad_xyz1 grad_xyz2,
    NnDistance2Op_Compute junk_f junk_i xyz1_tensor xyz2_tensor =
      Some (mkFwd OK
              (Some (mkTensor [b; n] dist1)) (Some (mkTensor [b; n] idx1))
              (Some (mkTensor [b; m] dist2)) (Some (mkTensor [b; m] idx2))) /\
    NnDistance2GradOp_Compute junk_f xyz1_tensor xyz2_tensor
      grad_dist1_tensor (mkTensor [b; n] idx1)
      grad_dist2_tensor (mkTensor [b; m] idx2) =
      Some (mkGrad OK (Some (mkTensor [b; n; 6] grad_xyz1))
                      (Some (mkTensor [b; m; 6] grad_xyz2))).
Proof.
  intros H1 H2 Hn Hm Hs1 Hl1 Hs2 Hl2.
  destruct (Compute_ok junk_f junk_i _ _ b n m H1 H2)
    as (dist1 & idx1 & dist2 & idx2 & Hrun & (_ & Hi1 & _ & Hi2) & Hc1 & Hc2).
  assert (in_range (mkTensor [b; n] idx1) m) as R1.
  { apply cells_in_range; [lia|done|]. intros i j Hi Hj.
    destruct (Hc1 i j Hi Hj) as (st & Hpost & _ & Hk).
    unfold scan_post in Hpost. rewrite decide_False in Hpost by lia.
    exists st.2. split; [done | apply Hpost]. }
  assert (in_range (mkTensor [b; m] idx2) n) as R2.
  { apply cells_in_range; [lia|done|]. intros i j Hi Hj.
    destruct (Hc2 i j Hi Hj) as (st & Hpost & _ & Hk).
    unfold scan_post in Hpost. rewrite decide_False in Hpost by lia.
    exists st.2. split; [done | apply Hpost]. }
  destruct (GradCompute_ok junk_f xyz1_tensor xyz2_tensor grad_dist1_tensor
              (mkTensor [b; n] idx1) grad_dist2_tensor (mkTensor [b; m] idx2)
              b n m H1 H2) as (g1 & g2 & Hback & _); [by constructor..|done|done|].
  by exists dist1, idx1, dist2, idx2, g1, g2.
Qed.

Lemma forward_then_backward_witness :
  exists dist1 idx1 dist2 idx2 grad_xyz1 grad_xyz2,
    NnDistance2Op_Compute F32.zero 0 ex_left ex_right =
      Some (mkFwd OK
              (Some (mkTensor [1; 2] dist1)) (Some (mkTensor [1; 2] idx1))
              (Some (mkTensor [1; 2] dist2)) (Some (mkTensor [1; 2] idx2))) /\
    NnDistance2GradOp_Compute F32.zero ex_left ex_right
      ex_grad_ones (mkTensor [1; 2] idx1)
      ex_grad_zeros (mkTensor [1; 2] idx2) =
      Some (mkGrad OK (Some (mkTensor [1; 2; 6] grad_xyz1))
                      (Some (mkTensor [1; 2; 6] grad_xyz2))).
Proof.
  apply (forward_then_backward F32.zero 0 ex_left ex_right
           ex_grad_ones ex_grad_zeros 1 2 2);
    first [point_set_tac | lia | reflexivity].
Defined.

(** The indices of the forward call do not suit the backward call when
    the second set is empty: with at least one batch and one point in
    [xyz1] and no point in [xyz2], the forward call returns index 0 for
    every point, and the backward call on these indices reads outside of
    [xyz2] and faults. *)
Theorem forward_then_backward_empty (junk_f : float) (junk_i : Z)
    (xyz1_tensor xyz2_tensor grad_dist1_tensor grad_dist2_tensor : Tensor float)
    (b n : Z) :
  point_set xyz1_tensor b n -> point_set xyz2_tensor b 0 ->
  1 <= b -> 1 <= n ->
  shape grad_dist1_tensor = [b; n] ->
  Z.of_nat (length (flat grad_dist1_tensor)) = b * n ->
  shape grad_dist2_tensor = [b; 0] ->
  Z.of_nat (length (flat grad_dist2_tensor)) = b * 0 ->
  exists dist1 idx1 dist2 idx2,
    NnDistance2Op_Compute junk_f junk_i xyz1_tensor xyz2_tensor =
      Some (mkFwd OK
              (Some (mkTensor [b; n] dist1)) (Some (mkTensor [b; n] idx1))
              (Some (mkTensor [b; 0] dist2)) (Some (mkTensor [b; 0] idx2))) /\
    NnDistance2GradOp_Compute junk_f xyz1_tensor xyz2_tensor
      grad_dist1_tensor (mkTensor [b; n] idx1)
      grad_dist2_tensor (mkTensor [b; 0] idx2) = None.
Proof.
  intros H1 H2 Hb Hn Hs1 Hl1 Hs2 Hl2.
  destruct (Compute_ok junk_f junk_i _ _ b n 0 H1 H2)
    as (dist1 & idx1 & dist2 & idx2 & Hrun & (_ & Hi1 & _ & Hi2) & Hc1 & _).
  exists dist1, idx1, dist2, idx2. split; [done|].
  rewrite (GradCompute_accepted _ _ _ _ _ _ _ b n 0); [|done|done|by constructor..].
  destruct (Hc1 0 0 ltac:(lia) ltac:(lia)) as (st & Hpost & _ & Hk).
  unfold scan_post in Hpost. rewrite decide_True in Hpost by lia. subst st.
  cbn [snd flat] in *.
  destruct H1 as [_ Hf1 Hb' Hn' Hz1], H2 as [_ Hf2 _ _ Hz2].
  erewrite (grad_loops_fault1 b n 0 _ _ _ _ _ _ 0 0 0); [done|lia|lia| |].
  - rewrite (flat2_exact b) by (unfold Int.max_signed in *; lia).
    exact Hk.
  - apply (row_outside _ b); try lia.
Qed.

Lemma forward_then_backward_empty_witness :
  exists dist1 idx1 dist2 idx2,
    NnDistance2Op_Compute F32.zero 0 ex_origin ex_empty =
      Some (mkFwd OK
              (Some (mkTensor [1; 1] dist1)) (Some (mkTensor [1; 1] idx1))
              (Some (mkTensor [1; 0] dist2)) (Some (mkTensor [1; 0] idx2))) /\
    NnDistance2GradOp_Compute F32.zero ex_origin ex_empty
      ex_grad_one (mkTensor [1; 1] idx1)
      (mkTensor [1; 0] []) (mkTensor [1; 0] idx2) = None.
Proof.
  apply (forward_then_backward_empty F32.zero 0 ex_origin ex_empty
           ex_grad_one (mkTensor [1; 0] []) 1 1);
    first [point_set_tac | lia | reflexivity].
Defined.

(** ** The backward outputs *)

Lemma agrees_unique (g g' : list float) (b n : Z)
    (V : Z -> Z -> Z -> float) :
  0 <= n -> agrees g b n V -> agrees g' b n V -> g = g'.
Proof.
  intros Hn [Hl Hc] [Hl' Hc'].
  apply (grid_list_eq g g' (b * n) 6
           (fun r c => default F32.zero (rd g (r * 6 + c)))); [lia..| |].
  - intros r c Hr Hcc.
    destruct (rd_is_Some g (r * 6 + c)) as [v Hv]; [lia|]. by rewrite Hv.
  - intros r c Hr Hcc.
    destruct (grid_cover b n r Hn Hr) as (i & j & Hi & Hj & ->).
    rewrite Hc, Hc' by done. done.
Qed.

Lemma agrees_Forall (P : float -> Prop) (g : list float) (b n : Z)
    (V : Z -> Z -> Z -> float) :
  0 <= n -> agrees g b n V ->
  (forall i j c, 0 <= i < b -> 0 <= j < n -> 0 <= c < 6 -> P (V i j c)) ->
  Forall P g.
Proof.
  intros Hn [Hl Hc] HP. apply (grid_Forall P g (b * n) 6); [lia..|].
  intros r c Hr Hcc.
  destruct (grid_cover b n r Hn Hr) as (i & j & Hi & Hj & ->).
  exists (V i j c). split; [by apply Hc | by apply HP].
Qed.

Lemma zero_fill_overwrites (b n : Z) (g g' : list float) :
  0 <= b -> 0 <= n -> b * n * 6 <= Int.max_signed ->
  Z.of_nat (length g) = b * n * 6 -> Z.of_nat (length g') = b * n * 6 ->
  zero_fill (Int.mul (Int.mul b n) 6) g = zero_fill (Int.mul (Int.mul b n) 6) g'.
Proof.
  intros Hb Hn Hsz Hl Hl'.
  destruct (zero_fill_agrees b n g Hb Hn Hsz Hl) as (z & -> & Hz).
  destruct (zero_fill_agrees b n g' Hb Hn Hsz Hl') as (z' & -> & Hz').
  f_equal. by eapply agrees_unique.
Qed.

(** The backward call clears its outputs before it accumulates: on inputs
    of the right shapes its result, fault included, is the same whatever
    the fresh output buffers held, also when a match is out of range. *)
Theorem backward_ignores_fresh_memory (junk_f junk_f' : float)
    (xyz1_tensor xyz2_tensor grad_dist1_tensor : Tensor float)
    (idx1_tensor : Tensor Z) (grad_dist2_tensor : Tensor float)
    (idx2_tensor : Tensor Z) (b n m : Z) :
  point_set xyz1_tensor b n -> point_set xyz2_tensor b m ->
  side_input grad_dist1_tensor idx1_tensor b n m ->
  side_input grad_dist2_tensor idx2_tensor b m n ->
  NnDistance2GradOp_Compute junk_f xyz1_tensor xyz2_tensor
    grad_dist1_tensor idx1_tensor grad_dist2_tensor idx2_tensor =
  NnDistance2GradOp_Compute junk_f' xyz1_tensor xyz2_tensor
    grad_dist1_tensor idx1_tensor grad_dist2_tensor idx2_tensor.
Proof.
  intros H1 H2 S1 S2.
  rewrite !(GradCompute_accepted _ _ _ _ _ _ _ b n m) by done.
  destruct H1 as [_ _ Hb Hn Hz1], H2 as [_ _ _ Hm Hz2].
  unfold grad_loops.
  rewrite (zero_fill_overwrites b n _ (flat (fresh [b; n; 6] junk_f')))
    by (done || lia || apply fresh_length3; lia).
  rewrite (zero_fill_overwrites b m _ (flat (fresh [b; m; 6] junk_f')))
    by (done || lia || apply fresh_length3; lia).
  done.
Qed.

Lemma backward_ignores_fresh_memory_witness :
  NnDistance2GradOp_Compute (F32.of_int 9) ex_left ex_right
    ex_grad_ones ex_idx_straight ex_grad_zeros ex_idx_crossed =
  NnDistance2GradOp_Compute S754_nan ex_left ex_right
    ex_grad_ones ex_idx_straight ex_grad_zeros ex_idx_crossed.
Proof.
  apply (backward_ignores_fresh_memory (F32.of_int 9) S754_nan ex_left ex_right
           ex_grad_ones ex_idx_straight ex_grad_zeros ex_idx_crossed 1 2 2);
    first [point_set_tac | side_input_tac].
Defined.

Lemma take_from_none (match_of : Z -> Z) (t : Z -> float) (k : Z) (J : nat)
    (acc : float) :
  (forall j, 0 <= j < Z.of_nat J -> match_of j <> k) ->
  take_from match_of t k J acc = acc.
Proof.
  induction J as [|J IH]; intros Hno; [done|].
  cbn [take_from]. rewrite IH by (intros; apply Hno; lia).
  pose proof (Hno (Z.of_nat J) ltac:(lia)).
  by replace (match_of (Z.of_nat J) =? k) with false by lia.
Qed.

(** A point that the other pass matches with nothing receives its own term
    only: [gradXyz1[i,j,c]] is [0 + g*(x1-x2)] when no entry of [idx2] in
    batch [i] is [j], and [gradXyz2[i,k,c]] is [0 + g*(x1-x2)] when no
    entry of [idx1] in batch [i] is [k]. *)
Theorem backward_unmatched_point (junk_f : float)
    (xyz1_tensor xyz2_tensor grad_dist1_tensor : Tensor float)
    (idx1_tensor : Tensor Z) (grad_dist2_tensor : Tensor float)
    (idx2_tensor : Tensor Z) (b n m : Z) :
  point_set xyz1_tensor b n -> point_set xyz2_tensor b m ->
  side_input grad_dist1_tensor idx1_tensor b n m ->
  side_input grad_dist2_tensor idx2_tensor b m n ->
  in_range idx1_tensor m -> in_range idx2_tensor n ->
  exists grad_xyz1 grad_xyz2,
    NnDistance2GradOp_Compute junk_f xyz1_tensor xyz2_tensor
      grad_dist1_tensor idx1_tensor grad_dist2_tensor idx2_tensor =
      Some (mkGrad OK (Some (mkTensor [b; n; 6] grad_xyz1))
                      (Some (mkTensor [b; m; 6] grad_xyz2))) /\
    (forall i j c, 0 <= i < b -> 0 <= j < n -> 0 <= c < 6 ->
       (forall k, 0 <= k < m -> at2 0 (flat idx2_tensor) m i k <> j) ->
       rd grad_xyz1 ((i * n + j) * 6 + c) =
         Some (F32.add (F32.of_int 0)
                 (contrib n m (flat xyz1_tensor) (flat xyz2_tensor)
                    (flat grad_dist1_tensor) (flat idx1_tensor) i j c))) /\
    (forall i k c, 0 <= i < b -> 0 <= k < m -> 0 <= c < 6 ->
       (forall j, 0 <= j < n -> at2 0 (flat idx1_tensor) n i j <> k) ->
       rd grad_xyz2 ((i * m + k) * 6 + c) =
         Some (F32.add (F32.of_int 0)
                 (contrib m n (flat xyz2_tensor) (flat xyz1_tensor)
                    (flat grad_dist2_tensor) (flat idx2_tensor) i k c))).
Proof.
  intros H1 H2 S1 S2 R1 R2.
  destruct (GradCompute_ok junk_f _ _ _ _ _ _ b n m H1 H2 S1 S2 R1 R2)
    as (g1 & g2 & Hrun & [_ HA] & [_ HB]).
  exists g1, g2. split; [done|]. split.
  - intros i j c Hi Hj Hc Hno. rewrite HA by done. f_equal.
    unfold grad1_expected. apply take_from_none.
    intros k Hk. apply Hno. lia.
  - intros i k c Hi Hk Hc Hno. rewrite HB by done. f_equal.
    unfold grad2_expected. rewrite take_from_none; [done|].
    intros j Hj. apply Hno. lia.
Qed.

Lemma backward_unmatched_point_witness :
  exists grad_xyz1 grad_xyz2,
    NnDistance2GradOp_Compute (F32.of_int 9) ex_pair ex_unit
      (mkTensor [1; 2] [F32.of_int 1; F32.of_int 1]) (mkTensor [1; 2] [0; 0])
      ex_grad_one (mkTensor [1; 1] [1]) =
      Some (mkGrad OK (Some (mkTensor [1; 2; 6] grad_xyz1))
                      (Some (mkTensor [1; 1; 6] grad_xyz2))) /\
    rd grad_xyz1 0 = Some (F32.of_int 4).
Proof.
  destruct (backward_unmatched_point (F32.of_int 9) ex_pair ex_unit
              (mkTensor [1; 2] [F32.of_int 1; F32.of_int 1])
              (mkTensor [1; 2] [0; 0]) ex_grad_one (mkTensor [1; 1] [1]) 1 2 1)
    as (g1 & g2 & Hrun & Hg1 & _);
    [point_set_tac | point_set_tac | side_input_tac | side_input_tac
    | in_range_tac | in_range_tac |].
  exists g1, g2. split; [exact Hrun|].
  refine (Hg1 0 0 0 ltac:(lia) ltac:(lia) ltac:(lia) _).
  intros k Hk. assert (k = 0) as -> by lia. discriminate.
Defined.

Lemma same_value_zero (x y : float) :
  same_value x y -> is_zero y = true -> is_zero x = true.
Proof. by intros [->|[? _]]. Qed.

Lemma add_zeros (x y : float) :
  is_zero x = true -> is_zero y = true -> is_zero (F32.add x y) = true.
Proof. by destruct x as [[]| | |], y as [[]| | |]. Qed.

(** No gradient comes out when none comes in: when both upstream
    gradients are zero everywhere and the coordinate differences that
    both passes form are finite, every element of [gradXyz1] and of
    [gradXyz2] is a zero. *)
Theorem backward_zero_gradient (junk_f : float)
    (xyz1_tensor xyz2_tensor grad_dist1_tensor : Tensor float)
    (idx1_tensor : Tensor Z) (grad_dist2_tensor : Tensor float)
    (idx2_tensor : Tensor Z) (b n m : Z) :
  point_set xyz1_tensor b n -> point_set xyz2_tensor b m ->
  side_input grad_dist1_tensor idx1_tensor b n m ->
  side_input grad_dist2_tensor idx2_tensor b m n ->
  in_range idx1_tensor m -> in_range idx2_tensor n ->
  all_zero grad_dist1_tensor -> all_zero grad_dist2_tensor ->
  finite_differences xyz1_tensor xyz2_tensor idx1_tensor b n m ->
  finite_differences xyz2_tensor xyz1_tensor idx2_tensor b m n ->
  exists grad_xyz1 grad_xyz2,
    NnDistance2GradOp_Compute junk_f xyz1_tensor xyz2_tensor
      grad_dist1_tensor idx1_tensor grad_dist2_tensor idx2_tensor =
      Some (mkGrad OK (Some (mkTensor [b; n; 6] grad_xyz1))
                      (Some (mkTensor [b; m; 6] grad_xyz2))) /\
    Forall (fun v => is_zero v = true) grad_xyz1 /\
    Forall (fun v => is_zero v = true) grad_xyz2.
Proof.
  intros H1 H2 S1 S2 R1 R2 Z1 Z2 F1 F2.
  destruct (GradCompute_ok junk_f _ _ _ _ _ _ b n m H1 H2 S1 S2 R1 R2)
    as (g1 & g2 & Hrun & HA & HB).
  assert (forall i j c, 0 <= i < b -> 0 <= j < n -> 0 <= c < 6 ->
            is_zero (contrib n m (flat xyz1_tensor) (flat xyz2_tensor)
                       (flat grad_dist1_tensor) (flat idx1_tensor) i j c)
            = true) as T1.
  { intros i j c Hi Hj Hc. unfold contrib. apply mul_zero_finite.
    - by apply mul_zero_two, all_zero_at2.
    - by apply F1. }
  assert (forall i k c, 0 <= i < b -> 0 <= k < m -> 0 <= c < 6 ->
            is_zero (contrib m n (flat xyz2_tensor) (flat xyz1_tensor)
                       (flat grad_dist2_tensor) (flat idx2_tensor) i k c)
            = true) as T2.
  { intros i k c Hi Hk Hc. unfold contrib. apply mul_zero_finite.
    - by apply mul_zero_two, all_zero_at2.
    - by apply F2. }
  destruct H1 as [_ _ _ Hn _], H2 as [_ _ _ Hm _].
  exists g1, g2. split; [done|]. split.
  - apply (agrees_Forall _ _ b n _ ltac:(lia) HA). intros i j c Hi Hj Hc.
    unfold grad1_expected. eapply same_value_zero.
    + apply take_from_zeros. intros k Hk. apply T2; lia.
    + apply add_zeros; [reflexivity | by apply T1].
  - apply (agrees_Forall _ _ b m _ ltac:(lia) HB). intros i k c Hi Hk Hc.
    unfold grad2_expected. apply add_zeros; [|by apply T2].
    apply (same_value_zero _ (F32.of_int 0)); [|reflexivity].
    apply take_from_zeros. intros j Hj. apply T1; lia.
Qed.

Lemma backward_zero_gradient_witness :
  exists grad_xyz1 grad_xyz2,
    NnDistance2GradOp_Compute (F32.of_int 9) ex_origin ex_unit
      ex_grad_zero ex_idx_first ex_grad_zero ex_idx_first =
      Some (mkGrad OK (Some (mkTensor [1; 1; 6] grad_xyz1))
                      (Some (mkTensor [1; 1; 6] grad_xyz2))) /\
    Forall (fun v => is_zero v = true) grad_xyz1 /\
    Forall (fun v => is_zero v = true) grad_xyz2.
Proof.
  apply (backward_zero_gradient (F32.of_int 9) ex_origin ex_unit
           ex_grad_zero ex_idx_first ex_grad_zero ex_idx_first 1 1 1).
  - point_set_tac.
  - point_set_tac.
  - side_input_tac.
  - side_input_tac.
  - in_range_tac.
  - in_range_tac.
  - repeat constructor.
  - repeat constructor.
  - intros i j c Hi Hj Hc. assert (i = 0) as -> by lia.
    assert (j = 0) as -> by lia. six_cases c; reflexivity.
  - intros i j c Hi Hj Hc. assert (i = 0) as -> by lia.
    assert (j = 0) as -> by lia. six_cases c; reflexivity.
Defined.

(** ** The GPU kernels *)

Ltac requires_cases :=
  repeat match goal with
  | |- context [if ?c then _ else _] => destruct c; [|done]
  end.

(** The GPU forward kernel rejects what the CPU forward kernel rejects:
    whatever the launcher does, either of the two calls ends with a
    context whose status is an error exactly when the other ends with
    that context. *)
Theorem gpu_forward_rejects_alike
    (launcher : Z -> Z -> list float -> Z -> list float ->
                list float -> list Z -> list float -> list Z ->
                option ((list float * list Z) * (list float * list Z)))
    (junk_f : float) (junk_i : Z) (xyz1_tensor xyz2_tensor : Tensor float)
    (c : FwdContext) :
  fwd_status c <> OK ->
  NnDistance2GpuOp_Compute launcher junk_f junk_i xyz1_tensor xyz2_tensor
    = Some c <->
  NnDistance2Op_Compute junk_f junk_i xyz1_tensor xyz2_tensor = Some c.
Proof.
  intros Hc.
  unfold NnDistance2GpuOp_Compute, NnDistance2Op_Compute, OP_REQUIRES.
  requires_cases.
  destruct (TensorShape _) as [sh1|]; [|done]. cbn [mbind option_bind].
  destruct (TensorShape _) as [sh2|]; [|done]. cbn [mbind option_bind].
  split; intros H; exfalso; apply Hc.
  - destruct (launcher _ _ _ _ _ _ _ _ _) as [[[d1 i1] [d2 i2]]|];
      cbn in H; [|done]. by injection H as <-.
  - destruct (nnsearch _ _ _ _ _ _ _) as [[d1 i1]|];
      destruct (nnsearch _ _ _ _ _ _ _) as [[d2 i2]|]; cbn in H; try done.
    by injection H as <-.
Qed.

Lemma gpu_forward_rejects_alike_witness :
  NnDistance2GpuOp_Compute ex_launcher_fault F32.zero 0 ex_rank1 ex_origin
    = Some (mkFwd (InvalidArgument
         "NnDistance requires xyz1 be of shape (batch,#points,6)"%string)
         None None None None) <->
  NnDistance2Op_Compute F32.zero 0 ex_rank1 ex_origin
    = Some (mkFwd (InvalidArgument
         "NnDistance requires xyz1 be of shape (batch,#points,6)"%string)
         None None None None).
Proof.
  apply (gpu_forward_rejects_alike ex_launcher_fault F32.zero 0 ex_rank1
           ex_origin). discriminate.
Defined.

(** The GPU backward kernel rejects what the CPU backward kernel rejects:
    whatever the launcher does, either of the two calls ends with a
    context whose status is an error exactly when the other ends with
    that context. *)
Theorem gpu_backward_rejects_alike
    (launcher : Z -> Z -> list float -> Z -> list float ->
                list float -> list Z -> list float -> list Z ->
                list float -> list float -> option (list float * list float))
    (junk_f : float)
    (xyz1_tensor xyz2_tensor grad_dist1_tensor : Tensor float)
    (idx1_tensor : Tensor Z) (grad_dist2_tensor : Tensor float)
    (idx2_tensor : Tensor Z) (c : GradContext) :
  grad_status c <> OK ->
  NnDistance2GradGpuOp_Compute launcher junk_f xyz1_tensor xyz2_tensor
    grad_dist1_tensor idx1_tensor grad_dist2_tensor idx2_tensor = Some c <->
  NnDistance2GradOp_Compute junk_f xyz1_tensor xyz2_tensor
    grad_dist1_tensor idx1_tensor grad_dist2_tensor idx2_tensor = Some c.
Proof.
  intros Hc.
  unfold NnDistance2GradGpuOp_Compute, NnDistance2GradOp_Compute, OP_REQUIRES.
  requires_cases.
  repeat (destruct (shape_is _ _) as [[]|]); cbn [mbind option_bind];
    try done.
  destruct (TensorShape _) as [sh1|]; [|done]. cbn [mbind option_bind].
  destruct (TensorShape _) as [sh2|]; [|done]. cbn [mbind option_bind].
  split; intros H; exfalso; apply Hc.
  - destruct (launcher _ _ _ _ _ _ _ _ _ _ _) as [[g1 g2]|];
      cbn in H; [|done]. by injection H as <-.
  - destruct (grad_loops _ _ _ _ _ _ _ _ _ _ _) as [[g1 g2]|];
      cbn in H; [|done]. by injection H as <-.
Qed.

Lemma gpu_backward_rejects_alike_witness :
  NnDistance2GradGpuOp_Compute ex_grad_launcher_fault F32.zero
    ex_origin ex_unit ex_grad_one ex_idx_rank1 ex_grad_zero ex_idx_first
    = Some (mkGrad (InvalidArgument
         "NnDistanceGrad requires idx1 be of shape(batch,#points)"%string)
         None None) <->
  NnDistance2GradOp_Compute F32.zero
    ex_origin ex_unit ex_grad_one ex_idx_rank1 ex_grad_zero ex_idx_first
    = Some (mkGrad (InvalidArgument
         "NnDistanceGrad requires idx1 be of shape(batch,#points)"%string)
         None None).
Proof.
  apply (gpu_backward_rejects_alike ex_grad_launcher_fault F32.zero
           ex_origin ex_unit ex_grad_one ex_idx_rank1 ex_grad_zero
           ex_idx_first). discriminate.
Defined.

(** ** Extents beyond [int] *)

Lemma wrap_range (z : Z) : -2147483648 <= Int.wrap z <= Int.max_signed.
Proof.
  unfold Int.wrap, Int.max_signed.
  pose proof (Z.mod_pos_bound (z + 2147483648) 4294967296). lia.
Qed.

(** Two point sets of the same batch size are turned down for differing
    batch sizes when that size is not a value of [int]: [b] holds the
    truncated extent, and the extent of [xyz2] is compared with [b].  The
    forward and the backward kernel both end with that error and no
    output. *)
Theorem oversized_batch_rejected (junk_f : float) (junk_i : Z)
    (xyz1_tensor xyz2_tensor grad_dist1_tensor : Tensor float)
    (idx1_tensor : Tensor Z) (grad_dist2_tensor : Tensor float)
    (idx2_tensor : Tensor Z) (B n m : Z) :
  shape xyz1_tensor = [B; n; 6] -> shape xyz2_tensor = [B; m; 6] ->
  Int.max_signed < B ->
  NnDistance2Op_Compute junk_f junk_i xyz1_tensor xyz2_tensor =
    Some (mkFwd (InvalidArgument
            "NnDistance expects xyz1 and xyz2 have same batch size"%string)
            None None None None) /\
  NnDistance2GradOp_Compute junk_f xyz1_tensor xyz2_tensor
    grad_dist1_tensor idx1_tensor grad_dist2_tensor idx2_tensor =
    Some (mkGrad (InvalidArgument
            "NnDistance expects xyz1 and xyz2 have same batch size"%string)
            None None).
Proof.
  intros Hs1 Hs2 HB. pose proof (wrap_range B) as Hw.
  assert ((B =? Int.wrap B) = false) as Hne by lia.
  unfold NnDistance2Op_Compute, NnDistance2GradOp_Compute, OP_REQUIRES,
    dims, dim_size.
  rewrite Hs1, Hs2.
  cbn [length lookup list_lookup default from_option id].
  change (Z.of_nat 3 =? 3) with true. change (6 =? 6) with true. cbv iota.
  by rewrite Hne.
Qed.

Lemma oversized_batch_rejected_witness :
  NnDistance2Op_Compute F32.zero 0 ex_oversized ex_oversized =
    Some (mkFwd (InvalidArgument
            "NnDistance expects xyz1 and xyz2 have same batch size"%string)
            None None None None) /\
  NnDistance2GradOp_Compute F32.zero ex_oversized ex_oversized
    ex_grad_one ex_idx_first ex_grad_one ex_idx_first =
    Some (mkGrad (InvalidArgument
            "NnDistance expects xyz1 and xyz2 have same batch size"%string)
            None None).
Proof.
  apply (oversized_batch_rejected F32.zero 0 ex_oversized ex_oversized
           ex_grad_one ex_idx_first ex_grad_one ex_idx_first
           2147483648 0 0); [reflexivity | reflexivity |].
  unfold Int.max_signed. lia.
Defined.

(** ** Batches in the backward call *)

Lemma take_from_ext (match_of match_of' : Z -> Z) (t t' : Z -> float)
    (k : Z) (J : nat) (acc : float) :
  (forall j, 0 <= j < Z.of_nat J ->
     match_of j = match_of' j /\ t j = t' j) ->
  take_from match_of t k J acc = take_from match_of' t' k J acc.
Proof.
  induction J as [|J IH]; intros Hext; [done|].
  cbn [take_from]. rewrite IH by (intros; apply Hext; lia).
  by destruct (Hext (Z.of_nat J) ltac:(lia)) as [-> ->].
Qed.

Lemma contrib_same_batch (n m : Z) (xyzA xyzB xyzA' xyzB' : list float)
    (grad_dist grad_dist' : list float) (idx idx' : list Z) (i j c : Z) :
  same_batch n m xyzA xyzB xyzA' xyzB' i ->
  same_side n grad_dist grad_dist' idx idx' i ->
  0 <= at2 0 idx n i j < m -> 0 <= j < n -> 0 <= c < 6 ->
  contrib n m xyzA xyzB grad_dist idx i j c =
  contrib n m xyzA' xyzB' grad_dist' idx' i j c.
Proof.
  intros [HA HB] Hside Hk Hj Hc. unfold contrib.
  destruct (Hside j Hj) as [Hg Hi]. rewrite <- Hi, <- Hg.
  by rewrite (HA j c Hj Hc), (HB _ c Hk Hc).
Qed.

(** Batches do not interact in the backward call: when two sets of inputs
    of the same shapes, with matches in range, hold the same values in
    batch [i], the two calls return the same gradients for batch [i],
    whatever the other batches hold. *)
Theorem backward_batch_local (junk_f : float)
    (xyz1_tensor xyz2_tensor grad_dist1_tensor : Tensor float)
    (idx1_tensor : Tensor Z) (grad_dist2_tensor : Tensor float)
    (idx2_tensor : Tensor Z)
    (xyz1_tensor' xyz2_tensor' grad_dist1_tensor' : Tensor float)
    (idx1_tensor' : Tensor Z) (grad_dist2_tensor' : Tensor float)
    (idx2_tensor' : Tensor Z) (b n m i : Z) :
  point_set xyz1_tensor b n -> point_set xyz2_tensor b m ->
  side_input grad_dist1_tensor idx1_tensor b n m ->
  side_input grad_dist2_tensor idx2_tensor b m n ->
  in_range idx1_tensor m -> in_range idx2_tensor n ->
  point_set xyz1_tensor' b n -> point_set xyz2_tensor' b m ->
  side_input grad_dist1_tensor' idx1_tensor' b n m ->
  side_input grad_dist2_tensor' idx2_tensor' b m n ->
  in_range idx1_tensor' m -> in_range idx2_tensor' n ->
  0 <= i < b ->
  same_batch n m (flat xyz1_tensor) (flat xyz2_tensor)
    (flat xyz1_tensor') (flat xyz2_tensor') i ->
  same_side n (flat grad_dist1_tensor) (flat grad_dist1_tensor')
    (flat idx1_tensor) (flat idx1_tensor') i ->
  same_side m (flat grad_dist2_tensor) (flat grad_dist2_tensor')
    (flat idx2_tensor) (flat idx2_tensor') i ->
  exists grad_xyz1 grad_xyz2 grad_xyz1' grad_xyz2',
    NnDistance2GradOp_Compute junk_f xyz1_tensor xyz2_tensor
      grad_dist1_tensor idx1_tensor grad_dist2_tensor idx2_tensor =
      Some (mkGrad OK (Some (mkTensor [b; n; 6] grad_xyz1))
                      (Some (mkTensor [b; m; 6] grad_xyz2))) /\
    NnDistance2GradOp_Compute junk_f xyz1_tensor' xyz2_tensor'
      grad_dist1_tensor' idx1_tensor' grad_dist2_tensor' idx2_tensor' =
      Some (mkGrad OK (Some (mkTensor [b; n; 6] grad_xyz1'))
                      (Some (mkTensor [b; m; 6] grad_xyz2'))) /\
    (forall j c, 0 <= j < n -> 0 <= c < 6 ->
       rd grad_xyz1 ((i * n + j) * 6 + c) =
       rd grad_xyz1' ((i * n + j) * 6 + c)) /\
    (forall k c, 0 <= k < m -> 0 <= c < 6 ->
       rd grad_xyz2 ((i * m + k) * 6 + c) =
       rd grad_xyz2' ((i * m + k) * 6 + c)).
Proof.
  intros H1 H2 S1 S2 R1 R2 H1' H2' S1' S2' R1' R2' Hi Hsame Hside1 Hside2.
  destruct (GradCompute_ok junk_f _ _ _ _ _ _ b n m H1 H2 S1 S2 R1 R2)
    as (g1 & g2 & Hrun & [_ HA] & [_ HB]).
  destruct (GradCompute_ok junk_f _ _ _ _ _ _ b n m H1' H2' S1' S2' R1' R2')
    as (g1' & g2' & Hrun' & [_ HA'] & [_ HB']).
  assert (same_batch m n (flat xyz2_tensor) (flat xyz1_tensor)
            (flat xyz2_tensor') (flat xyz1_tensor') i) as Hsame'
    by (destruct Hsame; by split).
  assert (forall j c, 0 <= j < n -> 0 <= c < 6 ->
            contrib n m (flat xyz1_tensor) (flat xyz2_tensor)
              (flat grad_dist1_tensor) (flat idx1_tensor) i j c =
            contrib n m (flat xyz1_tensor') (flat xyz2_tensor')
              (flat grad_dist1_tensor') (flat idx1_tensor') i j c) as T1.
  { intros j c Hj Hc. apply contrib_same_batch; try done.
    destruct S1 as [_ _ _ Hlen]. by apply (in_range_at2 _ b). }
  assert (forall k c, 0 <= k < m -> 0 <= c < 6 ->
            contrib m n (flat xyz2_tensor) (flat xyz1_tensor)
              (flat grad_dist2_tensor) (flat idx2_tensor) i k c =
            contrib m n (flat xyz2_tensor') (flat xyz1_tensor')
              (flat grad_dist2_tensor') (flat idx2_tensor') i k c) as T2.
  { intros k c Hk Hc. apply contrib_same_batch; try done.
    destruct S2 as [_ _ _ Hlen]. by apply (in_range_at2 _ b). }
  destruct H1 as [_ _ _ Hn _], H2 as [_ _ _ Hm _].
  exists g1, g2, g1', g2'. split; [done|]. split; [done|]. split.
  - intros j c Hj Hc. rewrite HA, HA' by done. f_equal.
    unfold grad1_expected. rewrite T1 by done. apply take_from_ext.
    intros k Hk. split; [apply Hside2; lia | apply T2; lia].
  - intros k c Hk Hc. rewrite HB, HB' by done. f_equal.
    unfold grad2_expected. rewrite T2 by done. f_equal. apply take_from_ext.
    intros j Hj. split; [apply Hside1; lia | apply T1; lia].
Qed.

Lemma same_side_two :
  same_side 1 (flat ex_two_grad1) (flat ex_two_grad1')
    (flat ex_two_idx1) (flat ex_two_idx1') 0 /\
  same_side 2 (flat ex_two_grad2) (flat ex_two_grad2')
    (flat ex_two_idx2) (flat ex_two_idx2) 0.
Proof.
  split.
  - intros j Hj. assert (j = 0) as -> by lia. by split.
  - intros k Hk. assert (k = 0 \/ k = 1) as [-> | ->] by lia; by split.
Qed.

Lemma backward_batch_local_witness :
  exists grad_xyz1 grad_xyz2 grad_xyz1' grad_xyz2',
    NnDistance2GradOp_Compute F32.zero ex_two_left ex_two_right
      ex_two_grad1 ex_two_idx1 ex_two_grad2 ex_two_idx2 =
      Some (mkGrad OK (Some (mkTensor [2; 1; 6] grad_xyz1))
                      (Some (mkTensor [2; 2; 6] grad_xyz2))) /\
    NnDistance2GradOp_Compute F32.zero ex_two_left' ex_two_right'
      ex_two_grad1' ex_two_idx1' ex_two_grad2' ex_two_idx2 =
      Some (mkGrad OK (Some (mkTensor [2; 1; 6] grad_xyz1'))
                      (Some (mkTensor [2; 2; 6] grad_xyz2'))) /\
    rd grad_xyz1 0 = rd grad_xyz1' 0 /\
    rd grad_xyz2 6 = rd grad_xyz2' 6.
Proof.
  destruct (backward_batch_local F32.zero ex_two_left ex_two_right
              ex_two_grad1 ex_two_idx1 ex_two_grad2 ex_two_idx2
              ex_two_left' ex_two_right'
              ex_two_grad1' ex_two_idx1' ex_two_grad2' ex_two_idx2 2 1 2 0)
    as (g1 & g2 & g1' & g2' & Hrun & Hrun' & Hc1 & Hc2).
  - point_set_tac.
  - point_set_tac.
  - side_input_tac.
  - side_input_tac.
  - in_range_tac.
  - in_range_tac.
  - point_set_tac.
  - point_set_tac.
  - side_input_tac.
  - side_input_tac.
  - in_range_tac.
  - in_range_tac.
  - lia.
  - exact same_batch_two.
  - exact (proj1 same_side_two).
  - exact (proj2 same_side_two).
  - exists g1, g2, g1', g2'. split; [exact Hrun|]. split; [exact Hrun'|].
    split.
    + exact (Hc1 0 0 ltac:(lia) ltac:(lia)).
    + exact (Hc2 1 0 ltac:(lia) ltac:(lia)).
Defined.
